(** * PyRDP connection-data and dynamic-channel codecs

    A shallow embedding of
      - pyrdp/parser/rdp/connection.py
          (ClientConnectionParser, ServerConnectionParser),
      - pyrdp/parser/rdp/virtual_channel/dynamic_channel.py
          (DynamicChannelParser),
      - pyrdp/pdu/rdp/virtual_channel/dynamic_channel.py
          (the DynamicChannelPDU classes),
    together with the properties stated about them.

    Python values are modelled as follows: [int] is [Z], [bytes] is a list
    of [Z] (each element a byte value), [str] is a list of code points,
    [None]-able attributes are [option]s.  Exceptions are an error value of
    a small state-and-exception monad in which the state (the stream that is
    read or written, the object being filled in) survives a raise, as a
    mutated Python object survives a [try]/[except]. *)

From Stdlib Require Import ZArith List Lia Bool.
Import ListNotations.
Open Scope Z_scope.

(** ** Python values and exceptions *)

Definition bytes := list Z.
Definition str := list Z.

(** The exception classes the three modules raise or let through. *)
Inductive exn : Type :=
| EOFError                         (* StrictStream: short read *)
| StructError                      (* struct.error: short buffer, None, out of range *)
| ValueError                       (* Enum(value) on a non-member, invalid width *)
| ParsingError                     (* pyrdp.exceptions.ParsingError *)
| UnknownPDUTypeError (header : Z) (* pyrdp.exceptions.UnknownPDUTypeError *)
| ExploitError                     (* pyrdp.exceptions.ExploitError *)
| NotImplementedError
| UnicodeDecodeError
| UnicodeEncodeError
| AttributeError.                  (* attribute access on None *)

Inductive result (A : Type) : Type :=
| Ok (a : A)
| Raise (e : exn).
Arguments Ok {A} a.
Arguments Raise {A} e.

(** ** The state-and-exception monad *)

Definition M (S A : Type) : Type := S -> result A * S.

Definition ret {S A} (a : A) : M S A := fun s => (Ok a, s).

Definition bind {S A B} (m : M S A) (k : A -> M S B) : M S B :=
  fun s => match m s with
           | (Ok a, s') => k a s'
           | (Raise e, s') => (Raise e, s')
           end.

Definition raise {S A} (e : exn) : M S A := fun s => (Raise e, s).

(** [try: body except E: pass], for the exception class selected by [handles]. *)
Definition try_except {S} (handles : exn -> bool) (body : M S unit) : M S unit :=
  fun s => match body s with
           | (Raise e, s') => if handles e then (Ok tt, s') else (Raise e, s')
           | r => r
           end.

Declare Scope monad_scope.
Delimit Scope monad_scope with monad.
Notation "x <- m ;; k" := (bind m (fun x => k))
  (at level 61, m at next level, right associativity) : monad_scope.
Notation "m ;;; k" := (bind m (fun _ => k))
  (at level 61, right associativity) : monad_scope.
Open Scope monad_scope.

Definition fmap {S A B} (f : A -> B) (m : M S A) : M S B :=
  a <- m ;; ret (f a).

Definition is_EOFError (e : exn) : bool :=
  match e with EOFError => true | _ => false end.
Definition is_StructError (e : exn) : bool :=
  match e with StructError => true | _ => false end.

(** ** io.BytesIO

    A stream is its buffer split at the current position:
    [getvalue] is [consumed ++ remaining] and [tell] is [length consumed]. *)

Record BytesIO : Type := mkBytesIO { consumed : bytes; remaining : bytes }.

Definition BytesIO_of (data : bytes) : BytesIO := mkBytesIO [] data.
Definition getvalue (s : BytesIO) : bytes := consumed s ++ remaining s.
Definition tell (s : BytesIO) : Z := Z.of_nat (length (consumed s)).
Definition len {A} (l : list A) : Z := Z.of_nat (length l).

(** [stream.read(n)]: at most [n] bytes; every remaining byte when [n] is
    negative. *)
Definition BytesIO_read (n : Z) : M BytesIO bytes :=
  fun s =>
    let k := if n <? 0 then length (remaining s) else Z.to_nat n in
    (Ok (firstn k (remaining s)),
     mkBytesIO (consumed s ++ firstn k (remaining s)) (skipn k (remaining s))).

(** [stream.read()] *)
Definition BytesIO_read_all : M BytesIO bytes := BytesIO_read (-1).

(** Writing always appends: the writers only ever write at the end of a
    fresh stream, so the written stream is the list of bytes written so far. *)
Definition stream_write (bs : bytes) : M bytes unit :=
  fun out => (Ok tt, out ++ bs).

(** ** pyrdp.core *)

(** Modelled from the spec: pyrdp.core.StrictStream is not among the sources.
    "A strict read wrapper that raises a distinguished end-of-input condition
    (as opposed to returning a short/zero result) when a requested read
    cannot be satisfied". *)
Definition StrictStream_read (n : Z) : M BytesIO bytes :=
  data <- BytesIO_read n ;;
  if len data =? n then ret data else raise EOFError.

(** Little-endian value of a byte string. *)
Fixpoint le_value (bs : bytes) : Z :=
  match bs with
  | [] => 0
  | b :: r => b + 256 * le_value r
  end.

(** The [w] low bytes of [v], least significant first. *)
Fixpoint le_bytes (w : nat) (v : Z) : bytes :=
  match w with
  | O => []
  | S w' => v mod 256 :: le_bytes w' (v / 256)
  end.

(** Modelled from the spec: pyrdp.core.Uint8, Uint16LE and Uint32LE are not
    among the sources.  "Fixed-width little-endian integer encode/decode":
    [unpack] reads the width from the stream it is given (through that
    stream's own [read]) and fails when the read is short; [pack] fails on a
    value that is not an integer of the width. *)
Definition Uint_unpack (w : nat) (read : Z -> M BytesIO bytes) : M BytesIO Z :=
  data <- read (Z.of_nat w) ;;
  if len data =? Z.of_nat w then ret (le_value data) else raise StructError.

Definition Uint_pack (w : nat) (value : Z) : result bytes :=
  if (0 <=? value) && (value <? 256 ^ Z.of_nat w)
  then Ok (le_bytes w value) else Raise StructError.

(** [pack] applied to an attribute that may be [None]. *)
Definition Uint_pack_opt (w : nat) (value : option Z) : result bytes :=
  match value with
  | Some v => Uint_pack w v
  | None => Raise StructError
  end.

Definition Uint8_unpack := Uint_unpack 1.
Definition Uint16LE_unpack := Uint_unpack 2.
Definition Uint32LE_unpack := Uint_unpack 4.
Definition Uint8_pack := Uint_pack 1.
Definition Uint16LE_pack := Uint_pack 2.
Definition Uint32LE_pack := Uint_pack 4.

(** [stream.write(X.pack(v))] and [X.pack(v, stream)]. *)
Definition write_result (r : result bytes) : M bytes unit :=
  match r with
  | Ok bs => stream_write bs
  | Raise e => raise e
  end.

(** Running a writer on a fresh [BytesIO()] and taking [getvalue()]. *)
Definition run_writer (m : M bytes unit) : result bytes :=
  match m [] with
  | (Ok _, out) => Ok out
  | (Raise e, _) => Raise e
  end.

(** Running a parser on [BytesIO(data)]. *)
Definition run_parser {A} (m : M BytesIO A) (data : bytes) : result A :=
  fst (m (BytesIO_of data)).

Definition lift_result {S A} (r : result A) : M S A :=
  match r with
  | Ok a => ret a
  | Raise e => raise e
  end.

(** ** bytes and str built-ins *)

Definition is_continuation (b : Z) : bool := (0x80 <=? b) && (b <=? 0xBF).
Definition in_range (lo hi b : Z) : bool := (lo <=? b) && (b <=? hi).

(** [data.decode()]: strict UTF-8 (no overlong forms, no surrogates, nothing
    above U+10FFFF); [None] stands for UnicodeDecodeError. *)
Fixpoint utf8_decode (data : bytes) : option str :=
  match data with
  | [] => Some []
  | b0 :: t0 =>
    if in_range 0 0x7F b0 then
      option_map (cons b0) (utf8_decode t0)
    else if in_range 0xC2 0xDF b0 then
      match t0 with
      | b1 :: t1 =>
        if is_continuation b1
        then option_map (cons ((b0 - 0xC0) * 64 + (b1 - 0x80))) (utf8_decode t1)
        else None
      | _ => None
      end
    else if in_range 0xE0 0xEF b0 then
      match t0 with
      | b1 :: b2 :: t2 =>
        if (if b0 =? 0xE0 then in_range 0xA0 0xBF b1
            else if b0 =? 0xED then in_range 0x80 0x9F b1
            else is_continuation b1) && is_continuation b2
        then option_map
               (cons ((b0 - 0xE0) * 4096 + (b1 - 0x80) * 64 + (b2 - 0x80)))
               (utf8_decode t2)
        else None
      | _ => None
      end
    else if in_range 0xF0 0xF4 b0 then
      match t0 with
      | b1 :: b2 :: b3 :: t3 =>
        if (if b0 =? 0xF0 then in_range 0x90 0xBF b1
            else if b0 =? 0xF4 then in_range 0x80 0x8F b1
            else is_continuation b1) && is_continuation b2 && is_continuation b3
        then option_map
               (cons ((b0 - 0xF0) * 262144 + (b1 - 0x80) * 4096
                      + (b2 - 0x80) * 64 + (b3 - 0x80)))
               (utf8_decode t3)
        else None
      | _ => None
      end
    else None
  end.

Definition decode (data : bytes) : result str :=
  match utf8_decode data with
  | Some s => Ok s
  | None => Raise UnicodeDecodeError
  end.

(** [s.encode()]: UTF-8; a surrogate code point cannot be encoded. *)
Definition utf8_encode_char (c : Z) : option bytes :=
  if c <? 0x80 then Some [c]
  else if c <? 0x800 then Some [0xC0 + c / 64; 0x80 + c mod 64]
  else if in_range 0xD800 0xDFFF c then None
  else if c <? 0x10000 then
    Some [0xE0 + c / 4096; 0x80 + (c / 64) mod 64; 0x80 + c mod 64]
  else
    Some [0xF0 + c / 262144; 0x80 + (c / 4096) mod 64;
          0x80 + (c / 64) mod 64; 0x80 + c mod 64].

Fixpoint utf8_encode (s : str) : option bytes :=
  match s with
  | [] => Some []
  | c :: r =>
    match utf8_encode_char c, utf8_encode r with
    | Some bs, Some rs => Some (bs ++ rs)
    | _, _ => None
    end
  end.

Definition encode (s : str) : result bytes :=
  match utf8_encode s with
  | Some bs => Ok bs
  | None => Raise UnicodeEncodeError
  end.

Definition list_eqb (a b : list Z) : bool :=
  if list_eq_dec Z.eq_dec a b then true else false.

(** [needle in hay] for byte strings. *)
Fixpoint starts_with (needle hay : bytes) : bool :=
  match needle, hay with
  | [], _ => true
  | n :: needle', h :: hay' => (n =? h) && starts_with needle' hay'
  | _ :: _, [] => false
  end.

Fixpoint contains (needle hay : bytes) : bool :=
  starts_with needle hay ||
  match hay with
  | [] => false
  | _ :: hay' => contains needle hay'
  end.

(** [data.upper()]: ASCII lower-case letters become upper-case, every other
    byte is kept. *)
Definition upper_byte (b : Z) : Z := if in_range 0x61 0x7A b then b - 0x20 else b.
Definition upper (data : bytes) : bytes := map upper_byte data.

(** [data.strip(b"\x00")] *)
Fixpoint lstrip0 (data : bytes) : bytes :=
  match data with
  | b :: r => if b =? 0 then lstrip0 r else data
  | [] => []
  end.
Definition strip0 (data : bytes) : bytes := rev (lstrip0 (rev (lstrip0 data))).

(** [data.ljust(n, b"\x00")[: n]] *)
Definition ljust0 (n : nat) (data : bytes) : bytes :=
  data ++ repeat 0 (n - length data).
Definition ljust0_slice (n : nat) (data : bytes) : bytes := firstn n (ljust0 n data).

(** ** pyrdp.enum.virtual_channel.dynamic_channel *)

(** Modelled from the spec: the enumerations CbId and DynamicChannelCommand
    are not among the sources.  "The width selectors take only the values
    {0,1,2} meaning {1 byte, 2 bytes, 4 bytes}"; the command codes are the
    ones of the dynamic virtual channel protocol. *)
Module CbId.
Definition ONE_BYTE : Z := 0.
Definition TWO_BYTE : Z := 1.
Definition FOUR_BYTES : Z := 2.
Definition members : list Z := [ONE_BYTE; TWO_BYTE; FOUR_BYTES].
End CbId.

Module DynamicChannelCommand.
Definition CREATE : Z := 1.
Definition DATA_FIRST : Z := 2.
Definition DATA : Z := 3.
Definition CLOSE : Z := 4.
Definition CAPABILITY_REQUEST : Z := 5.
Definition DATA_FIRST_COMPRESSED : Z := 6.
Definition DATA_COMPRESSED : Z := 7.
Definition SOFT_SYNC_REQUEST : Z := 8.
Definition SOFT_SYNC_RESPONSE : Z := 9.
Definition members : list Z :=
  [CREATE; DATA_FIRST; DATA; CLOSE; CAPABILITY_REQUEST;
   DATA_FIRST_COMPRESSED; DATA_COMPRESSED;
   SOFT_SYNC_REQUEST; SOFT_SYNC_RESPONSE].
End DynamicChannelCommand.

Definition is_member (members : list Z) (v : Z) : bool :=
  existsb (Z.eqb v) members.

(** [E(value)] for an IntEnum [E]: the member of that value, or ValueError. *)
Definition enum_cast (members : list Z) (v : Z) : result Z :=
  if is_member members v then Ok v else Raise ValueError.

(** ** pyrdp.pdu.rdp.virtual_channel.dynamic_channel *)

Module DynamicChannel.

(** One constructor per class; the attributes [cbid], [sp], [cmd] of the
    base class are kept by every instance, [cmd] being fixed by the class
    of a subclass instance. *)
Inductive PDU : Type :=
| DynamicChannelPDU (cbid sp cmd : Z) (payload : bytes)
| CapabilityResponsePDU (cbid sp capability : Z)
| CreateRequestPDU (cbid sp channelId : Z) (channelName : str)
| CreateResponsePDU (cbid sp channelId creationStatus : Z)
| DynamicDataFirstPDU (cbid sp channelId length : Z) (data : bytes)
| DynamicDataPDU (cbid sp channelId : Z) (data : bytes)
| DynamicDataFirstCompressedPDU (cbid sp channelId length : Z) (data : bytes)
| DynamicDataCompressedPDU (cbid sp channelId : Z) (data : bytes)
| CloseDynamicChannelPDU (cbid sp channelId : Z).

Definition cbid (pdu : PDU) : Z :=
  match pdu with
  | DynamicChannelPDU c _ _ _ | CapabilityResponsePDU c _ _
  | CreateRequestPDU c _ _ _ | CreateResponsePDU c _ _ _
  | DynamicDataFirstPDU c _ _ _ _ | DynamicDataPDU c _ _ _
  | DynamicDataFirstCompressedPDU c _ _ _ _ | DynamicDataCompressedPDU c _ _ _
  | CloseDynamicChannelPDU c _ _ => c
  end.

Definition sp (pdu : PDU) : Z :=
  match pdu with
  | DynamicChannelPDU _ s _ _ | CapabilityResponsePDU _ s _
  | CreateRequestPDU _ s _ _ | CreateResponsePDU _ s _ _
  | DynamicDataFirstPDU _ s _ _ _ | DynamicDataPDU _ s _ _
  | DynamicDataFirstCompressedPDU _ s _ _ _ | DynamicDataCompressedPDU _ s _ _
  | CloseDynamicChannelPDU _ s _ => s
  end.

Definition cmd (pdu : PDU) : Z :=
  match pdu with
  | DynamicChannelPDU _ _ c _ => c
  | CapabilityResponsePDU _ _ _ => DynamicChannelCommand.CAPABILITY_REQUEST
  | CreateRequestPDU _ _ _ _ => DynamicChannelCommand.CREATE
  | CreateResponsePDU _ _ _ _ => DynamicChannelCommand.CREATE
  | DynamicDataFirstPDU _ _ _ _ _ => DynamicChannelCommand.DATA_FIRST
  | DynamicDataPDU _ _ _ _ => DynamicChannelCommand.DATA
  | DynamicDataFirstCompressedPDU _ _ _ _ _ =>
    DynamicChannelCommand.DATA_FIRST_COMPRESSED
  | DynamicDataCompressedPDU _ _ _ _ => DynamicChannelCommand.DATA_COMPRESSED
  | CloseDynamicChannelPDU _ _ _ => DynamicChannelCommand.CLOSE
  end.

(** [DynamicChannelPDU.__init__]: [CbId(cbid)] and
    [DynamicChannelCommand(cmd)] raise ValueError on a value that is not a
    member.  Every subclass goes through it with its own command. *)
Definition init (pdu : PDU) : result PDU :=
  match enum_cast CbId.members (cbid pdu) with
  | Raise e => Raise e
  | Ok _ =>
    match enum_cast DynamicChannelCommand.members (cmd pdu) with
    | Raise e => Raise e
    | Ok _ => Ok pdu
    end
  end.

End DynamicChannel.

(** ** pyrdp.parser.rdp.virtual_channel.dynamic_channel *)

Module DynamicChannelParser.
Import DynamicChannel.

Definition readChannelId (cbid : Z) : M BytesIO Z :=
  if cbid =? CbId.ONE_BYTE then Uint8_unpack BytesIO_read
  else if cbid =? CbId.TWO_BYTE then Uint16LE_unpack BytesIO_read
  else if cbid =? CbId.FOUR_BYTES then Uint32LE_unpack BytesIO_read
  else raise ValueError.

Definition readLength (len : Z) : M BytesIO Z :=
  if len =? CbId.ONE_BYTE then Uint8_unpack BytesIO_read
  else if len =? CbId.TWO_BYTE then Uint16LE_unpack BytesIO_read
  else if len =? CbId.FOUR_BYTES then Uint32LE_unpack BytesIO_read
  else raise ValueError.

Definition writeChannelId (cbid channelId : Z) : M bytes unit :=
  if cbid =? CbId.ONE_BYTE then write_result (Uint8_pack channelId)
  else if cbid =? CbId.TWO_BYTE then write_result (Uint16LE_pack channelId)
  else if cbid =? CbId.FOUR_BYTES then write_result (Uint32LE_pack channelId)
  else raise ValueError.

Definition writeLength (len length : Z) : M bytes unit :=
  if len =? CbId.ONE_BYTE then write_result (Uint8_pack length)
  else if len =? CbId.TWO_BYTE then write_result (Uint16LE_pack length)
  else if len =? CbId.FOUR_BYTES then write_result (Uint32LE_pack length)
  else raise ValueError.

(** [char = stream.read(1).decode()] *)
Definition readChar : M BytesIO str :=
  data <- BytesIO_read 1 ;; lift_result (decode data).

(** The loop of the CREATE branch,
      [while char != "\x00": channelName += char; char = stream.read(1).decode()],
    run for at most [fuel] evaluations of its condition.  [None] is
    returned when the loop is still running after them. *)
Fixpoint readChannelName (fuel : nat) (channelName char : str)
  : M BytesIO (option str) :=
  match fuel with
  | O => ret None
  | S fuel' =>
    if list_eqb char [0] then ret (Some channelName)
    else
      char' <- readChar ;;
      readChannelName fuel' (channelName ++ char) char'
  end.

(** [doParse], in which the loop above is given [fuel]; the result is
    [Ok None] when that loop did not exit within [fuel] iterations. *)
Definition doParse_stream (fuel : nat) : M BytesIO (option PDU) :=
  header <- Uint8_unpack BytesIO_read ;;
  let cbid := Z.land header 3 in
  let sp := Z.shiftr (Z.land header 12) 2 in
  let cmd := Z.shiftr (Z.land header 240) 4 in
  if cmd =? DynamicChannelCommand.CREATE then
    channelId <- readChannelId cbid ;;
    char <- readChar ;;
    name <- readChannelName fuel [] char ;;
    match name with
    | None => ret None
    | Some channelName =>
      pdu <- lift_result (init (CreateRequestPDU cbid sp channelId channelName)) ;;
      ret (Some pdu)
    end
  else if cmd =? DynamicChannelCommand.DATA_FIRST then
    channelId <- readChannelId cbid ;;
    length <- readLength sp ;;
    data <- BytesIO_read_all ;;
    pdu <- lift_result (init (DynamicDataFirstPDU cbid sp channelId length data)) ;;
    ret (Some pdu)
  else if cmd =? DynamicChannelCommand.DATA then
    channelId <- readChannelId cbid ;;
    data <- BytesIO_read_all ;;
    pdu <- lift_result (init (DynamicDataPDU cbid sp channelId data)) ;;
    ret (Some pdu)
  else if cmd =? DynamicChannelCommand.DATA_FIRST_COMPRESSED then
    channelId <- readChannelId cbid ;;
    length <- readLength sp ;;
    data <- BytesIO_read_all ;;
    pdu <- lift_result
             (init (DynamicDataFirstCompressedPDU cbid sp channelId length data)) ;;
    ret (Some pdu)
  else if cmd =? DynamicChannelCommand.DATA_COMPRESSED then
    channelId <- readChannelId cbid ;;
    data <- BytesIO_read_all ;;
    pdu <- lift_result (init (DynamicDataCompressedPDU cbid sp channelId data)) ;;
    ret (Some pdu)
  else if cmd =? DynamicChannelCommand.CLOSE then
    channelId <- readChannelId cbid ;;
    pdu <- lift_result (init (CloseDynamicChannelPDU cbid sp channelId)) ;;
    ret (Some pdu)
  else
    payload <- BytesIO_read_all ;;
    pdu <- lift_result (init (DynamicChannelPDU cbid sp cmd payload)) ;;
    ret (Some pdu).

Definition doParse (fuel : nat) (data : bytes) : result (option PDU) :=
  run_parser (doParse_stream fuel) data.

Definition write_stream (pdu : PDU) : M bytes unit :=
  let header := cbid pdu in
  let header := Z.lor header (Z.shiftl (sp pdu) 2) in
  let header := Z.lor header (Z.shiftl (cmd pdu) 4) in
  write_result (Uint8_pack header) ;;;
  match pdu with
  | CapabilityResponsePDU _ _ capability =>
    write_result (Uint8_pack 0) ;;;
    write_result (Uint16LE_pack capability)
  | CreateResponsePDU cbid _ channelId creationStatus =>
    writeChannelId cbid channelId ;;;
    write_result (Uint32LE_pack creationStatus)
  | DynamicDataFirstPDU cbid sp channelId length data =>
    writeChannelId cbid channelId ;;;
    writeLength sp length ;;;
    stream_write data
  | DynamicDataPDU cbid _ channelId data =>
    writeChannelId cbid channelId ;;;
    stream_write data
  | DynamicDataFirstCompressedPDU cbid sp channelId length data =>
    writeChannelId cbid channelId ;;;
    writeLength sp length ;;;
    stream_write data
  | DynamicDataCompressedPDU cbid _ channelId data =>
    writeChannelId cbid channelId ;;;
    stream_write data
  | CloseDynamicChannelPDU cbid _ channelId =>
    writeChannelId cbid channelId
  | DynamicChannelPDU _ _ _ _ | CreateRequestPDU _ _ _ _ =>
    raise NotImplementedError
  end.

Definition write (pdu : PDU) : result bytes := run_writer (write_stream pdu).

End DynamicChannelParser.


(** The three fields of the header byte, as [doParse] extracts them and as
    [write] packs them. *)
Definition header_cbid (header : Z) : Z := Z.land header 3.
Definition header_sp (header : Z) : Z := Z.shiftr (Z.land header 12) 2.
Definition header_cmd (header : Z) : Z := Z.shiftr (Z.land header 240) 4.
Definition pack_header (cbid sp cmd : Z) : Z :=
  Z.lor (Z.lor cbid (Z.shiftl sp 2)) (Z.shiftl cmd 4).

Definition header_ok (header : Z) : bool :=
  in_range 0 3 (header_cbid header) && in_range 0 3 (header_sp header)
  && in_range 0 15 (header_cmd header)
  && (pack_header (header_cbid header) (header_sp header) (header_cmd header)
      =? header).


(** ** Local variables and objects filled in under a [try]

    A function that assigns local variables (or attributes of an object it
    has just built) inside a [try] block is run on the pair of its stream
    and those locals, so that the assignments made before an exception are
    still there in the handler. *)

Definition on_stream {L A} (m : M BytesIO A) : M (BytesIO * L) A :=
  fun '(s, l) => match m s with (r, s') => (r, (s', l)) end.

Definition assign {L} (f : L -> L) : M (BytesIO * L) unit :=
  fun '(s, l) => (Ok tt, (s, f l)).

Definition with_locals {L} (init : L) (body : M (BytesIO * L) unit) : M BytesIO L :=
  fun s => match body (s, init) with
           | (Ok _, (s', l)) => (Ok l, s')
           | (Raise e, (s', _)) => (Raise e, s')
           end.

(** [[m for _ in range(n)]] *)
Fixpoint repeatM {S A} (n : nat) (m : M S A) : M S (list A) :=
  match n with
  | O => ret []
  | S n' => a <- m ;; r <- repeatM n' m ;; ret (a :: r)
  end.

(** [for x in xs: f(x)] *)
Fixpoint forM {S A} (xs : list A) (f : A -> M S unit) : M S unit :=
  match xs with
  | [] => ret tt
  | x :: r => f x ;;; forM r f
  end.

(** Modelled from the spec: pyrdp.core.decodeUTF16LE and encodeUTF16LE are
    not among the sources.  "A fixed two-byte-per-character text encoding":
    a character is one 16-bit unit, least significant byte first. *)
Fixpoint decodeUTF16LE (data : bytes) : str :=
  match data with
  | b0 :: b1 :: r => (b0 + 256 * b1) :: decodeUTF16LE r
  | _ => []
  end.

Definition encodeUTF16LE (s : str) : bytes := flat_map (le_bytes 2) s.

(** [encodeUTF16LE] applied to an attribute that may be [None]: the call of
    a string method on [None] raises AttributeError. *)
Definition encodeUTF16LE_opt (s : option str) : result bytes :=
  match s with
  | Some s => Ok (encodeUTF16LE s)
  | None => Raise AttributeError
  end.

(** ** pyrdp.enum *)

(** Modelled from the spec: the enumerations of pyrdp.enum are not among the
    sources.  The type tags of the connection data blocks and the members of
    the value enumerations are the ones of the RDP connection sequence
    (MS-RDPBCGR); the spec's example uses version 0x00080004 and colour depth
    0xCA01. *)
Module ConnectionDataType.
Definition SERVER_CORE : Z := 0x0C01.
Definition SERVER_SECURITY : Z := 0x0C02.
Definition SERVER_NETWORK : Z := 0x0C03.
Definition SERVER_MSGCHANNEL : Z := 0x0C04.
Definition SERVER_MULTITRANSPORT : Z := 0x0C08.
Definition CLIENT_CORE : Z := 0xC001.
Definition CLIENT_SECURITY : Z := 0xC002.
Definition CLIENT_NETWORK : Z := 0xC003.
Definition CLIENT_CLUSTER : Z := 0xC004.
Definition CLIENT_MONITOR : Z := 0xC005.
Definition CLIENT_MSGCHANNEL : Z := 0xC006.
Definition CLIENT_MONITOR_EX : Z := 0xC008.
Definition CLIENT_MULTITRANSPORT : Z := 0xC00A.
Definition CLIENT_UNUSED1 : Z := 0xC00C.
End ConnectionDataType.

Module RDPVersion.
Definition members : list Z :=
  [0x80001; 0x80004; 0x80005; 0x80006; 0x80007; 0x80008; 0x80009;
   0x8000A; 0x8000B; 0x8000C; 0x8000D; 0x8000E; 0x8000F; 0x80010; 0x80011].
End RDPVersion.

Module ColorDepth.
Definition members : list Z := [0xCA00; 0xCA01; 0xCA02; 0xCA03; 0xCA04].
End ColorDepth.

Module ConnectionType.
Definition members : list Z := [0; 1; 2; 3; 4; 5; 6; 7].
End ConnectionType.

Module DesktopOrientation.
Definition members : list Z := [0; 90; 180; 270].
End DesktopOrientation.

Module EncryptionMethod.
Definition members : list Z := [0; 1; 2; 8; 16].
End EncryptionMethod.

Module EncryptionLevel.
Definition members : list Z := [0; 1; 2; 3; 4].
End EncryptionLevel.

Module ServerCertificateType.
Definition PROPRIETARY : Z := 1.
Definition X509 : Z := 2.
End ServerCertificateType.

(** ** pyrdp.pdu: the connection data classes *)

(** Modelled from the spec: the classes of pyrdp.pdu for the connection data
    are not among the sources; their fields are the arguments and attributes
    the parser passes and reads.  An optional field is an attribute that is
    [None] until it is assigned. *)
Record ClientCoreData : Type := mkClientCoreData {
  version : Z;
  desktopWidth : Z;
  desktopHeight : Z;
  colorDepth : Z;
  sasSequence : Z;
  keyboardLayout : Z;
  clientBuild : Z;
  clientName : str;
  keyboardType : Z;
  keyboardSubType : Z;
  keyboardFunctionKey : Z;
  imeFileName : bytes;
  postBeta2ColorDepth : option Z;
  clientProductId : option Z;
  serialNumber : option Z;
  highColorDepth : option Z;
  supportedColorDepths : option Z;
  earlyCapabilityFlags : option Z;
  clientDigProductId : option str;
  connectionType : option Z;
  serverSelectedProtocol : option Z;
  desktopPhysicalWidth : option Z;
  desktopPhysicalHeight : option Z;
  desktopOrientation : option Z;
  desktopScaleFactor : option Z;
  deviceScaleFactor : option Z
}.

(** [ClientCoreData(...)]: the twelve constructor arguments, every optional
    attribute [None]. *)
Definition new_ClientCoreData (version desktopWidth desktopHeight colorDepth
    sasSequence keyboardLayout clientBuild : Z) (clientName : str)
    (keyboardType keyboardSubType keyboardFunctionKey : Z) (imeFileName : bytes)
  : ClientCoreData :=
  mkClientCoreData version desktopWidth desktopHeight colorDepth sasSequence
    keyboardLayout clientBuild clientName keyboardType keyboardSubType
    keyboardFunctionKey imeFileName
    None None None None None None None None None None None None None None.

Record ClientSecurityData : Type := mkClientSecurityData {
  encryptionMethods : Z;
  extEncryptionMethods : Z
}.

Record ClientChannelDefinition : Type := mkClientChannelDefinition {
  name : str;
  options : Z
}.

Record ClientNetworkData : Type := mkClientNetworkData {
  channelDefinitions : list ClientChannelDefinition
}.

Record ClientClusterData : Type := mkClientClusterData {
  cluster_flags : Z;
  redirectedSessionID : Z
}.

Record ClientMonitorAttribute : Type := mkClientMonitorAttribute {
  physicalWidth : Z;
  physicalHeight : Z;
  orientation : Z;
  attr_desktopScaleFactor : Z;
  attr_deviceScaleFactor : Z
}.

(** ClientMonitorData and ClientMonitorExData have the same four fields. *)
Record ClientMonitorData : Type := mkClientMonitorData {
  monitor_flags : Z;
  monitorAttributeSize : Z;
  monitorCount : Z;
  monitorAttributes : list ClientMonitorAttribute
}.

Inductive ClientStructure : Type :=
| ClientCore (core : ClientCoreData)
| ClientSecurity (security : ClientSecurityData)
| ClientNetwork (network : ClientNetworkData)
| ClientCluster (cluster : ClientClusterData)
| ClientMonitor (monitor : ClientMonitorData)
| ClientMessageChannel (flags : Z)
| ClientMonitorEx (monitorEx : ClientMonitorData)
| ClientMultitransport (flags : Z)
| ClientUnused1 (pad2Octets : Z).

(** [structure.header] *)
Definition client_header (st : ClientStructure) : Z :=
  match st with
  | ClientCore _ => ConnectionDataType.CLIENT_CORE
  | ClientSecurity _ => ConnectionDataType.CLIENT_SECURITY
  | ClientNetwork _ => ConnectionDataType.CLIENT_NETWORK
  | ClientCluster _ => ConnectionDataType.CLIENT_CLUSTER
  | ClientMonitor _ => ConnectionDataType.CLIENT_MONITOR
  | ClientMessageChannel _ => ConnectionDataType.CLIENT_MSGCHANNEL
  | ClientMonitorEx _ => ConnectionDataType.CLIENT_MONITOR_EX
  | ClientMultitransport _ => ConnectionDataType.CLIENT_MULTITRANSPORT
  | ClientUnused1 _ => ConnectionDataType.CLIENT_UNUSED1
  end.

(** The nine attributes of a ClientDataPDU hold the parsed structures. *)
Record ClientDataPDU : Type := mkClientDataPDU {
  coreData : option ClientStructure;
  securityData : option ClientStructure;
  networkData : option ClientStructure;
  clusterData : option ClientStructure;
  monitorData : option ClientStructure;
  messageChannelData : option ClientStructure;
  monitorExData : option ClientStructure;
  multitransportData : option ClientStructure;
  unused1Data : option ClientStructure
}.

(** [core.field = v]: assignment of one optional attribute. *)
Definition set_postBeta2ColorDepth (v : Z) (c : ClientCoreData) : ClientCoreData :=
  mkClientCoreData (version c) (desktopWidth c) (desktopHeight c)
    (colorDepth c) (sasSequence c) (keyboardLayout c) (clientBuild c)
    (clientName c) (keyboardType c) (keyboardSubType c)
    (keyboardFunctionKey c) (imeFileName c) (Some v) (clientProductId c)
    (serialNumber c) (highColorDepth c) (supportedColorDepths c)
    (earlyCapabilityFlags c) (clientDigProductId c) (connectionType c)
    (serverSelectedProtocol c) (desktopPhysicalWidth c)
    (desktopPhysicalHeight c) (desktopOrientation c) (desktopScaleFactor c)
    (deviceScaleFactor c).
Definition set_clientProductId (v : Z) (c : ClientCoreData) : ClientCoreData :=
  mkClientCoreData (version c) (desktopWidth c) (desktopHeight c)
    (colorDepth c) (sasSequence c) (keyboardLayout c) (clientBuild c)
    (clientName c) (keyboardType c) (keyboardSubType c)
    (keyboardFunctionKey c) (imeFileName c) (postBeta2ColorDepth c) (Some v)
    (serialNumber c) (highColorDepth c) (supportedColorDepths c)
    (earlyCapabilityFlags c) (clientDigProductId c) (connectionType c)
    (serverSelectedProtocol c) (desktopPhysicalWidth c)
    (desktopPhysicalHeight c) (desktopOrientation c) (desktopScaleFactor c)
    (deviceScaleFactor c).
Definition set_serialNumber (v : Z) (c : ClientCoreData) : ClientCoreData :=
  mkClientCoreData (version c) (desktopWidth c) (desktopHeight c)
    (colorDepth c) (sasSequence c) (keyboardLayout c) (clientBuild c)
    (clientName c) (keyboardType c) (keyboardSubType c)
    (keyboardFunctionKey c) (imeFileName c) (postBeta2ColorDepth c)
    (clientProductId c) (Some v) (highColorDepth c) (supportedColorDepths c)
    (earlyCapabilityFlags c) (clientDigProductId c) (connectionType c)
    (serverSelectedProtocol c) (desktopPhysicalWidth c)
    (desktopPhysicalHeight c) (desktopOrientation c) (desktopScaleFactor c)
    (deviceScaleFactor c).
Definition set_highColorDepth (v : Z) (c : ClientCoreData) : ClientCoreData :=
  mkClientCoreData (version c) (desktopWidth c) (desktopHeight c)
    (colorDepth c) (sasSequence c) (keyboardLayout c) (clientBuild c)
    (clientName c) (keyboardType c) (keyboardSubType c)
    (keyboardFunctionKey c) (imeFileName c) (postBeta2ColorDepth c)
    (clientProductId c) (serialNumber c) (Some v) (supportedColorDepths c)
    (earlyCapabilityFlags c) (clientDigProductId c) (connectionType c)
    (serverSelectedProtocol c) (desktopPhysicalWidth c)
    (desktopPhysicalHeight c) (desktopOrientation c) (desktopScaleFactor c)
    (deviceScaleFactor c).
Definition set_supportedColorDepths (v : Z) (c : ClientCoreData) : ClientCoreData :=
  mkClientCoreData (version c) (desktopWidth c) (desktopHeight c)
    (colorDepth c) (sasSequence c) (keyboardLayout c) (clientBuild c)
    (clientName c) (keyboardType c) (keyboardSubType c)
    (keyboardFunctionKey c) (imeFileName c) (postBeta2ColorDepth c)
    (clientProductId c) (serialNumber c) (highColorDepth c) (Some v)
    (earlyCapabilityFlags c) (clientDigProductId c) (connectionType c)
    (serverSelectedProtocol c) (desktopPhysicalWidth c)
    (desktopPhysicalHeight c) (desktopOrientation c) (desktopScaleFactor c)
    (deviceScaleFactor c).
Definition set_earlyCapabilityFlags (v : Z) (c : ClientCoreData) : ClientCoreData :=
  mkClientCoreData (version c) (desktopWidth c) (desktopHeight c)
    (colorDepth c) (sasSequence c) (keyboardLayout c) (clientBuild c)
    (clientName c) (keyboardType c) (keyboardSubType c)
    (keyboardFunctionKey c) (imeFileName c) (postBeta2ColorDepth c)
    (clientProductId c) (serialNumber c) (highColorDepth c)
    (supportedColorDepths c) (Some v) (clientDigProductId c)
    (connectionType c) (serverSelectedProtocol c) (desktopPhysicalWidth c)
    (desktopPhysicalHeight c) (desktopOrientation c) (desktopScaleFactor c)
    (deviceScaleFactor c).
Definition set_clientDigProductId (v : str) (c : ClientCoreData) : ClientCoreData :=
  mkClientCoreData (version c) (desktopWidth c) (desktopHeight c)
    (colorDepth c) (sasSequence c) (keyboardLayout c) (clientBuild c)
    (clientName c) (keyboardType c) (keyboardSubType c)
    (keyboardFunctionKey c) (imeFileName c) (postBeta2ColorDepth c)
    (clientProductId c) (serialNumber c) (highColorDepth c)
    (supportedColorDepths c) (earlyCapabilityFlags c) (Some v)
    (connectionType c) (serverSelectedProtocol c) (desktopPhysicalWidth c)
    (desktopPhysicalHeight c) (desktopOrientation c) (desktopScaleFactor c)
    (deviceScaleFactor c).
Definition set_connectionType (v : Z) (c : ClientCoreData) : ClientCoreData :=
  mkClientCoreData (version c) (desktopWidth c) (desktopHeight c)
    (colorDepth c) (sasSequence c) (keyboardLayout c) (clientBuild c)
    (clientName c) (keyboardType c) (keyboardSubType c)
    (keyboardFunctionKey c) (imeFileName c) (postBeta2ColorDepth c)
    (clientProductId c) (serialNumber c) (highColorDepth c)
    (supportedColorDepths c) (earlyCapabilityFlags c) (clientDigProductId c)
    (Some v) (serverSelectedProtocol c) (desktopPhysicalWidth c)
    (desktopPhysicalHeight c) (desktopOrientation c) (desktopScaleFactor c)
    (deviceScaleFactor c).
Definition set_serverSelectedProtocol (v : Z) (c : ClientCoreData) : ClientCoreData :=
  mkClientCoreData (version c) (desktopWidth c) (desktopHeight c)
    (colorDepth c) (sasSequence c) (keyboardLayout c) (clientBuild c)
    (clientName c) (keyboardType c) (keyboardSubType c)
    (keyboardFunctionKey c) (imeFileName c) (postBeta2ColorDepth c)
    (clientProductId c) (serialNumber c) (highColorDepth c)
    (supportedColorDepths c) (earlyCapabilityFlags c) (clientDigProductId c)
    (connectionType c) (Some v) (desktopPhysicalWidth c)
    (desktopPhysicalHeight c) (desktopOrientation c) (desktopScaleFactor c)
    (deviceScaleFactor c).
Definition set_desktopPhysicalWidth (v : Z) (c : ClientCoreData) : ClientCoreData :=
  mkClientCoreData (version c) (desktopWidth c) (desktopHeight c)
    (colorDepth c) (sasSequence c) (keyboardLayout c) (clientBuild c)
    (clientName c) (keyboardType c) (keyboardSubType c)
    (keyboardFunctionKey c) (imeFileName c) (postBeta2ColorDepth c)
    (clientProductId c) (serialNumber c) (highColorDepth c)
    (supportedColorDepths c) (earlyCapabilityFlags c) (clientDigProductId c)
    (connectionType c) (serverSelectedProtocol c) (Some v)
    (desktopPhysicalHeight c) (desktopOrientation c) (desktopScaleFactor c)
    (deviceScaleFactor c).
Definition set_desktopPhysicalHeight (v : Z) (c : ClientCoreData) : ClientCoreData :=
  mkClientCoreData (version c) (desktopWidth c) (desktopHeight c)
    (colorDepth c) (sasSequence c) (keyboardLayout c) (clientBuild c)
    (clientName c) (keyboardType c) (keyboardSubType c)
    (keyboardFunctionKey c) (imeFileName c) (postBeta2ColorDepth c)
    (clientProductId c) (serialNumber c) (highColorDepth c)
    (supportedColorDepths c) (earlyCapabilityFlags c) (clientDigProductId c)
    (connectionType c) (serverSelectedProtocol c) (desktopPhysicalWidth c)
    (Some v) (desktopOrientation c) (desktopScaleFactor c)
    (deviceScaleFactor c).
Definition set_desktopOrientation (v : Z) (c : ClientCoreData) : ClientCoreData :=
  mkClientCoreData (version c) (desktopWidth c) (desktopHeight c)
    (colorDepth c) (sasSequence c) (keyboardLayout c) (clientBuild c)
    (clientName c) (keyboardType c) (keyboardSubType c)
    (keyboardFunctionKey c) (imeFileName c) (postBeta2ColorDepth c)
    (clientProductId c) (serialNumber c) (highColorDepth c)
    (supportedColorDepths c) (earlyCapabilityFlags c) (clientDigProductId c)
    (connectionType c) (serverSelectedProtocol c) (desktopPhysicalWidth c)
    (desktopPhysicalHeight c) (Some v) (desktopScaleFactor c)
    (deviceScaleFactor c).
Definition set_desktopScaleFactor (v : Z) (c : ClientCoreData) : ClientCoreData :=
  mkClientCoreData (version c) (desktopWidth c) (desktopHeight c)
    (colorDepth c) (sasSequence c) (keyboardLayout c) (clientBuild c)
    (clientName c) (keyboardType c) (keyboardSubType c)
    (keyboardFunctionKey c) (imeFileName c) (postBeta2ColorDepth c)
    (clientProductId c) (serialNumber c) (highColorDepth c)
    (supportedColorDepths c) (earlyCapabilityFlags c) (clientDigProductId c)
    (connectionType c) (serverSelectedProtocol c) (desktopPhysicalWidth c)
    (desktopPhysicalHeight c) (desktopOrientation c) (Some v)
    (deviceScaleFactor c).
Definition set_deviceScaleFactor (v : Z) (c : ClientCoreData) : ClientCoreData :=
  mkClientCoreData (version c) (desktopWidth c) (desktopHeight c)
    (colorDepth c) (sasSequence c) (keyboardLayout c) (clientBuild c)
    (clientName c) (keyboardType c) (keyboardSubType c)
    (keyboardFunctionKey c) (imeFileName c) (postBeta2ColorDepth c)
    (clientProductId c) (serialNumber c) (highColorDepth c)
    (supportedColorDepths c) (earlyCapabilityFlags c) (clientDigProductId c)
    (connectionType c) (serverSelectedProtocol c) (desktopPhysicalWidth c)
    (desktopPhysicalHeight c) (desktopOrientation c) (desktopScaleFactor c)
    (Some v).

(** Assignment of one of the nine local variables of [doParse]. *)
Definition set_coreData (v : ClientStructure) (p : ClientDataPDU) : ClientDataPDU :=
  mkClientDataPDU (Some v) (securityData p) (networkData p) (clusterData p)
    (monitorData p) (messageChannelData p) (monitorExData p)
    (multitransportData p) (unused1Data p).
Definition set_securityData (v : ClientStructure) (p : ClientDataPDU) : ClientDataPDU :=
  mkClientDataPDU (coreData p) (Some v) (networkData p) (clusterData p)
    (monitorData p) (messageChannelData p) (monitorExData p)
    (multitransportData p) (unused1Data p).
Definition set_networkData (v : ClientStructure) (p : ClientDataPDU) : ClientDataPDU :=
  mkClientDataPDU (coreData p) (securityData p) (Some v) (clusterData p)
    (monitorData p) (messageChannelData p) (monitorExData p)
    (multitransportData p) (unused1Data p).
Definition set_clusterData (v : ClientStructure) (p : ClientDataPDU) : ClientDataPDU :=
  mkClientDataPDU (coreData p) (securityData p) (networkData p) (Some v)
    (monitorData p) (messageChannelData p) (monitorExData p)
    (multitransportData p) (unused1Data p).
Definition set_monitorData (v : ClientStructure) (p : ClientDataPDU) : ClientDataPDU :=
  mkClientDataPDU (coreData p) (securityData p) (networkData p)
    (clusterData p) (Some v) (messageChannelData p) (monitorExData p)
    (multitransportData p) (unused1Data p).
Definition set_messageChannelData (v : ClientStructure) (p : ClientDataPDU) : ClientDataPDU :=
  mkClientDataPDU (coreData p) (securityData p) (networkData p)
    (clusterData p) (monitorData p) (Some v) (monitorExData p)
    (multitransportData p) (unused1Data p).
Definition set_monitorExData (v : ClientStructure) (p : ClientDataPDU) : ClientDataPDU :=
  mkClientDataPDU (coreData p) (securityData p) (networkData p)
    (clusterData p) (monitorData p) (messageChannelData p) (Some v)
    (multitransportData p) (unused1Data p).
Definition set_multitransportData (v : ClientStructure) (p : ClientDataPDU) : ClientDataPDU :=
  mkClientDataPDU (coreData p) (securityData p) (networkData p)
    (clusterData p) (monitorData p) (messageChannelData p) (monitorExData p)
    (Some v) (unused1Data p).
Definition set_unused1Data (v : ClientStructure) (p : ClientDataPDU) : ClientDataPDU :=
  mkClientDataPDU (coreData p) (securityData p) (networkData p)
    (clusterData p) (monitorData p) (messageChannelData p) (monitorExData p)
    (multitransportData p) (Some v).

(** The stream itself, for [stream.getvalue()] and [stream.tell()]. *)
Definition get_stream : M BytesIO BytesIO := fun s => (Ok s, s).

(** [f(BytesIO(data))]: a parser run on a stream of its own. *)
Definition on_substream {S A} (m : M BytesIO A) (data : bytes) : M S A :=
  lift_result (run_parser m data).

Definition is_None {A} (o : option A) : bool :=
  match o with None => true | Some _ => false end.

(** ** pyrdp.parser.rdp.connection: ClientConnectionParser *)

Module ClientConnectionParser.

Definition parseClientCoreData : M BytesIO ClientCoreData :=
  let stream_read := StrictStream_read in
  v <- Uint32LE_unpack stream_read ;;
  version <- lift_result (enum_cast RDPVersion.members v) ;;
  desktopWidth <- Uint16LE_unpack stream_read ;;
  desktopHeight <- Uint16LE_unpack stream_read ;;
  v <- Uint16LE_unpack stream_read ;;
  colorDepth <- lift_result (enum_cast ColorDepth.members v) ;;
  sasSequence <- Uint16LE_unpack stream_read ;;
  keyboardLayout <- Uint32LE_unpack stream_read ;;
  clientBuild <- Uint32LE_unpack stream_read ;;
  d <- stream_read 32 ;;
  let clientName := decodeUTF16LE d in
  keyboardType <- Uint32LE_unpack stream_read ;;
  keyboardSubType <- Uint32LE_unpack stream_read ;;
  keyboardFunctionKey <- Uint32LE_unpack stream_read ;;
  imeFileName <- stream_read 64 ;;
  let core := new_ClientCoreData version desktopWidth desktopHeight colorDepth
                sasSequence keyboardLayout clientBuild clientName keyboardType
                keyboardSubType keyboardFunctionKey imeFileName in
  with_locals core
    (try_except is_EOFError
       (v <- on_stream (Uint16LE_unpack stream_read) ;;
        assign (set_postBeta2ColorDepth v) ;;;
        v <- on_stream (Uint16LE_unpack stream_read) ;;
        assign (set_clientProductId v) ;;;
        v <- on_stream (Uint32LE_unpack stream_read) ;;
        assign (set_serialNumber v) ;;;
        v <- on_stream (Uint16LE_unpack stream_read) ;;
        assign (set_highColorDepth v) ;;;
        v <- on_stream (Uint16LE_unpack stream_read) ;;
        assign (set_supportedColorDepths v) ;;;
        v <- on_stream (Uint16LE_unpack stream_read) ;;
        assign (set_earlyCapabilityFlags v) ;;;
        d <- on_stream (stream_read 64) ;;
        assign (set_clientDigProductId (decodeUTF16LE d)) ;;;
        v <- on_stream (Uint8_unpack stream_read) ;;
        v <- lift_result (enum_cast ConnectionType.members v) ;;
        assign (set_connectionType v) ;;;
        on_stream (stream_read 1) ;;;
        v <- on_stream (Uint32LE_unpack stream_read) ;;
        assign (set_serverSelectedProtocol v) ;;;
        v <- on_stream (Uint32LE_unpack stream_read) ;;
        assign (set_desktopPhysicalWidth v) ;;;
        v <- on_stream (Uint32LE_unpack stream_read) ;;
        assign (set_desktopPhysicalHeight v) ;;;
        v <- on_stream (Uint16LE_unpack stream_read) ;;
        v <- lift_result (enum_cast DesktopOrientation.members v) ;;
        assign (set_desktopOrientation v) ;;;
        v <- on_stream (Uint32LE_unpack stream_read) ;;
        assign (set_desktopScaleFactor v) ;;;
        v <- on_stream (Uint32LE_unpack stream_read) ;;
        assign (set_deviceScaleFactor v))).

Definition parseClientSecurityData : M BytesIO ClientSecurityData :=
  encryptionMethods <- Uint32LE_unpack BytesIO_read ;;
  extEncryptionMethods <- Uint32LE_unpack BytesIO_read ;;
  ret (mkClientSecurityData encryptionMethods extEncryptionMethods).

Definition MS_T120 : bytes := [0x4D; 0x53; 0x5F; 0x54; 0x31; 0x32; 0x30].

Definition detectBlueKeepScan (data : bytes) : bool :=
  contains MS_T120 (upper data).

(** One turn of the channel loop. *)
Definition parseChannelDefinition : M BytesIO ClientChannelDefinition :=
  raw <- BytesIO_read 8 ;;
  name <- lift_result (decode (strip0 raw)) ;;
  options <- Uint32LE_unpack BytesIO_read ;;
  ret (mkClientChannelDefinition name options).

Definition parseClientNetworkData : M BytesIO ClientNetworkData :=
  s <- get_stream ;;
  if detectBlueKeepScan (getvalue s) then raise ExploitError else
  channelCount <- Uint32LE_unpack BytesIO_read ;;
  s <- get_stream ;;
  let data := skipn 4 (getvalue s) in
  if negb (len data =? channelCount * 12) then raise ParsingError else
  channelDefinitions <- repeatM (Z.to_nat channelCount) parseChannelDefinition ;;
  ret (mkClientNetworkData channelDefinitions).

Definition parseClientClusterData : M BytesIO ClientClusterData :=
  flags <- Uint32LE_unpack BytesIO_read ;;
  redirectedSessionID <- Uint32LE_unpack BytesIO_read ;;
  ret (mkClientClusterData flags redirectedSessionID).

Definition parseClientMonitorAttribute : M BytesIO ClientMonitorAttribute :=
  physicalWidth <- Uint32LE_unpack BytesIO_read ;;
  physicalHeight <- Uint32LE_unpack BytesIO_read ;;
  orientation <- Uint32LE_unpack BytesIO_read ;;
  desktopScaleFactor <- Uint32LE_unpack BytesIO_read ;;
  deviceScaleFactor <- Uint32LE_unpack BytesIO_read ;;
  ret (mkClientMonitorAttribute physicalWidth physicalHeight orientation
         desktopScaleFactor deviceScaleFactor).

Definition parseClientMonitorData : M BytesIO ClientMonitorData :=
  flags <- Uint32LE_unpack BytesIO_read ;;
  monitorAttributeSize <- Uint32LE_unpack BytesIO_read ;;
  monitorCount <- Uint32LE_unpack BytesIO_read ;;
  monitorAttributes <- repeatM (Z.to_nat monitorCount) parseClientMonitorAttribute ;;
  ret (mkClientMonitorData flags monitorAttributeSize monitorCount monitorAttributes).

Definition parseClientMessageChannelData : M BytesIO Z :=
  Uint32LE_unpack BytesIO_read.

Definition parseClientMonitorExData : M BytesIO ClientMonitorData :=
  flags <- Uint32LE_unpack BytesIO_read ;;
  monitorAttributeSize <- Uint32LE_unpack BytesIO_read ;;
  monitorCount <- Uint32LE_unpack BytesIO_read ;;
  monitorAttributes <- repeatM (Z.to_nat monitorCount) parseClientMonitorAttribute ;;
  ret (mkClientMonitorData flags monitorAttributeSize monitorCount monitorAttributes).

Definition parseClientMultitransportData : M BytesIO Z :=
  Uint32LE_unpack BytesIO_read.

Definition parseClientUnused1Data : M BytesIO Z :=
  Uint16LE_unpack BytesIO_read.

(** [self.parsers]: the sub-parser registered for a type tag. *)
Definition parsers (header : Z) : option (M BytesIO ClientStructure) :=
  if header =? ConnectionDataType.CLIENT_CORE
  then Some (fmap ClientCore parseClientCoreData)
  else if header =? ConnectionDataType.CLIENT_SECURITY
  then Some (fmap ClientSecurity parseClientSecurityData)
  else if header =? ConnectionDataType.CLIENT_NETWORK
  then Some (fmap ClientNetwork parseClientNetworkData)
  else if header =? ConnectionDataType.CLIENT_CLUSTER
  then Some (fmap ClientCluster parseClientClusterData)
  else if header =? ConnectionDataType.CLIENT_MONITOR
  then Some (fmap ClientMonitor parseClientMonitorData)
  else if header =? ConnectionDataType.CLIENT_MSGCHANNEL
  then Some (fmap ClientMessageChannel parseClientMessageChannelData)
  else if header =? ConnectionDataType.CLIENT_MONITOR_EX
  then Some (fmap ClientMonitorEx parseClientMonitorExData)
  else if header =? ConnectionDataType.CLIENT_MULTITRANSPORT
  then Some (fmap ClientMultitransport parseClientMultitransportData)
  else if header =? ConnectionDataType.CLIENT_UNUSED1
  then Some (fmap ClientUnused1 parseClientUnused1Data)
  else None.

Definition parseStructure : M BytesIO ClientStructure :=
  header <- Uint16LE_unpack BytesIO_read ;;
  l <- Uint16LE_unpack BytesIO_read ;;
  let length := l - 4 in
  data <- BytesIO_read length ;;
  if negb (len data =? length) then raise ParsingError else
  match parsers header with
  | None => raise (UnknownPDUTypeError header)
  | Some parser => on_substream parser data
  end.

(** The [if]/[elif] chain on [structure.header] in the loop of [doParse]. *)
Definition record_structure (structure : ClientStructure) (vars : ClientDataPDU)
  : ClientDataPDU :=
  let header := client_header structure in
  if header =? ConnectionDataType.CLIENT_CORE then set_coreData structure vars
  else if header =? ConnectionDataType.CLIENT_SECURITY
  then set_securityData structure vars
  else if header =? ConnectionDataType.CLIENT_NETWORK
  then set_networkData structure vars
  else if header =? ConnectionDataType.CLIENT_CLUSTER
  then set_clusterData structure vars
  else if header =? ConnectionDataType.CLIENT_MONITOR
  then set_monitorData structure vars
  else if header =? ConnectionDataType.CLIENT_MSGCHANNEL
  then set_messageChannelData structure vars
  else if header =? ConnectionDataType.CLIENT_MONITOR_EX
  then set_monitorExData structure vars
  else if header =? ConnectionDataType.CLIENT_MULTITRANSPORT
  then set_multitransportData structure vars
  else if header =? ConnectionDataType.CLIENT_UNUSED1
  then set_unused1Data structure vars
  else vars.

(** The [while] loop of [doParse] on its nine local variables, for at most
    [fuel] evaluations of its condition ([None] when it is still running
    after them). *)
Fixpoint doParse_loop (fuel : nat) (vars : ClientDataPDU)
  : M BytesIO (option ClientDataPDU) :=
  match fuel with
  | O => ret None
  | S fuel' =>
    s <- get_stream ;;
    if negb (tell s =? len (getvalue s))
       && (is_None (coreData vars) || is_None (securityData vars)
           || is_None (networkData vars) || is_None (clusterData vars))
    then
      structure <- parseStructure ;;
      let vars := record_structure structure vars in
      s <- get_stream ;;
      if len (getvalue s) =? 0 then ret (Some vars)
      else doParse_loop fuel' vars
    else ret (Some vars)
  end.

Definition no_structure : ClientDataPDU :=
  mkClientDataPDU None None None None None None None None None.

(** [doParse]: every turn of the loop that does not raise reads at least
    the four bytes of a block header, so [length data + 1] evaluations of
    the condition always suffice (see [client_doParse_returns]). *)
Definition doParse (data : bytes) : result (option ClientDataPDU) :=
  run_parser (doParse_loop (S (length data)) no_structure) data.

Definition writeClientCoreData (core : ClientCoreData) : M bytes unit :=
  write_result (Uint32LE_pack (version core)) ;;;
  write_result (Uint16LE_pack (desktopWidth core)) ;;;
  write_result (Uint16LE_pack (desktopHeight core)) ;;;
  write_result (Uint16LE_pack (colorDepth core)) ;;;
  write_result (Uint16LE_pack (sasSequence core)) ;;;
  write_result (Uint32LE_pack (keyboardLayout core)) ;;;
  write_result (Uint32LE_pack (clientBuild core)) ;;;
  stream_write (ljust0_slice 32 (encodeUTF16LE (clientName core))) ;;;
  write_result (Uint32LE_pack (keyboardType core)) ;;;
  write_result (Uint32LE_pack (keyboardSubType core)) ;;;
  write_result (Uint32LE_pack (keyboardFunctionKey core)) ;;;
  stream_write (imeFileName core) ;;;
  try_except is_StructError
    (write_result (Uint_pack_opt 2 (postBeta2ColorDepth core)) ;;;
     write_result (Uint_pack_opt 2 (clientProductId core)) ;;;
     write_result (Uint_pack_opt 4 (serialNumber core)) ;;;
     write_result (Uint_pack_opt 2 (highColorDepth core)) ;;;
     write_result (Uint_pack_opt 2 (supportedColorDepths core)) ;;;
     write_result (Uint_pack_opt 2 (earlyCapabilityFlags core)) ;;;
     d <- lift_result (encodeUTF16LE_opt (clientDigProductId core)) ;;
     stream_write (ljust0_slice 64 d) ;;;
     write_result (Uint_pack_opt 1 (connectionType core)) ;;;
     stream_write [0] ;;;
     write_result (Uint_pack_opt 4 (serverSelectedProtocol core)) ;;;
     write_result (Uint_pack_opt 4 (desktopPhysicalWidth core)) ;;;
     write_result (Uint_pack_opt 4 (desktopPhysicalHeight core)) ;;;
     write_result (Uint_pack_opt 2 (desktopOrientation core)) ;;;
     write_result (Uint_pack_opt 4 (desktopScaleFactor core)) ;;;
     write_result (Uint_pack_opt 4 (deviceScaleFactor core))).

Definition writeClientSecurityData (security : ClientSecurityData) : M bytes unit :=
  write_result (Uint32LE_pack (encryptionMethods security)) ;;;
  write_result (Uint32LE_pack (extEncryptionMethods security)).

Definition writeClientNetworkData (network : ClientNetworkData) : M bytes unit :=
  write_result (Uint32LE_pack (len (channelDefinitions network))) ;;;
  forM (channelDefinitions network) (fun channel =>
    if len (name channel) >? 8 then raise ParsingError else
    d <- lift_result (encode (name channel)) ;;
    stream_write (ljust0_slice 8 d) ;;;
    write_result (Uint32LE_pack (options channel))).

Definition writeClientClusterData (cluster : ClientClusterData) : M bytes unit :=
  write_result (Uint32LE_pack (cluster_flags cluster)) ;;;
  write_result (Uint32LE_pack (redirectedSessionID cluster)).

Definition writeClientMonitorAttribute (monitorAttribute : ClientMonitorAttribute)
  : M bytes unit :=
  write_result (Uint32LE_pack (physicalWidth monitorAttribute)) ;;;
  write_result (Uint32LE_pack (physicalHeight monitorAttribute)) ;;;
  write_result (Uint32LE_pack (orientation monitorAttribute)) ;;;
  write_result (Uint32LE_pack (attr_desktopScaleFactor monitorAttribute)) ;;;
  write_result (Uint32LE_pack (attr_deviceScaleFactor monitorAttribute)).

Definition writeClientMonitorData (monitor : ClientMonitorData) : M bytes unit :=
  write_result (Uint32LE_pack (monitor_flags monitor)) ;;;
  write_result (Uint32LE_pack (monitorAttributeSize monitor)) ;;;
  write_result (Uint32LE_pack (monitorCount monitor)) ;;;
  forM (monitorAttributes monitor) writeClientMonitorAttribute.

Definition writeClientMessageChannelData (flags : Z) : M bytes unit :=
  write_result (Uint32LE_pack flags).

Definition writeClientMonitorExData (monitorEx : ClientMonitorData) : M bytes unit :=
  write_result (Uint32LE_pack (monitor_flags monitorEx)) ;;;
  write_result (Uint32LE_pack (monitorAttributeSize monitorEx)) ;;;
  write_result (Uint32LE_pack (monitorCount monitorEx)) ;;;
  forM (monitorAttributes monitorEx) writeClientMonitorAttribute.

Definition writeClientMultitransportData (flags : Z) : M bytes unit :=
  write_result (Uint32LE_pack flags).

Definition writeClientUnused1Data (pad2Octets : Z) : M bytes unit :=
  write_result (Uint16LE_pack pad2Octets).

(** [self.writers[data.header](substream, data)] *)
Definition writers (data : ClientStructure) : M bytes unit :=
  match data with
  | ClientCore core => writeClientCoreData core
  | ClientSecurity security => writeClientSecurityData security
  | ClientNetwork network => writeClientNetworkData network
  | ClientCluster cluster => writeClientClusterData cluster
  | ClientMonitor monitor => writeClientMonitorData monitor
  | ClientMessageChannel flags => writeClientMessageChannelData flags
  | ClientMonitorEx monitorEx => writeClientMonitorExData monitorEx
  | ClientMultitransport flags => writeClientMultitransportData flags
  | ClientUnused1 pad2Octets => writeClientUnused1Data pad2Octets
  end.

Definition writeStructure (data : ClientStructure) : M bytes unit :=
  substream <- lift_result (run_writer (writers data)) ;;
  write_result (Uint16LE_pack (client_header data)) ;;;
  write_result (Uint16LE_pack (len substream + 4)) ;;;
  stream_write substream.

(** [if pdu.x: self.writeStructure(stream, pdu.x)] *)
Definition write_if_present (x : option ClientStructure) : M bytes unit :=
  match x with
  | Some data => writeStructure data
  | None => ret tt
  end.

Definition write (pdu : ClientDataPDU) : result bytes :=
  run_writer
    (write_if_present (coreData pdu) ;;;
     write_if_present (securityData pdu) ;;;
     write_if_present (networkData pdu) ;;;
     write_if_present (clusterData pdu) ;;;
     write_if_present (monitorData pdu) ;;;
     write_if_present (messageChannelData pdu) ;;;
     write_if_present (monitorExData pdu) ;;;
     write_if_present (multitransportData pdu) ;;;
     write_if_present (unused1Data pdu)).

End ClientConnectionParser.

(** ** Crypto.PublicKey.RSA and Crypto.Util.number (external library) *)

Module RSA.

Record RsaKey : Type := mkRsaKey { n : Z; e : Z }.

(** [RSA.construct((n, e))] with its default consistency check: the
    public exponent must satisfy [1 < e < n] and be coprime to the
    modulus, and the modulus must be odd. *)
Definition construct (n e : Z) : result RsaKey :=
  if (e <=? 1) || (n <=? e) then Raise ValueError
  else if negb (Z.gcd n e =? 1) then Raise ValueError
  else if Z.even n then Raise ValueError
  else Ok (mkRsaKey n e).

End RSA.

(** [bytes_to_long(s)]: the big-endian value of [s]. *)
Definition bytes_to_long (s : bytes) : Z :=
  fold_left (fun acc b => acc * 256 + b) s 0.

(** [long_to_bytes(n)]: the big-endian bytes of [n] without leading zero
    bytes (one zero byte for 0); ValueError on a negative number. *)
Definition byte_length (n : Z) : nat := Z.to_nat (Z.log2 n / 8 + 1).

Definition long_to_bytes (n : Z) : result bytes :=
  if n <? 0 then Raise ValueError else Ok (rev (le_bytes (byte_length n) n)).

(** ** pyrdp.pdu: the server connection data classes *)

(** Modelled from the spec: the classes of pyrdp.pdu for the server
    connection data are not among the sources; their fields are the
    arguments and attributes the parser passes and reads. *)
Module ServerPDU.

Record ProprietaryCertificate : Type := mkProprietaryCertificate {
  signatureAlgorithmID : Z;
  keyAlgorithmID : Z;
  publicKeyType : Z;
  publicKey : RSA.RsaKey;
  signatureType : Z;
  signature : bytes;
  padding : bytes
}.

Record ServerCoreData : Type := mkServerCoreData {
  version : Z;
  clientRequestedProtocols : option Z;
  earlyCapabilityFlags : option Z
}.

Record ServerSecurityData : Type := mkServerSecurityData {
  encryptionMethod : Z;
  encryptionLevel : Z;
  serverRandom : option bytes;
  serverCertificate : option ProprietaryCertificate
}.

Record ServerNetworkData : Type := mkServerNetworkData {
  mcsChannelID : Z;
  channels : list Z
}.

Inductive ServerStructure : Type :=
| ServerCore (core : ServerCoreData)
| ServerSecurity (security : ServerSecurityData)
| ServerNetwork (network : ServerNetworkData)
| ServerMessageChannel (channelId : Z)
| ServerMultitransport (flags : Z).

(** [structure.header] *)
Definition header (st : ServerStructure) : Z :=
  match st with
  | ServerCore _ => ConnectionDataType.SERVER_CORE
  | ServerSecurity _ => ConnectionDataType.SERVER_SECURITY
  | ServerNetwork _ => ConnectionDataType.SERVER_NETWORK
  | ServerMessageChannel _ => ConnectionDataType.SERVER_MSGCHANNEL
  | ServerMultitransport _ => ConnectionDataType.SERVER_MULTITRANSPORT
  end.

Record ServerDataPDU : Type := mkServerDataPDU {
  coreData : option ServerStructure;
  securityData : option ServerStructure;
  networkData : option ServerStructure;
  messageChannelData : option ServerStructure;
  multitransportData : option ServerStructure
}.

Definition set_coreData (v : ServerStructure) (p : ServerDataPDU) :=
  mkServerDataPDU (Some v) (securityData p) (networkData p)
    (messageChannelData p) (multitransportData p).
Definition set_securityData (v : ServerStructure) (p : ServerDataPDU) :=
  mkServerDataPDU (coreData p) (Some v) (networkData p)
    (messageChannelData p) (multitransportData p).
Definition set_networkData (v : ServerStructure) (p : ServerDataPDU) :=
  mkServerDataPDU (coreData p) (securityData p) (Some v)
    (messageChannelData p) (multitransportData p).
Definition set_messageChannelData (v : ServerStructure) (p : ServerDataPDU) :=
  mkServerDataPDU (coreData p) (securityData p) (networkData p)
    (Some v) (multitransportData p).
Definition set_multitransportData (v : ServerStructure) (p : ServerDataPDU) :=
  mkServerDataPDU (coreData p) (securityData p) (networkData p)
    (messageChannelData p) (Some v).

End ServerPDU.

(** ** pyrdp.parser.rdp.connection: ServerConnectionParser *)

Module ServerConnectionParser.
Import ServerPDU.

Definition parseServerCoreData : M BytesIO ServerCoreData :=
  let stream_read := StrictStream_read in
  version <- Uint32LE_unpack stream_read ;;
  locals <- with_locals (None, None)
    (try_except is_EOFError
       (v <- on_stream (Uint32LE_unpack stream_read) ;;
        assign (fun '(_, flags) => (Some v, flags)) ;;;
        v <- on_stream (Uint32LE_unpack stream_read) ;;
        assign (fun '(protocols, _) => (protocols, Some v)))) ;;
  let '(clientRequestedProtocols, earlyCapabilityFlags) := locals in
  ret (mkServerCoreData version clientRequestedProtocols earlyCapabilityFlags).

Definition parseServerNetworkData : M BytesIO ServerNetworkData :=
  mcsChannelID <- Uint16LE_unpack BytesIO_read ;;
  channelCount <- Uint16LE_unpack BytesIO_read ;;
  channels <- repeatM (Z.to_nat channelCount) (Uint16LE_unpack BytesIO_read) ;;
  ret (mkServerNetworkData mcsChannelID channels).

Definition parsePublicKey (data : bytes) : result RSA.RsaKey :=
  run_parser
    (_magic <- BytesIO_read 4 ;;
     keyLength <- Uint32LE_unpack BytesIO_read ;;
     _bitLength <- Uint32LE_unpack BytesIO_read ;;
     _dataLength <- Uint32LE_unpack BytesIO_read ;;
     publicExponent <- Uint32LE_unpack BytesIO_read ;;
     modulus <- BytesIO_read (keyLength - 8) ;;
     _padding <- BytesIO_read 8 ;;
     let modulus := bytes_to_long (rev modulus) in
     lift_result (RSA.construct modulus publicExponent))
    data.

Definition parseProprietaryCertificate : M BytesIO ProprietaryCertificate :=
  signatureAlgorithmID <- Uint32LE_unpack BytesIO_read ;;
  keyAlgorithmID <- Uint32LE_unpack BytesIO_read ;;
  publicKeyType <- Uint16LE_unpack BytesIO_read ;;
  keyLength <- Uint16LE_unpack BytesIO_read ;;
  publicKey <- BytesIO_read keyLength ;;
  signatureType <- Uint16LE_unpack BytesIO_read ;;
  signatureLength <- Uint16LE_unpack BytesIO_read ;;
  signature <- BytesIO_read (signatureLength - 8) ;;
  padding <- BytesIO_read_all ;;
  publicKey <- lift_result (parsePublicKey publicKey) ;;
  ret (mkProprietaryCertificate signatureAlgorithmID keyAlgorithmID publicKeyType
         publicKey signatureType signature padding).

Definition parseServerCertificate (data : bytes) : result ProprietaryCertificate :=
  run_parser
    (version <- Uint32LE_unpack BytesIO_read ;;
     if version =? ServerCertificateType.PROPRIETARY
     then parseProprietaryCertificate
     else raise NotImplementedError)
    data.

(** The local [serverCertificate] holds the raw bytes only between the read
    and the call of [parseServerCertificate]; the two statements are one
    assignment here. *)
Definition parseServerSecurityData : M BytesIO ServerSecurityData :=
  let stream_read := StrictStream_read in
  v <- Uint32LE_unpack stream_read ;;
  encryptionMethod <- lift_result (enum_cast EncryptionMethod.members v) ;;
  v <- Uint32LE_unpack stream_read ;;
  encryptionLevel <- lift_result (enum_cast EncryptionLevel.members v) ;;
  locals <- with_locals (None, None)
    (try_except is_EOFError
       (serverRandomLength <- on_stream (Uint32LE_unpack stream_read) ;;
        serverCertificateLength <- on_stream (Uint32LE_unpack stream_read) ;;
        d <- on_stream (stream_read serverRandomLength) ;;
        assign (fun '(_, certificate) => (Some d, certificate)) ;;;
        d <- on_stream (stream_read serverCertificateLength) ;;
        certificate <- lift_result (parseServerCertificate d) ;;
        assign (fun '(random, _) => (random, Some certificate)))) ;;
  let '(serverRandom, serverCertificate) := locals in
  ret (mkServerSecurityData encryptionMethod encryptionLevel
         serverRandom serverCertificate).

Definition parseServerMessageChannelData : M BytesIO Z :=
  Uint16LE_unpack StrictStream_read.

Definition parseServerMultitransportData : M BytesIO Z :=
  Uint32LE_unpack StrictStream_read.

(** [self.parsers] *)
Definition parsers (header : Z) : option (M BytesIO ServerStructure) :=
  if header =? ConnectionDataType.SERVER_CORE
  then Some (fmap ServerCore parseServerCoreData)
  else if header =? ConnectionDataType.SERVER_NETWORK
  then Some (fmap ServerNetwork parseServerNetworkData)
  else if header =? ConnectionDataType.SERVER_SECURITY
  then Some (fmap ServerSecurity parseServerSecurityData)
  else if header =? ConnectionDataType.SERVER_MSGCHANNEL
  then Some (fmap ServerMessageChannel parseServerMessageChannelData)
  else if header =? ConnectionDataType.SERVER_MULTITRANSPORT
  then Some (fmap ServerMultitransport parseServerMultitransportData)
  else None.

Definition parseStructure : M BytesIO ServerStructure :=
  header <- Uint16LE_unpack BytesIO_read ;;
  l <- Uint16LE_unpack BytesIO_read ;;
  let length := l - 4 in
  data <- BytesIO_read length ;;
  if len data <? length then raise ParsingError else
  match parsers header with
  | None => raise (UnknownPDUTypeError header)
  | Some parser => on_substream parser data
  end.

(** The [if]/[elif]/[else] chain on [structure.header] in [doParse]. *)
Definition record_structure (structure : ServerStructure) (vars : ServerDataPDU)
  : result ServerDataPDU :=
  let h := header structure in
  if h =? ConnectionDataType.SERVER_CORE then Ok (set_coreData structure vars)
  else if h =? ConnectionDataType.SERVER_SECURITY
  then Ok (set_securityData structure vars)
  else if h =? ConnectionDataType.SERVER_NETWORK
  then Ok (set_networkData structure vars)
  else if h =? ConnectionDataType.SERVER_MSGCHANNEL
  then Ok (set_messageChannelData structure vars)
  else if h =? ConnectionDataType.SERVER_MULTITRANSPORT
  then Ok (set_multitransportData structure vars)
  else Raise (UnknownPDUTypeError h).

(** The [while] loop of [doParse] on its five local variables, for at most
    [fuel] evaluations of its condition. *)
Fixpoint doParse_loop (fuel : nat) (vars : ServerDataPDU)
  : M BytesIO (option ServerDataPDU) :=
  match fuel with
  | O => ret None
  | S fuel' =>
    if is_None (coreData vars) || is_None (securityData vars)
       || is_None (networkData vars)
    then
      structure <- parseStructure ;;
      vars <- lift_result (record_structure structure vars) ;;
      s <- get_stream ;;
      if len (getvalue s) =? 0 then ret (Some vars)
      else doParse_loop fuel' vars
    else ret (Some vars)
  end.

Definition no_structure : ServerDataPDU :=
  mkServerDataPDU None None None None None.

(** [doParse]: a turn of the loop that does not raise reads the four bytes
    of a block header, so [length data + 1] evaluations of the condition
    always suffice (see [server_doParse_returns]). *)
Definition doParse (data : bytes) : result (option ServerDataPDU) :=
  run_parser (doParse_loop (S (length data)) no_structure) data.

Definition writeServerCoreData (data : ServerCoreData) : M bytes unit :=
  write_result (Uint32LE_pack (version data)) ;;;
  let requestedProtocols := clientRequestedProtocols data in
  let requestedProtocols :=
    match requestedProtocols with
    | None => 0
    | Some v => v
    end in
  write_result (Uint32LE_pack requestedProtocols) ;;;
  match earlyCapabilityFlags data with
  | Some flags => write_result (Uint32LE_pack flags)
  | None => ret tt
  end.

Definition writeServerNetworkData (data : ServerNetworkData) : M bytes unit :=
  write_result (Uint16LE_pack (mcsChannelID data)) ;;;
  write_result (Uint16LE_pack (len (channels data))) ;;;
  forM (channels data) (fun channel => write_result (Uint16LE_pack channel)) ;;;
  if negb (len (channels data) mod 2 =? 0)
  then write_result (Uint16LE_pack 0)
  else ret tt.

Definition RSA1 : bytes := [0x52; 0x53; 0x41; 0x31].

Definition writePublicKey (publicKey : RSA.RsaKey) : result bytes :=
  let modulus := RSA.n publicKey in
  let publicExponent := RSA.e publicKey in
  match long_to_bytes modulus with
  | Raise e => Raise e
  | Ok b =>
    let modulusBytes := rev b in
    run_writer
      (stream_write RSA1 ;;;
       write_result (Uint32LE_pack (len modulusBytes + 8)) ;;;
       write_result (Uint32LE_pack 2048) ;;;
       write_result (Uint32LE_pack 255) ;;;
       write_result (Uint32LE_pack publicExponent) ;;;
       stream_write modulusBytes ;;;
       stream_write (repeat 0 8))
  end.

Definition writeProprietaryCertificate (cert : ProprietaryCertificate)
  : M bytes unit :=
  keyBytes <- lift_result (writePublicKey (publicKey cert)) ;;
  write_result (Uint32LE_pack (signatureAlgorithmID cert)) ;;;
  write_result (Uint32LE_pack (keyAlgorithmID cert)) ;;;
  write_result (Uint16LE_pack (publicKeyType cert)) ;;;
  write_result (Uint16LE_pack (len keyBytes)) ;;;
  stream_write keyBytes ;;;
  write_result (Uint16LE_pack (signatureType cert)) ;;;
  write_result (Uint16LE_pack (len (signature cert) + 8)) ;;;
  stream_write (signature cert) ;;;
  stream_write (repeat 0 8).

(** [certificate.type] of a ProprietaryCertificate is PROPRIETARY; on
    [None] the attribute access raises. *)
Definition writeServerCertificate (certificate : option ProprietaryCertificate)
  : result bytes :=
  match certificate with
  | None => Raise AttributeError
  | Some cert =>
    run_writer
      (write_result (Uint32LE_pack ServerCertificateType.PROPRIETARY) ;;;
       writeProprietaryCertificate cert)
  end.

Definition writeServerSecurityData (data : ServerSecurityData) : M bytes unit :=
  write_result (Uint32LE_pack (encryptionMethod data)) ;;;
  write_result (Uint32LE_pack (encryptionLevel data)) ;;;
  match serverRandom data with
  | Some random =>
    serverCertificate <- lift_result
                           (writeServerCertificate (serverCertificate data)) ;;
    write_result (Uint32LE_pack (len random)) ;;;
    write_result (Uint32LE_pack (len serverCertificate)) ;;;
    stream_write random ;;;
    stream_write serverCertificate
  | None => ret tt
  end.

Definition writeServerMessageChannelData (channelId : Z) : M bytes unit :=
  write_result (Uint16LE_pack channelId).

Definition writeServerMultitransportData (flags : Z) : M bytes unit :=
  write_result (Uint32LE_pack flags).

(** [self.writers[data.header](substream, data)] *)
Definition writers (data : ServerStructure) : M bytes unit :=
  match data with
  | ServerCore core => writeServerCoreData core
  | ServerSecurity security => writeServerSecurityData security
  | ServerNetwork network => writeServerNetworkData network
  | ServerMessageChannel channelId => writeServerMessageChannelData channelId
  | ServerMultitransport flags => writeServerMultitransportData flags
  end.

Definition writeStructure (data : ServerStructure) : M bytes unit :=
  substream <- lift_result (run_writer (writers data)) ;;
  write_result (Uint16LE_pack (header data)) ;;;
  write_result (Uint16LE_pack (len substream + 4)) ;;;
  stream_write substream.

Definition write_if_present (x : option ServerStructure) : M bytes unit :=
  match x with
  | Some data => writeStructure data
  | None => ret tt
  end.

Definition write (pdu : ServerDataPDU) : result bytes :=
  run_writer
    (write_if_present (coreData pdu) ;;;
     write_if_present (securityData pdu) ;;;
     write_if_present (networkData pdu) ;;;
     write_if_present (messageChannelData pdu) ;;;
     write_if_present (multitransportData pdu)).

End ServerConnectionParser.

(** * Predicates and example values used in the statements *)

(** The three blocks a returned ServerDataPDU must hold. *)
Definition server_mandatory_present (vars : ServerPDU.ServerDataPDU) : Prop :=
  ServerPDU.coreData vars <> None /\ ServerPDU.securityData vars <> None
  /\ ServerPDU.networkData vars <> None.

(** The four blocks the loop of [ClientConnectionParser.doParse] waits for. *)
Definition client_mandatory_present (vars : ClientDataPDU) : Prop :=
  coreData vars <> None /\ securityData vars <> None
  /\ networkData vars <> None /\ clusterData vars <> None.

(** The second half of the condition of that loop. *)
Definition client_missing (vars : ClientDataPDU) : bool :=
  is_None (coreData vars) || is_None (securityData vars)
  || is_None (networkData vars) || is_None (clusterData vars).

(** The payload of a client core block with the mandatory fields only:
    version 0x00080004, 1024 x 768, colour depth 0xCA01, SAS sequence 0xAA03,
    keyboard layout 0x409, build 2600, name [host], keyboard type 4, subtype
    0, 12 function keys, 64 zero bytes of IME file name. *)
Definition example_core_payload : bytes :=
  [0x04; 0x00; 0x08; 0x00] ++ [0x00; 0x04] ++ [0x00; 0x03] ++ [0x01; 0xCA]
  ++ [0x03; 0xAA] ++ [0x09; 0x04; 0; 0] ++ [0x28; 0x0A; 0; 0]
  ++ ([0x68; 0; 0x6F; 0; 0x73; 0; 0x74; 0] ++ repeat 0 24)
  ++ [4; 0; 0; 0] ++ [0; 0; 0; 0] ++ [12; 0; 0; 0] ++ repeat 0 64.

(** A Client Data PDU made of the four mandatory blocks: core (tag 0xC001),
    security (0xC002), network (0xC003, no channel), cluster (0xC004). *)
Definition example_mandatory_blocks : bytes :=
  ([0x01; 0xC0; 132; 0] ++ example_core_payload)
  ++ [0x02; 0xC0; 12; 0; 1; 0; 0; 0; 0; 0; 0; 0]
  ++ [0x03; 0xC0; 8; 0; 0; 0; 0; 0]
  ++ [0x04; 0xC0; 12; 0; 1; 0; 0; 0; 0; 0; 0; 0].

(** A well-formed message channel block (tag 0xC006, flags 7). *)
Definition example_msgchannel_block : bytes := [0x06; 0xC0; 8; 0; 7; 0; 0; 0].

(** *** Optional-field cascades *)

Definition is_Some {A} (o : option A) : bool :=
  match o with Some _ => true | None => false end.

(** Which optional fields of a parsed block are set, in wire order. *)
Definition client_core_presence (core : ClientCoreData) : list bool :=
  [is_Some (postBeta2ColorDepth core); is_Some (clientProductId core);
   is_Some (serialNumber core); is_Some (highColorDepth core);
   is_Some (supportedColorDepths core); is_Some (earlyCapabilityFlags core);
   is_Some (clientDigProductId core); is_Some (connectionType core);
   is_Some (serverSelectedProtocol core); is_Some (desktopPhysicalWidth core);
   is_Some (desktopPhysicalHeight core); is_Some (desktopOrientation core);
   is_Some (desktopScaleFactor core); is_Some (deviceScaleFactor core)].

Definition server_core_presence (core : ServerPDU.ServerCoreData) : list bool :=
  [is_Some (ServerPDU.clientRequestedProtocols core);
   is_Some (ServerPDU.earlyCapabilityFlags core)].

Definition server_security_presence (security : ServerPDU.ServerSecurityData)
  : list bool :=
  [is_Some (ServerPDU.serverRandom security);
   is_Some (ServerPDU.serverCertificate security)].

(** Fields 1..j set and fields j+1..n absent, for some j. *)
Definition cascade (presence : list bool) : Prop :=
  exists j, (j <= length presence)%nat
            /\ presence = repeat true j ++ repeat false (length presence - j).

(** The outcome of parsing a truncated block: the end-of-input error of the
    strict stream, or a block whose optional fields form a cascade. *)
Definition truncation_outcome {A} (presence : A -> list bool) (r : result A) : Prop :=
  r = Raise EOFError \/ exists pdu, r = Ok pdu /\ cascade (presence pdu).

(** Cascade monotonicity of a block parser at the truncation point [k] of
    the buffer [data]: whatever block the truncated buffer parses to has a
    cascade of optional fields; and when [data] itself parses, the truncated
    buffer either raises EOFError or parses to such a block. *)
Definition cascade_on_truncation {A} (parser : M BytesIO A)
    (presence : A -> list bool) (data : bytes) (k : nat) : Prop :=
  (forall pdu, run_parser parser (firstn k data) = Ok pdu ->
               cascade (presence pdu))
  /\ (forall whole, run_parser parser data = Ok whole ->
                    truncation_outcome presence (run_parser parser (firstn k data))).

(** [t] is the stream [s] with its unread part cut short. *)
Definition truncated (s t : BytesIO) : Prop :=
  exists k, remaining t = firstn k (remaining s).

(** The same for a stream paired with local variables, which are equal. *)
Definition truncated_with {L} (x y : BytesIO * L) : Prop :=
  truncated (fst x) (fst y) /\ snd x = snd y.

(** A computation that, run on a truncated stream, either does what it does
    on the whole stream or raises EOFError; and raises EOFError on the
    truncated stream when it does on the whole one. *)
Definition trunc_safe {S A} (R : S -> S -> Prop) (m : M S A) : Prop :=
  forall s t, R s t ->
    match m s with
    | (Ok a, s') =>
      (exists t', m t = (Ok a, t') /\ R s' t')
      \/ (exists t', m t = (Raise EOFError, t'))
    | (Raise e, _) =>
      is_EOFError e = true -> exists t', m t = (Raise EOFError, t')
    end.

(** A computation that returns on the whole stream returns or raises
    EOFError on a truncated one. *)
Definition trunc_total {S A} (R : S -> S -> Prop) (m : M S A) : Prop :=
  forall s t, R s t ->
    forall a s', m s = (Ok a, s') ->
      exists r t', m t = (r, t') /\ (r = Raise EOFError \/ exists b, r = Ok b).

(** The value the example core block stands for: the twelve constructor
    arguments, the name as the sixteen characters decoded from its field. *)
Definition example_core : ClientCoreData :=
  new_ClientCoreData 0x00080004 1024 768 0xCA01 0xAA03 0x00000409 2600
    ([0x68; 0x6F; 0x73; 0x74] ++ repeat 0 12) 4 0 12 (repeat 0 64).

(** A channel that [writeClientNetworkData] writes without complaint. *)
Definition channel_writable (channel : ClientChannelDefinition) : Prop :=
  utf8_encode (name channel) <> None /\ 0 <= options channel < 2 ^ 32.

(** *** Values that can be written: ranges and wire layouts *)

(** [v] is an unsigned integer of [w] bytes: the test of [Uint_pack]. *)
Definition fits (w : nat) (v : Z) : bool :=
  (0 <=? v) && (v <? 256 ^ Z.of_nat w).

Definition opt_fits (w : nat) (o : option Z) : bool :=
  match o with
  | Some v => fits w v
  | None => true
  end.

Definition opt_member (members : list Z) (o : option Z) : bool :=
  match o with
  | Some v => is_member members v
  | None => true
  end.

(** No field set after an absent one. *)
Fixpoint no_gap (presence : list bool) : bool :=
  match presence with
  | [] => true
  | true :: r => no_gap r
  | false :: r => forallb negb r
  end.

(** A text field of exactly [n] characters, each a 16-bit unit: the only
    texts that the fixed-size fields give back unchanged. *)
Definition text_of_length (n : nat) (s : str) : bool :=
  (length s =? n)%nat && forallb (fits 2) s.

Definition opt_text_of_length (n : nat) (o : option str) : bool :=
  match o with
  | Some s => text_of_length n s
  | None => true
  end.

(** A ClientCoreData that can be written and read back: every field in the
    range of its wire width, enumeration fields holding members, the two
    texts and the IME file name filling their fields, and the optional
    fields forming a cascade that does not stop between
    [earlyCapabilityFlags] and [clientDigProductId]. *)
Definition valid_ClientCoreData (core : ClientCoreData) : bool :=
  fits 4 (version core) && is_member RDPVersion.members (version core)
  && fits 2 (desktopWidth core) && fits 2 (desktopHeight core)
  && fits 2 (colorDepth core) && is_member ColorDepth.members (colorDepth core)
  && fits 2 (sasSequence core) && fits 4 (keyboardLayout core)
  && fits 4 (clientBuild core) && text_of_length 16 (clientName core)
  && fits 4 (keyboardType core) && fits 4 (keyboardSubType core)
  && fits 4 (keyboardFunctionKey core)
  && (length (imeFileName core) =? 64)%nat
  && opt_fits 2 (postBeta2ColorDepth core) && opt_fits 2 (clientProductId core)
  && opt_fits 4 (serialNumber core) && opt_fits 2 (highColorDepth core)
  && opt_fits 2 (supportedColorDepths core)
  && opt_fits 2 (earlyCapabilityFlags core)
  && opt_text_of_length 32 (clientDigProductId core)
  && opt_fits 1 (connectionType core)
  && opt_member ConnectionType.members (connectionType core)
  && opt_fits 4 (serverSelectedProtocol core)
  && opt_fits 4 (desktopPhysicalWidth core)
  && opt_fits 4 (desktopPhysicalHeight core)
  && opt_fits 2 (desktopOrientation core)
  && opt_member DesktopOrientation.members (desktopOrientation core)
  && opt_fits 4 (desktopScaleFactor core) && opt_fits 4 (deviceScaleFactor core)
  && no_gap (client_core_presence core)
  && implb (is_Some (earlyCapabilityFlags core))
           (is_Some (clientDigProductId core)).

(** A channel with an ASCII name of at most 8 characters, none of them NUL. *)
Definition valid_ClientChannelDefinition (channel : ClientChannelDefinition) : bool :=
  (length (name channel) <=? 8)%nat && forallb (in_range 1 0x7F) (name channel)
  && fits 4 (options channel).

(** A channel array whose written form does not hold the reserved name. *)
Definition valid_ClientNetworkData (network : ClientNetworkData) : bool :=
  fits 4 (len (channelDefinitions network))
  && forallb valid_ClientChannelDefinition (channelDefinitions network)
  && match run_writer (ClientConnectionParser.writeClientNetworkData network) with
     | Ok payload => negb (ClientConnectionParser.detectBlueKeepScan payload)
     | Raise _ => false
     end.

Definition valid_ClientMonitorAttribute (a : ClientMonitorAttribute) : bool :=
  fits 4 (physicalWidth a) && fits 4 (physicalHeight a) && fits 4 (orientation a)
  && fits 4 (attr_desktopScaleFactor a) && fits 4 (attr_deviceScaleFactor a).

(** Monitor data whose count is the number of its attribute records. *)
Definition valid_ClientMonitorData (monitor : ClientMonitorData) : bool :=
  fits 4 (monitor_flags monitor) && fits 4 (monitorAttributeSize monitor)
  && fits 4 (monitorCount monitor)
  && (monitorCount monitor =? len (monitorAttributes monitor))
  && forallb valid_ClientMonitorAttribute (monitorAttributes monitor).

Definition valid_ClientStructure (x : ClientStructure) : bool :=
  match x with
  | ClientCore core => valid_ClientCoreData core
  | ClientSecurity security =>
    fits 4 (encryptionMethods security) && fits 4 (extEncryptionMethods security)
  | ClientNetwork network => valid_ClientNetworkData network
  | ClientCluster cluster =>
    fits 4 (cluster_flags cluster) && fits 4 (redirectedSessionID cluster)
  | ClientMonitor monitor => valid_ClientMonitorData monitor
  | ClientMessageChannel flags => fits 4 flags
  | ClientMonitorEx monitorEx => valid_ClientMonitorData monitorEx
  | ClientMultitransport flags => fits 4 flags
  | ClientUnused1 pad2Octets => fits 2 pad2Octets
  end.

(** A public key that [RSA.construct] accepts and that fits the key blob of
    a proprietary certificate, itself within the 16-bit length field of the
    certificate. *)
Definition valid_RsaKey (key : RSA.RsaKey) : bool :=
  match RSA.construct (RSA.n key) (RSA.e key) with
  | Ok _ => true
  | Raise _ => false
  end
  && fits 4 (RSA.e key) && fits 2 (Z.of_nat (byte_length (RSA.n key)) + 28).

(** A certificate whose trailing padding is the eight zero bytes that
    [writeProprietaryCertificate] always writes. *)
Definition valid_ProprietaryCertificate (cert : ServerPDU.ProprietaryCertificate) : bool :=
  fits 4 (ServerPDU.signatureAlgorithmID cert)
  && fits 4 (ServerPDU.keyAlgorithmID cert)
  && fits 2 (ServerPDU.publicKeyType cert)
  && valid_RsaKey (ServerPDU.publicKey cert)
  && fits 2 (ServerPDU.signatureType cert)
  && fits 2 (len (ServerPDU.signature cert) + 8)
  && list_eqb (ServerPDU.padding cert) (repeat 0 8).

(** Server core data in which the requested protocols are stated. *)
Definition valid_ServerCoreData (core : ServerPDU.ServerCoreData) : bool :=
  fits 4 (ServerPDU.version core)
  && match ServerPDU.clientRequestedProtocols core with
     | Some protocols => fits 4 protocols
     | None => false
     end
  && opt_fits 4 (ServerPDU.earlyCapabilityFlags core).

(** Server security data with neither or both of the optional fields. *)
Definition valid_ServerSecurityData (security : ServerPDU.ServerSecurityData) : bool :=
  fits 4 (ServerPDU.encryptionMethod security)
  && is_member EncryptionMethod.members (ServerPDU.encryptionMethod security)
  && fits 4 (ServerPDU.encryptionLevel security)
  && is_member EncryptionLevel.members (ServerPDU.encryptionLevel security)
  && match ServerPDU.serverRandom security, ServerPDU.serverCertificate security with
     | None, None => true
     | Some random, Some cert =>
       fits 4 (len random) && valid_ProprietaryCertificate cert
     | _, _ => false
     end.

Definition valid_ServerNetworkData (network : ServerPDU.ServerNetworkData) : bool :=
  fits 2 (ServerPDU.mcsChannelID network)
  && fits 2 (len (ServerPDU.channels network))
  && forallb (fits 2) (ServerPDU.channels network).

Definition valid_ServerStructure (x : ServerPDU.ServerStructure) : bool :=
  match x with
  | ServerPDU.ServerCore core => valid_ServerCoreData core
  | ServerPDU.ServerSecurity security => valid_ServerSecurityData security
  | ServerPDU.ServerNetwork network => valid_ServerNetworkData network
  | ServerPDU.ServerMessageChannel channelId => fits 2 channelId
  | ServerPDU.ServerMultitransport flags => fits 4 flags
  end.

(** The number of bytes a width selector stands for. *)
Definition selector_width (selector : Z) : nat :=
  if selector =? CbId.ONE_BYTE then 1
  else if selector =? CbId.TWO_BYTE then 2
  else 4.

(** The dynamic channel variants that [write] serializes and [doParse]
    gives back: the four data variants and the close variant, with width
    selectors among 0, 1, 2 where they select a width, [sp] a 2-bit value,
    and the channel id and the length within the selected widths. *)
Definition valid_DynamicChannelPDU (pdu : DynamicChannel.PDU) : bool :=
  match pdu with
  | DynamicChannel.DynamicDataFirstPDU cbid sp channelId length _
  | DynamicChannel.DynamicDataFirstCompressedPDU cbid sp channelId length _ =>
    in_range 0 2 cbid && in_range 0 2 sp
    && fits (selector_width cbid) channelId && fits (selector_width sp) length
  | DynamicChannel.DynamicDataPDU cbid sp channelId _
  | DynamicChannel.DynamicDataCompressedPDU cbid sp channelId _
  | DynamicChannel.CloseDynamicChannelPDU cbid sp channelId =>
    in_range 0 2 cbid && in_range 0 3 sp && fits (selector_width cbid) channelId
  | _ => false
  end.

(** Wire layouts of the records that are written in sequence. *)
Definition ClientMonitorAttribute_layout (a : ClientMonitorAttribute) : bytes :=
  le_bytes 4 (physicalWidth a) ++ le_bytes 4 (physicalHeight a)
  ++ le_bytes 4 (orientation a) ++ le_bytes 4 (attr_desktopScaleFactor a)
  ++ le_bytes 4 (attr_deviceScaleFactor a).

Definition ClientChannelDefinition_layout (channel : ClientChannelDefinition) : bytes :=
  ljust0_slice 8 (name channel) ++ le_bytes 4 (options channel).

(** The key blob and the certificate as they are written. *)
Definition RsaKey_layout (key : RSA.RsaKey) : bytes :=
  ServerConnectionParser.RSA1
  ++ le_bytes 4 (Z.of_nat (byte_length (RSA.n key)) + 8) ++ le_bytes 4 2048
  ++ le_bytes 4 255 ++ le_bytes 4 (RSA.e key)
  ++ le_bytes (byte_length (RSA.n key)) (RSA.n key) ++ repeat 0 8.

Definition ProprietaryCertificate_layout (cert : ServerPDU.ProprietaryCertificate)
  : bytes :=
  le_bytes 4 ServerCertificateType.PROPRIETARY
  ++ le_bytes 4 (ServerPDU.signatureAlgorithmID cert)
  ++ le_bytes 4 (ServerPDU.keyAlgorithmID cert)
  ++ le_bytes 2 (ServerPDU.publicKeyType cert)
  ++ le_bytes 2 (len (RsaKey_layout (ServerPDU.publicKey cert)))
  ++ RsaKey_layout (ServerPDU.publicKey cert)
  ++ le_bytes 2 (ServerPDU.signatureType cert)
  ++ le_bytes 2 (len (ServerPDU.signature cert) + 8)
  ++ ServerPDU.signature cert ++ repeat 0 8.

(** The variants [doParse] builds, and the variants [write] has a branch
    for. *)
Definition parsed_variant (pdu : DynamicChannel.PDU) : bool :=
  match pdu with
  | DynamicChannel.CapabilityResponsePDU _ _ _
  | DynamicChannel.CreateResponsePDU _ _ _ _ => false
  | _ => true
  end.

Definition written_variant (pdu : DynamicChannel.PDU) : bool :=
  match pdu with
  | DynamicChannel.DynamicChannelPDU _ _ _ _
  | DynamicChannel.CreateRequestPDU _ _ _ _ => false
  | _ => true
  end.

(** *** Further properties: byte strings, layouts, blocks and whole PDUs *)

(** A byte string: every element is a byte. *)
Definition is_bytes (data : bytes) : bool := forallb (in_range 0 255) data.

(** The bytes of the dynamic channel variants that [write] serializes. *)
Definition DynamicChannel_layout (pdu : DynamicChannel.PDU) : bytes :=
  pack_header (DynamicChannel.cbid pdu) (DynamicChannel.sp pdu)
    (DynamicChannel.cmd pdu)
  :: match pdu with
     | DynamicChannel.DynamicDataFirstPDU cbid sp channelId length data
     | DynamicChannel.DynamicDataFirstCompressedPDU cbid sp channelId length data =>
       le_bytes (selector_width cbid) channelId
       ++ le_bytes (selector_width sp) length ++ data
     | DynamicChannel.DynamicDataPDU cbid _ channelId data
     | DynamicChannel.DynamicDataCompressedPDU cbid _ channelId data =>
       le_bytes (selector_width cbid) channelId ++ data
     | DynamicChannel.CloseDynamicChannelPDU cbid _ channelId =>
       le_bytes (selector_width cbid) channelId
     | _ => []
     end.

(** What [write] gives for a PDU that [doParse] built from [data]. *)
Definition write_after_parse (data : bytes) (pdu : DynamicChannel.PDU) : Prop :=
  match pdu with
  | DynamicChannel.DynamicChannelPDU _ _ _ _
  | DynamicChannel.CreateRequestPDU _ _ _ _ =>
    DynamicChannelParser.write pdu = Raise NotImplementedError
  | DynamicChannel.CloseDynamicChannelPDU _ _ _ =>
    exists written ignored,
      DynamicChannelParser.write pdu = Ok written /\ data = written ++ ignored
  | _ => DynamicChannelParser.write pdu = Ok data
  end.

(** *** Blocks and whole PDUs *)

Definition option_list {A} (o : option A) : list A :=
  match o with
  | Some a => [a]
  | None => []
  end.

(** The bytes of a client block: type tag, length of the whole block,
    payload. *)
Definition ClientStructure_block (x : ClientStructure) : bytes :=
  match run_writer (ClientConnectionParser.writers x) with
  | Ok payload =>
    le_bytes 2 (client_header x) ++ le_bytes 2 (len payload + 4) ++ payload
  | Raise _ => []
  end.

(** A structure that can be written and read back and whose block fits the
    16-bit length field. *)
Definition writable_ClientStructure (x : ClientStructure) : bool :=
  valid_ClientStructure x
  && match run_writer (ClientConnectionParser.writers x) with
     | Ok payload => fits 2 (len payload + 4)
     | Raise _ => false
     end.

(** The structures of a PDU in the order in which [write] writes them. *)
Definition client_blocks (pdu : ClientDataPDU) : list ClientStructure :=
  option_list (coreData pdu) ++ option_list (securityData pdu)
  ++ option_list (networkData pdu) ++ option_list (clusterData pdu)
  ++ option_list (monitorData pdu) ++ option_list (messageChannelData pdu)
  ++ option_list (monitorExData pdu) ++ option_list (multitransportData pdu)
  ++ option_list (unused1Data pdu).

(** What the loop of [doParse] makes of a sequence of blocks: each block is
    recorded under its type, until the four awaited types have been seen. *)
Fixpoint record_blocks (vars : ClientDataPDU) (xs : list ClientStructure)
  : ClientDataPDU :=
  match xs with
  | [] => vars
  | x :: r =>
    if client_missing vars
    then record_blocks (ClientConnectionParser.record_structure x vars) r
    else vars
  end.

(** An attribute that is unset or holds a writable structure of its type. *)
Definition client_field_ok (tag : Z) (o : option ClientStructure) : bool :=
  match o with
  | Some x => (client_header x =? tag) && writable_ClientStructure x
  | None => true
  end.

Definition wellformed_ClientDataPDU (pdu : ClientDataPDU) : bool :=
  client_field_ok ConnectionDataType.CLIENT_CORE (coreData pdu)
  && client_field_ok ConnectionDataType.CLIENT_SECURITY (securityData pdu)
  && client_field_ok ConnectionDataType.CLIENT_NETWORK (networkData pdu)
  && client_field_ok ConnectionDataType.CLIENT_CLUSTER (clusterData pdu)
  && client_field_ok ConnectionDataType.CLIENT_MONITOR (monitorData pdu)
  && client_field_ok ConnectionDataType.CLIENT_MSGCHANNEL (messageChannelData pdu)
  && client_field_ok ConnectionDataType.CLIENT_MONITOR_EX (monitorExData pdu)
  && client_field_ok ConnectionDataType.CLIENT_MULTITRANSPORT (multitransportData pdu)
  && client_field_ok ConnectionDataType.CLIENT_UNUSED1 (unused1Data pdu).

(** The PDU without the five attributes that the loop does not wait for. *)
Definition without_optional (pdu : ClientDataPDU) : ClientDataPDU :=
  mkClientDataPDU (coreData pdu) (securityData pdu) (networkData pdu)
    (clusterData pdu) None None None None None.

(** A PDU with the four mandatory blocks and a message channel block. *)
Definition example_client_pdu : ClientDataPDU :=
  mkClientDataPDU
    (Some (ClientCore example_core))
    (Some (ClientSecurity (mkClientSecurityData 1 0)))
    (Some (ClientNetwork (mkClientNetworkData [])))
    (Some (ClientCluster (mkClientClusterData 1 0)))
    None (Some (ClientMessageChannel 7)) None None None.

(** The same for the server connection data. *)
Definition ServerStructure_block (x : ServerPDU.ServerStructure) : bytes :=
  match run_writer (ServerConnectionParser.writers x) with
  | Ok payload =>
    le_bytes 2 (ServerPDU.header x) ++ le_bytes 2 (len payload + 4) ++ payload
  | Raise _ => []
  end.

Definition writable_ServerStructure (x : ServerPDU.ServerStructure) : bool :=
  valid_ServerStructure x
  && match run_writer (ServerConnectionParser.writers x) with
     | Ok payload => fits 2 (len payload + 4)
     | Raise _ => false
     end.

Definition server_blocks (pdu : ServerPDU.ServerDataPDU)
  : list ServerPDU.ServerStructure :=
  option_list (ServerPDU.coreData pdu) ++ option_list (ServerPDU.securityData pdu)
  ++ option_list (ServerPDU.networkData pdu)
  ++ option_list (ServerPDU.messageChannelData pdu)
  ++ option_list (ServerPDU.multitransportData pdu).

(** The condition of the loop of [ServerConnectionParser.doParse]. *)
Definition server_missing (vars : ServerPDU.ServerDataPDU) : bool :=
  is_None (ServerPDU.coreData vars) || is_None (ServerPDU.securityData vars)
  || is_None (ServerPDU.networkData vars).

(** What that loop makes of a sequence of blocks: it records them until
    core, security and network have been seen, and fails on the read of a
    block header when the blocks run out before. *)
Fixpoint server_record_blocks (vars : ServerPDU.ServerDataPDU)
    (xs : list ServerPDU.ServerStructure) : result ServerPDU.ServerDataPDU :=
  if server_missing vars then
    match xs with
    | [] => Raise StructError
    | x :: r =>
      match ServerConnectionParser.record_structure x vars with
      | Ok vars' => server_record_blocks vars' r
      | Raise e => Raise e
      end
    end
  else Ok vars.

Definition server_field_ok (tag : Z) (o : option ServerPDU.ServerStructure) : bool :=
  match o with
  | Some x => (ServerPDU.header x =? tag) && writable_ServerStructure x
  | None => true
  end.

Definition wellformed_ServerDataPDU (pdu : ServerPDU.ServerDataPDU) : bool :=
  server_field_ok ConnectionDataType.SERVER_CORE (ServerPDU.coreData pdu)
  && server_field_ok ConnectionDataType.SERVER_SECURITY (ServerPDU.securityData pdu)
  && server_field_ok ConnectionDataType.SERVER_NETWORK (ServerPDU.networkData pdu)
  && server_field_ok ConnectionDataType.SERVER_MSGCHANNEL
       (ServerPDU.messageChannelData pdu)
  && server_field_ok ConnectionDataType.SERVER_MULTITRANSPORT
       (ServerPDU.multitransportData pdu).

Definition server_without_optional (pdu : ServerPDU.ServerDataPDU)
  : ServerPDU.ServerDataPDU :=
  ServerPDU.mkServerDataPDU (ServerPDU.coreData pdu) (ServerPDU.securityData pdu)
    (ServerPDU.networkData pdu) None None.

(** What [doParse] gives on the bytes written for a PDU. *)
Definition server_parsed_back (pdu : ServerPDU.ServerDataPDU)
  : result (option ServerPDU.ServerDataPDU) :=
  if server_missing pdu then Raise StructError
  else Ok (Some (server_without_optional pdu)).

(** A Server Data PDU with the three mandatory blocks and a message channel
    block. *)
Definition example_server_pdu : ServerPDU.ServerDataPDU :=
  ServerPDU.mkServerDataPDU
    (Some (ServerPDU.ServerCore (ServerPDU.mkServerCoreData 0x00080004 (Some 1) None)))
    (Some (ServerPDU.ServerSecurity (ServerPDU.mkServerSecurityData 0 0 None None)))
    (Some (ServerPDU.ServerNetwork (ServerPDU.mkServerNetworkData 1003 [1004])))
    (Some (ServerPDU.ServerMessageChannel 1005))
    None.

(** A client core block without its optional part: the twelve fields the
    constructor takes. *)
Definition mandatory_only (core : ClientCoreData) : ClientCoreData :=
  new_ClientCoreData (version core) (desktopWidth core) (desktopHeight core)
    (colorDepth core) (sasSequence core) (keyboardLayout core) (clientBuild core)
    (clientName core) (keyboardType core) (keyboardSubType core)
    (keyboardFunctionKey core) (imeFileName core).

(** A core block in which the second optional field is set and the first one
    is not. *)
Definition example_core_with_gap : ClientCoreData :=
  set_clientProductId 1 example_core.
(** * Properties *)

(** ** Worked examples *)

Example doParse_data_pdu :
  DynamicChannelParser.doParse 0 [0x30; 7; 1; 2; 3]
  = Ok (Some (DynamicChannel.DynamicDataPDU 0 0 7 [1; 2; 3])).
Proof. reflexivity. Qed.

Example doParse_create_request :
  DynamicChannelParser.doParse 3 [0x10; 1; 0x41; 0x42; 0]
  = Ok (Some (DynamicChannel.CreateRequestPDU 0 0 1 [0x41; 0x42])).
Proof. reflexivity. Qed.

Example doParse_invalid_width :
  DynamicChannelParser.doParse 0 [0x33; 7; 1; 2; 3] = Raise ValueError.
Proof. reflexivity. Qed.

Example write_data_first_pdu :
  DynamicChannelParser.write (DynamicChannel.DynamicDataFirstPDU 1 0 300 5 [1; 2; 3])
  = Ok [0x21; 44; 1; 5; 1; 2; 3].
Proof. reflexivity. Qed.

Example client_doParse_mandatory_blocks :
  exists pdu,
    ClientConnectionParser.doParse example_mandatory_blocks = Ok (Some pdu)
    /\ coreData pdu = Some (ClientCore example_core)
    /\ networkData pdu = Some (ClientNetwork (mkClientNetworkData []))
    /\ monitorData pdu = None.
Proof. eexists. split; [vm_compute; reflexivity|]. repeat split. Qed.

Example client_parseStructure_unknown_tag :
  run_parser ClientConnectionParser.parseStructure [0x0B; 0xC0; 4; 0]
  = Raise (UnknownPDUTypeError 0xC00B).
Proof. reflexivity. Qed.

Example client_network_length_mismatch :
  run_parser ClientConnectionParser.parseClientNetworkData [2; 0; 0; 0; 1; 2; 3]
  = Raise ParsingError.
Proof. reflexivity. Qed.

Example server_doParse_core_only :
  ServerConnectionParser.doParse [0x01; 0x0C; 8; 0; 4; 0; 8; 0] = Raise StructError.
Proof. reflexivity. Qed.

Example server_network_padding :
  run_writer (ServerConnectionParser.writeServerNetworkData
                (ServerPDU.mkServerNetworkData 1003 [1004]))
  = Ok [0xEB; 3; 1; 0; 0xEC; 3; 0; 0].
Proof. reflexivity. Qed.

Example writePublicKey_reverses_modulus :
  ServerConnectionParser.writePublicKey (RSA.mkRsaKey 0x010203 5)
  = Ok ([0x52; 0x53; 0x41; 0x31] ++ [11; 0; 0; 0] ++ [0; 8; 0; 0]
        ++ [255; 0; 0; 0] ++ [5; 0; 0; 0] ++ [3; 2; 1] ++ repeat 0 8).
Proof. reflexivity. Qed.

(** ** The monad and the streams *)

Lemma len_nonneg {A} (a : list A) : 0 <= len a.
Proof. unfold len. lia. Qed.

Lemma le_bytes_length w v : length (le_bytes w v) = w.
Proof. revert v. induction w; simpl; intros; [reflexivity | now rewrite IHw]. Qed.

Lemma le_value_le_bytes w v : le_value (le_bytes w v) = v mod 256 ^ Z.of_nat w.
Proof.
  revert v. induction w as [|w IH]; intros v.
  - simpl. now rewrite Z.mod_1_r.
  - cbn [le_bytes le_value]. rewrite IH.
    rewrite Nat2Z.inj_succ, Z.pow_succ_r by lia.
    rewrite Z.rem_mul_r by lia. lia.
Qed.

Lemma le_value_le_bytes_id w v :
  0 <= v < 256 ^ Z.of_nat w -> le_value (le_bytes w v) = v.
Proof. intros H. rewrite le_value_le_bytes. now apply Z.mod_small. Qed.

Lemma Uint_pack_Ok w v bs :
  Uint_pack w v = Ok bs <-> 0 <= v < 256 ^ Z.of_nat w /\ bs = le_bytes w v.
Proof.
  unfold Uint_pack.
  destruct (Z.leb_spec 0 v) as [E1|E1];
    destruct (Z.ltb_spec v (256 ^ Z.of_nat w)) as [E2|E2]; simpl;
    split; intros H; try discriminate; try lia.
  - inversion H. split; [lia | reflexivity].
  - destruct H as [_ ->]. reflexivity.
Qed.

Lemma Uint_pack_in_range w v :
  0 <= v < 256 ^ Z.of_nat w -> Uint_pack w v = Ok (le_bytes w v).
Proof. intros H. apply Uint_pack_Ok. auto. Qed.

Lemma BytesIO_read_exact d c r :
  BytesIO_read (len d) (mkBytesIO c (d ++ r)) = (Ok d, mkBytesIO (c ++ d) r).
Proof.
  unfold BytesIO_read, len. cbn [remaining consumed].
  destruct (Z.ltb_spec (Z.of_nat (length d)) 0) as [E|E]; [lia|].
  rewrite Nat2Z.id, firstn_app, Nat.sub_diag, firstn_all, firstn_O, app_nil_r.
  rewrite skipn_app, Nat.sub_diag, skipn_all. reflexivity.
Qed.

Lemma BytesIO_read_exact' n d c r :
  len d = n -> BytesIO_read n (mkBytesIO c (d ++ r)) = (Ok d, mkBytesIO (c ++ d) r).
Proof. intros <-. apply BytesIO_read_exact. Qed.

Lemma BytesIO_read_all_spec c r :
  BytesIO_read_all (mkBytesIO c r) = (Ok r, mkBytesIO (c ++ r) []).
Proof.
  unfold BytesIO_read_all, BytesIO_read. cbn [remaining consumed].
  change (-1 <? 0) with true. cbv iota.
  now rewrite firstn_all, skipn_all.
Qed.

Lemma StrictStream_read_exact n d c r :
  len d = n -> StrictStream_read n (mkBytesIO c (d ++ r)) = (Ok d, mkBytesIO (c ++ d) r).
Proof.
  intros H. unfold StrictStream_read, bind.
  rewrite (BytesIO_read_exact' n d c r H), H, Z.eqb_refl. reflexivity.
Qed.

Lemma Uint_unpack_le_bytes w v c r :
  0 <= v < 256 ^ Z.of_nat w ->
  Uint_unpack w BytesIO_read (mkBytesIO c (le_bytes w v ++ r))
  = (Ok v, mkBytesIO (c ++ le_bytes w v) r).
Proof.
  intros H. unfold Uint_unpack, bind.
  rewrite BytesIO_read_exact' by (unfold len; now rewrite le_bytes_length).
  unfold len. rewrite le_bytes_length, Z.eqb_refl.
  unfold ret. now rewrite le_value_le_bytes_id.
Qed.

Lemma Uint_unpack_strict_le_bytes w v c r :
  0 <= v < 256 ^ Z.of_nat w ->
  Uint_unpack w StrictStream_read (mkBytesIO c (le_bytes w v ++ r))
  = (Ok v, mkBytesIO (c ++ le_bytes w v) r).
Proof.
  intros H. unfold Uint_unpack, bind.
  rewrite StrictStream_read_exact by (unfold len; now rewrite le_bytes_length).
  unfold len. rewrite le_bytes_length, Z.eqb_refl.
  unfold ret. now rewrite le_value_le_bytes_id.
Qed.

(** ** Dynamic channel: the CREATE name loop *)

Section DynamicChannelFacts.
Import DynamicChannel DynamicChannelParser.

Lemma readChar_at_eof c :
  readChar (mkBytesIO c []) = (Ok [], mkBytesIO (c ++ []) []).
Proof. reflexivity. Qed.

(** Once the stream is exhausted, [stream.read(1).decode()] is the empty
    string for ever: it never equals the terminator and the loop goes on
    whatever the number of iterations allowed. *)
Lemma readChannelName_at_eof fuel :
  forall channelName c,
    fst (readChannelName fuel channelName [] (mkBytesIO c [])) = Ok None.
Proof.
  induction fuel as [|fuel IH]; intros channelName c; [reflexivity|].
  cbn [readChannelName]. change (list_eqb [] [0]) with false. cbv iota.
  unfold bind at 1. rewrite readChar_at_eof. apply IH.
Qed.

(** The loop run from a non-terminator character at the end of input. *)
Lemma readChannelName_last_char fuel channelName char c :
  list_eqb char [0] = false ->
  fst (readChannelName fuel channelName char (mkBytesIO c [])) = Ok None.
Proof.
  intros H. destruct fuel as [|fuel]; [reflexivity|].
  cbn [readChannelName]. rewrite H. unfold bind at 1.
  rewrite readChar_at_eof. apply readChannelName_at_eof.
Qed.

(** C3: the header byte 0x10 (cmd = CREATE, cbid = 0) followed by the
    channel id 1 and the name [A] with no NUL terminator: whatever the
    number of iterations the name loop is allowed, [doParse] has not
    returned and has not raised.  The loop does not terminate on this
    input. *)
Theorem doParse_create_unterminated_name_diverges :
  forall fuel, doParse fuel [0x10; 0x01; 0x41] = Ok None.
Proof.
  intros fuel. unfold doParse, run_parser, doParse_stream, BytesIO_of.
  unfold bind at 1.
  change (Uint8_unpack BytesIO_read (mkBytesIO [] [16; 1; 65]))
    with (@Ok Z 16, mkBytesIO [16] [1; 65]).
  cbv beta iota zeta.
  change (Z.shiftr (Z.land 16 240) 4 =? DynamicChannelCommand.CREATE) with true.
  cbv iota. unfold bind at 1.
  change (readChannelId (Z.land 16 3) (mkBytesIO [16] [1; 65]))
    with (@Ok Z 1, mkBytesIO [16; 1] [65]).
  cbv beta iota. unfold bind at 1.
  change (readChar (mkBytesIO [16; 1] [65]))
    with (@Ok str [65], mkBytesIO [16; 1; 65] []).
  cbv beta iota. unfold bind at 1.
  pose proof (readChannelName_last_char fuel [] [65] [16; 1; 65] eq_refl) as E.
  destruct (readChannelName fuel [] [65] (mkBytesIO [16; 1; 65] [])) as [r s].
  simpl in E. subst r. reflexivity.
Qed.

(** *** The header byte *)

Lemma header_table : forallb header_ok (map Z.of_nat (seq 0 256)) = true.
Proof. vm_compute. reflexivity. Qed.

(** Unpacking a header byte and packing the three fields again gives the
    byte back; the fields are in their ranges. *)
Lemma header_fields header :
  0 <= header < 256 ->
  0 <= header_cbid header <= 3 /\ 0 <= header_sp header <= 3
  /\ 0 <= header_cmd header <= 15
  /\ pack_header (header_cbid header) (header_sp header) (header_cmd header)
     = header.
Proof.
  intros H. pose proof header_table as T. rewrite forallb_forall in T.
  specialize (T header). unfold header_ok, in_range in T.
  rewrite !andb_true_iff, !Z.leb_le, Z.eqb_eq in T. 
  assert (In header (map Z.of_nat (seq 0 256))) as I.
  { apply in_map_iff. exists (Z.to_nat header). split; [lia|].
    apply in_seq. lia. }
  specialize (T I). tauto.
Qed.

Lemma Uint8_unpack_cons b c r :
  Uint8_unpack BytesIO_read (mkBytesIO c (b :: r)) = (Ok b, mkBytesIO (c ++ [b]) r).
Proof.
  unfold Uint8_unpack, Uint_unpack, bind. change (Z.of_nat 1) with 1.
  change (b :: r) with ([b] ++ r).
  rewrite (BytesIO_read_exact' 1 [b] c r eq_refl).
  cbn. now rewrite Z.add_0_r.
Qed.

(** C4, as stated, fails: the header byte 0x50 (cmd = 5, which [doParse]
    has no branch for) parses to the generic variant, but writing that
    variant raises NotImplementedError instead of giving the bytes back;
    and the header byte 0xA0 (cmd = 10, not a command at all) makes
    [doParse] raise ValueError from the constructor of the generic
    variant. *)
Lemma generic_variant_counterexample :
  doParse 0 [0x50; 1; 2] = Ok (Some (DynamicChannelPDU 0 0 5 [1; 2]))
  /\ write (DynamicChannelPDU 0 0 5 [1; 2]) = Raise NotImplementedError
  /\ doParse 0 [0xA0; 1; 2] = Raise ValueError.
Proof. repeat split. Qed.

(** C4, amended: a header byte whose command is a member of
    DynamicChannelCommand that [doParse] has no branch for
    (CAPABILITY_REQUEST, SOFT_SYNC_REQUEST, SOFT_SYNC_RESPONSE) and whose
    cbid is a width selector (not 3) parses, whatever follows it, to the
    generic variant carrying cbid, sp, cmd and exactly the remaining
    bytes; writing that variant raises NotImplementedError. *)
Theorem unbranched_command_parses_to_generic_variant :
  forall fuel header payload,
    0 <= header < 256 ->
    In (header_cmd header)
       [DynamicChannelCommand.CAPABILITY_REQUEST;
        DynamicChannelCommand.SOFT_SYNC_REQUEST;
        DynamicChannelCommand.SOFT_SYNC_RESPONSE] ->
    header_cbid header <> 3 ->
    doParse fuel (header :: payload)
    = Ok (Some (DynamicChannelPDU (header_cbid header) (header_sp header)
                  (header_cmd header) payload))
    /\ write (DynamicChannelPDU (header_cbid header) (header_sp header)
                (header_cmd header) payload)
       = Raise NotImplementedError.
Proof.
  intros fuel header payload Hh Hcmd Hcbid.
  destruct (header_fields header Hh) as (Rc & Rs & Rm & Hpack).
  assert (enum_cast CbId.members (header_cbid header) = Ok (header_cbid header))
    as Ecb.
  { assert (header_cbid header = 0 \/ header_cbid header = 1
            \/ header_cbid header = 2) as [-> | [-> | ->]] by lia;
      reflexivity. }
  assert (enum_cast DynamicChannelCommand.members (header_cmd header)
          = Ok (header_cmd header)) as Ecm.
  { destruct Hcmd as [<- | [<- | [<- | []]]]; reflexivity. }
  split.
  - unfold doParse, run_parser, doParse_stream, BytesIO_of.
    unfold bind at 1. rewrite Uint8_unpack_cons. cbv beta iota zeta.
    fold (header_cbid header) (header_sp header) (header_cmd header).
    assert ((header_cmd header =? DynamicChannelCommand.CREATE) = false
            /\ (header_cmd header =? DynamicChannelCommand.DATA_FIRST) = false
            /\ (header_cmd header =? DynamicChannelCommand.DATA) = false
            /\ (header_cmd header =? DynamicChannelCommand.DATA_FIRST_COMPRESSED) = false
            /\ (header_cmd header =? DynamicChannelCommand.DATA_COMPRESSED) = false
            /\ (header_cmd header =? DynamicChannelCommand.CLOSE) = false)
      as (-> & -> & -> & -> & -> & ->).
    { destruct Hcmd as [<- | [<- | [<- | []]]]; repeat split. }
    unfold bind at 1. rewrite BytesIO_read_all_spec. cbv beta iota.
    unfold bind at 1, init. cbn [cbid cmd]. rewrite Ecb, Ecm. reflexivity.
  - unfold write, run_writer, write_stream. cbn [cbid sp cmd].
    fold (pack_header (header_cbid header) (header_sp header) (header_cmd header)).
    rewrite Hpack. unfold bind, Uint8_pack.
    rewrite Uint_pack_in_range by (change (256 ^ Z.of_nat 1) with 256; lia).
    reflexivity.
Qed.

(** The amended C4 at the header byte 0x59 followed by two bytes. *)
Lemma unbranched_command_witness :
  doParse 0 [0x59; 7; 8] = Ok (Some (DynamicChannelPDU 1 2 5 [7; 8]))
  /\ write (DynamicChannelPDU 1 2 5 [7; 8]) = Raise NotImplementedError.
Proof.
  apply (unbranched_command_parses_to_generic_variant 0 0x59 [7; 8]).
  - lia.
  - left. reflexivity.
  - discriminate.
Defined.

End DynamicChannelFacts.

(** ** Client network data: the exploit signature *)

Section BlueKeep.
Import ClientConnectionParser.

Lemma starts_with_app needle rest : starts_with needle (needle ++ rest) = true.
Proof.
  induction needle as [|b needle IH]; [reflexivity|].
  cbn. now rewrite Z.eqb_refl, IH.
Qed.

Lemma contains_app needle before rest :
  contains needle (before ++ needle ++ rest) = true.
Proof.
  induction before as [|b before IH].
  - cbn [app]. pose proof (starts_with_app needle rest) as E.
    destruct (needle ++ rest); cbn [contains]; now rewrite E.
  - cbn [app contains]. rewrite IH. apply orb_true_r.
Qed.

Lemma upper_app a b : upper (a ++ b) = upper a ++ upper b.
Proof. apply map_app. Qed.

(** A payload in which some substring is MS_T120 up to letter case is
    detected. *)
Lemma detectBlueKeepScan_any_case before s rest :
  upper s = MS_T120 -> detectBlueKeepScan (before ++ s ++ rest) = true.
Proof.
  intros H. unfold detectBlueKeepScan.
  rewrite !upper_app, H. apply contains_app.
Qed.

(** C5: a client network-data payload that contains MS_T120 in any letter
    case makes [parseClientNetworkData] raise ExploitError, whatever the
    rest of the payload is, and before anything is read from the stream
    (the stream is left at position 0). *)
Theorem network_data_with_MS_T120_raises_ExploitError :
  forall before s rest,
    upper s = MS_T120 ->
    parseClientNetworkData (BytesIO_of (before ++ s ++ rest))
    = (Raise ExploitError, BytesIO_of (before ++ s ++ rest)).
Proof.
  intros before s rest H.
  unfold parseClientNetworkData, bind, get_stream, BytesIO_of, getvalue.
  cbn [consumed remaining app].
  now rewrite (detectBlueKeepScan_any_case before s rest H).
Qed.

(** C5 on a payload that is otherwise a valid one-channel array, the name
    written as [ms_t120]. *)
Lemma network_data_with_MS_T120_witness :
  parseClientNetworkData
    (BytesIO_of ([1; 0; 0; 0] ++ [0x6D; 0x73; 0x5F; 0x74; 0x31; 0x32; 0x30]
                 ++ [0; 0; 0; 0; 0]))
  = (Raise ExploitError,
     BytesIO_of ([1; 0; 0; 0] ++ [0x6D; 0x73; 0x5F; 0x74; 0x31; 0x32; 0x30]
                 ++ [0; 0; 0; 0; 0])).
Proof.
  apply (network_data_with_MS_T120_raises_ExploitError
           [1; 0; 0; 0] [0x6D; 0x73; 0x5F; 0x74; 0x31; 0x32; 0x30] [0; 0; 0; 0; 0]).
  reflexivity.
Defined.

End BlueKeep.

(** ** What a successful read has consumed *)

Lemma BytesIO_read_inv n s d s' :
  BytesIO_read n s = (Ok d, s') ->
  exists r', remaining s = d ++ r' /\ s' = mkBytesIO (consumed s ++ d) r'
             /\ (n < 0 \/ len d < n -> r' = []) /\ (0 <= n -> len d <= n).
Proof.
  unfold BytesIO_read. intros H. inversion H; subst; clear H.
  set (k := if n <? 0 then length (remaining s) else Z.to_nat n).
  exists (skipn k (remaining s)). rewrite firstn_skipn.
  repeat split.
  - intros Hn. apply skipn_all2. unfold len in Hn. rewrite length_firstn in Hn.
    subst k. destruct (Z.ltb_spec n 0); lia.
  - intros Hn. unfold len. rewrite length_firstn. subst k.
    destruct (Z.ltb_spec n 0); lia.
Qed.

Lemma Uint_unpack_inv w s v s' :
  Uint_unpack w BytesIO_read s = (Ok v, s') ->
  exists d r', length d = w /\ remaining s = d ++ r'
               /\ s' = mkBytesIO (consumed s ++ d) r' /\ v = le_value d.
Proof.
  unfold Uint_unpack, bind. intros H.
  destruct (BytesIO_read (Z.of_nat w) s) as [[d|e] s1] eqn:E; [|discriminate].
  apply BytesIO_read_inv in E. destruct E as (r' & E1 & E2 & _).
  destruct (Z.eqb_spec (len d) (Z.of_nat w)) as [L|L]; [|discriminate].
  inversion H; subst. exists d, r'. unfold len in L. repeat split; auto; lia.
Qed.

(** ** Server connection data: the block loop *)

Section ServerLoop.
Import ServerPDU ServerConnectionParser.

(** A block that is parsed has taken at least its four header bytes from
    the stream, and the buffer of the stream is what it was. *)
Lemma server_parseStructure_consumes s st s' :
  parseStructure s = (Ok st, s') ->
  (length (remaining s') + 4 <= length (remaining s))%nat
  /\ (4 <= length (consumed s'))%nat.
Proof.
  unfold parseStructure. unfold bind at 1. intros H.
  destruct (Uint16LE_unpack BytesIO_read s) as [[h|e] s1] eqn:E1; [|discriminate].
  unfold bind at 1 in H.
  destruct (Uint16LE_unpack BytesIO_read s1) as [[l|e] s2] eqn:E2; [|discriminate].
  cbv zeta in H. unfold bind at 1 in H.
  destruct (BytesIO_read (l - 4) s2) as [[d|e] s3] eqn:E3; [|discriminate].
  apply Uint_unpack_inv in E1. destruct E1 as (d1 & r1 & L1 & R1 & -> & _).
  apply Uint_unpack_inv in E2. destruct E2 as (d2 & r2 & L2 & R2 & -> & _).
  apply BytesIO_read_inv in E3. destruct E3 as (r3 & R3 & -> & _).
  cbn [remaining consumed] in *.
  assert (s' = mkBytesIO (((consumed s ++ d1) ++ d2) ++ d) r3) as ->.
  { destruct (len d <? l - 4); [discriminate|].
    destruct (parsers h) as [parser|]; [|discriminate].
    unfold on_substream, lift_result in H.
    destruct (run_parser parser d); inversion H; reflexivity. }
  cbn [remaining consumed]. rewrite R1, R2, R3, !length_app. lia.
Qed.

(** The loop hands back its variables only when the three mandatory ones
    are set: the [break] is never taken, the buffer of a stream from which
    a block has been read not being empty. *)
Lemma server_loop_result fuel :
  forall vars s pdu s',
    doParse_loop fuel vars s = (Ok (Some pdu), s') -> server_mandatory_present pdu.
Proof.
  induction fuel as [|fuel IH]; intros vars s pdu s' H; [discriminate|].
  cbn [doParse_loop] in H.
  destruct (is_None (coreData vars) || is_None (securityData vars)
            || is_None (networkData vars)) eqn:C.
  - unfold bind at 1 in H.
    destruct (parseStructure s) as [[st|e] s1] eqn:E; [|discriminate].
    apply server_parseStructure_consumes in E. destruct E as [_ E].
    unfold bind at 1 in H.
    destruct (lift_result (record_structure st vars) s1) as [[vars'|e] s2] eqn:R;
      [|discriminate].
    assert (s2 = s1) as ->.
    { unfold lift_result in R. destruct (record_structure st vars);
        inversion R; reflexivity. }
    unfold bind at 1, get_stream in H.
    destruct (Z.eqb_spec (len (getvalue s1)) 0) as [Z0|Z0].
    + unfold getvalue, len in Z0. rewrite length_app in Z0. lia.
    + eapply IH; eassumption.
  - inversion H; subst. unfold server_mandatory_present.
    destruct (coreData pdu), (securityData pdu), (networkData pdu);
      try discriminate. repeat split; discriminate.
Qed.

(** The loop is over within [length (remaining s) + 1] evaluations of its
    condition. *)
Lemma server_loop_terminates fuel :
  forall vars s,
    (length (remaining s) < fuel)%nat ->
    fst (doParse_loop fuel vars s) <> Ok None.
Proof.
  induction fuel as [|fuel IH]; intros vars s L; [lia|].
  cbn [doParse_loop].
  destruct (is_None (coreData vars) || is_None (securityData vars)
            || is_None (networkData vars)); [|discriminate].
  unfold bind at 1.
  destruct (parseStructure s) as [[st|e] s1] eqn:E; [|discriminate].
  apply server_parseStructure_consumes in E. destruct E as [E _].
  unfold bind at 1.
  destruct (lift_result (record_structure st vars) s1) as [[vars'|e] s2] eqn:R;
    [|discriminate].
  assert (s2 = s1) as ->.
  { unfold lift_result in R. destruct (record_structure st vars);
      inversion R; reflexivity. }
  unfold bind at 1, get_stream.
  destruct (len (getvalue s1) =? 0); [discriminate|].
  apply IH. lia.
Qed.

(** [ServerConnectionParser.doParse] returns or raises on every input. *)
Lemma server_doParse_returns data : doParse data <> Ok None.
Proof.
  unfold doParse, run_parser. apply server_loop_terminates.
  unfold BytesIO_of. cbn [remaining]. lia.
Qed.

(** C10: on every input [ServerConnectionParser.doParse] either raises or
    returns a ServerDataPDU in which the core, the security and the
    network blocks are all present; in particular an input that runs out
    before the three have been seen raises. *)
Theorem server_doParse_mandatory_blocks :
  forall data,
    (exists e, doParse data = Raise e)
    \/ (exists pdu, doParse data = Ok (Some pdu)
                    /\ coreData pdu <> None /\ securityData pdu <> None
                    /\ networkData pdu <> None).
Proof.
  intros data. pose proof (server_doParse_returns data) as T.
  unfold doParse, run_parser in *.
  destruct (doParse_loop (S (length data)) no_structure (BytesIO_of data))
    as [[[pdu|]|e] s'] eqn:E; cbn [fst] in *.
  - right. exists pdu. split; [reflexivity|].
    eapply server_loop_result. eassumption.
  - congruence.
  - left. now exists e.
Qed.

End ServerLoop.

(** ** Client connection data: the block loop *)

Section ClientLoop.
Import ClientConnectionParser.

Lemma client_parseStructure_inv s st s' :
  parseStructure s = (Ok st, s') ->
  exists h l d r' parser,
    length h = 2%nat /\ length l = 2%nat /\ len d = le_value l - 4
    /\ remaining s = h ++ l ++ d ++ r'
    /\ s' = mkBytesIO (consumed s ++ h ++ l ++ d) r'
    /\ parsers (le_value h) = Some parser /\ run_parser parser d = Ok st.
Proof.
  unfold parseStructure. unfold bind at 1. intros H.
  destruct (Uint16LE_unpack BytesIO_read s) as [[h|e] s1] eqn:E1; [|discriminate].
  unfold bind at 1 in H.
  destruct (Uint16LE_unpack BytesIO_read s1) as [[l|e] s2] eqn:E2; [|discriminate].
  cbv zeta in H. unfold bind at 1 in H.
  destruct (BytesIO_read (l - 4) s2) as [[d|e] s3] eqn:E3; [|discriminate].
  apply Uint_unpack_inv in E1. destruct E1 as (d1 & r1 & L1 & R1 & -> & ->).
  apply Uint_unpack_inv in E2. destruct E2 as (d2 & r2 & L2 & R2 & -> & ->).
  apply BytesIO_read_inv in E3. destruct E3 as (r3 & R3 & -> & _).
  cbn [remaining consumed] in *.
  destruct (Z.eqb_spec (len d) (le_value d2 - 4)) as [L|L]; [|discriminate].
  cbn [negb] in H.
  destruct (parsers (le_value d1)) as [parser|] eqn:P; [|discriminate].
  unfold on_substream, lift_result in H.
  destruct (run_parser parser d) as [st'|e] eqn:R; inversion H; subst.
  exists d1, d2, d, r3, parser. rewrite R1, <- !app_assoc.
  repeat split; auto.
Qed.

Lemma client_parseStructure_built c h l d r parser st :
  length h = 2%nat -> length l = 2%nat -> len d = le_value l - 4 ->
  parsers (le_value h) = Some parser -> run_parser parser d = Ok st ->
  parseStructure (mkBytesIO c (h ++ l ++ d ++ r))
  = (Ok st, mkBytesIO (c ++ h ++ l ++ d) r).
Proof.
  intros Lh Ll Ld P R. unfold parseStructure, Uint16LE_unpack, Uint_unpack.
  unfold bind at 1. unfold bind at 1.
  rewrite BytesIO_read_exact' by (unfold len; lia).
  unfold len at 1. rewrite Lh, Z.eqb_refl. unfold ret at 1.
  unfold bind at 1. unfold bind at 1.
  rewrite BytesIO_read_exact' by (unfold len; lia).
  unfold len at 1. rewrite Ll, Z.eqb_refl. unfold ret at 1.
  cbv zeta. unfold bind at 1.
  rewrite BytesIO_read_exact' by assumption.
  rewrite Ld, Z.eqb_refl. cbn [negb]. rewrite P.
  unfold on_substream. rewrite R. cbn. now rewrite <- !app_assoc.
Qed.

(** A block that is parsed is parsed the same whatever follows it. *)
Lemma client_parseStructure_app c r st s' extra :
  parseStructure (mkBytesIO c r) = (Ok st, s') ->
  parseStructure (mkBytesIO c (r ++ extra))
  = (Ok st, mkBytesIO (consumed s') (remaining s' ++ extra))
  /\ (length (remaining s') + 4 <= length r)%nat
  /\ (4 <= length (consumed s'))%nat.
Proof.
  intros H. apply client_parseStructure_inv in H.
  destruct H as (h & l & d & r' & parser & Lh & Ll & Ld & R & -> & P & Run).
  cbn [remaining consumed] in *. subst r. split.
  - rewrite <- !app_assoc. eapply client_parseStructure_built; eassumption.
  - rewrite !length_app. lia.
Qed.

Lemma at_end_iff c r : (tell (mkBytesIO c r) =? len (getvalue (mkBytesIO c r))) = true <-> r = [].
Proof.
  unfold tell, getvalue, len. cbn [consumed remaining].
  rewrite Z.eqb_eq, length_app. destruct r; cbn [length]; split; intros H;
    try reflexivity; try discriminate; lia.
Qed.

Lemma client_missing_false vars :
  client_missing vars = false <-> client_mandatory_present vars.
Proof.
  unfold client_missing, client_mandatory_present.
  destruct (coreData vars), (securityData vars), (networkData vars),
    (clusterData vars); cbn; split; intros H; try discriminate;
    try (repeat split; discriminate); try reflexivity;
    destruct H as (H1 & H2 & H3 & H4); congruence.
Qed.

(** The loop is over within [length (remaining s) + 1] evaluations of its
    condition. *)
Lemma client_loop_terminates fuel :
  forall vars s,
    (length (remaining s) < fuel)%nat ->
    fst (doParse_loop fuel vars s) <> Ok None.
Proof.
  induction fuel as [|fuel IH]; intros vars [c r] L; [lia|].
  cbn [doParse_loop]. unfold bind at 1, get_stream. fold (client_missing vars).
  destruct (negb (tell (mkBytesIO c r) =? len (getvalue (mkBytesIO c r)))
            && client_missing vars); [|discriminate].
  unfold bind at 1.
  destruct (parseStructure (mkBytesIO c r)) as [[st|e] s1] eqn:E; [|discriminate].
  apply client_parseStructure_app with (extra := []) in E.
  destruct E as (_ & E & _). cbn [remaining] in *.
  unfold bind at 1. destruct (len (getvalue s1) =? 0); [discriminate|].
  apply IH. lia.
Qed.

(** [ClientConnectionParser.doParse] returns or raises on every input. *)
Lemma client_doParse_returns data : doParse data <> Ok None.
Proof.
  unfold doParse, run_parser. apply client_loop_terminates.
  unfold BytesIO_of. cbn [remaining]. lia.
Qed.

(** A run of the loop that ends with the four mandatory blocks recorded
    ends the same, with the same variables, when more fuel is given and
    when anything at all follows the bytes it has read. *)
Lemma client_loop_ignores_rest fuel :
  forall vars c r pdu s' extra fuel',
    doParse_loop fuel vars (mkBytesIO c r) = (Ok (Some pdu), s') ->
    client_mandatory_present pdu ->
    (fuel <= fuel')%nat ->
    fst (doParse_loop fuel' vars (mkBytesIO c (r ++ extra))) = Ok (Some pdu).
Proof.
  induction fuel as [|fuel IH]; intros vars c r pdu s' extra fuel' H P L;
    [discriminate|].
  destruct fuel' as [|fuel']; [lia|].
  cbn [doParse_loop] in *. unfold bind at 1, get_stream in H.
  unfold bind at 1, get_stream. fold (client_missing vars) in *.
  destruct (client_missing vars) eqn:Miss.
  - rewrite andb_true_r in *.
    destruct (tell (mkBytesIO c r) =? len (getvalue (mkBytesIO c r))) eqn:End.
    + cbn [negb] in H. inversion H; subst.
      apply client_missing_false in P. congruence.
    + cbn [negb] in H.
      assert ((tell (mkBytesIO c (r ++ extra))
               =? len (getvalue (mkBytesIO c (r ++ extra)))) = false) as ->.
      { destruct (tell (mkBytesIO c (r ++ extra))
                  =? len (getvalue (mkBytesIO c (r ++ extra)))) eqn:End';
          [|reflexivity].
        apply at_end_iff in End'. apply app_eq_nil in End'.
        destruct End' as [-> _].
        assert ((tell (mkBytesIO c []) =? len (getvalue (mkBytesIO c []))) = true)
          by now apply at_end_iff.
        congruence. }
      cbn [negb]. unfold bind at 1 in H. unfold bind at 1.
      destruct (parseStructure (mkBytesIO c r)) as [[st|e] s1] eqn:E;
        [|discriminate].
      apply client_parseStructure_app with (extra := extra) in E.
      destruct E as (-> & _ & C4). unfold bind at 1 in H. unfold bind at 1.
      unfold get_stream in *.
      assert (forall s, (4 <= length (consumed s))%nat ->
                        (len (getvalue s) =? 0) = false) as NE.
      { intros s Hs. apply Z.eqb_neq. unfold len, getvalue.
        rewrite length_app. lia. }
      rewrite NE in H by assumption. rewrite NE by assumption.
      destruct s1 as [c1 r1]. cbn [consumed remaining] in *.
      eapply IH; [eassumption | assumption | lia].
  - rewrite andb_false_r in *. inversion H; subst. reflexivity.
Qed.

(** C2, as stated, fails: after the four mandatory blocks a well-formed
    message channel block follows before the buffer is exhausted (it is
    parsed when it stands alone), and [doParse] returns a ClientDataPDU
    without it. *)
Lemma trailing_block_counterexample :
  (exists pdu,
      doParse (example_mandatory_blocks ++ example_msgchannel_block)
      = Ok (Some pdu)
      /\ client_mandatory_present pdu /\ messageChannelData pdu = None)
  /\ run_parser parseStructure example_msgchannel_block
     = Ok (ClientMessageChannel 7).
Proof.
  split; [|reflexivity].
  eexists. split; [vm_compute; reflexivity|].
  split; [repeat split; discriminate | reflexivity].
Qed.

(** C2, amended: once the four mandatory blocks (core, security, network,
    cluster) have been parsed, [doParse] returns; whatever follows them in
    the buffer, well-formed blocks included, is neither parsed nor
    recorded: the result is the one of the buffer cut after the last of
    the four. *)
Theorem client_doParse_stops_after_mandatory_blocks :
  forall data pdu extra,
    doParse data = Ok (Some pdu) ->
    client_mandatory_present pdu ->
    doParse (data ++ extra) = Ok (Some pdu).
Proof.
  intros data pdu extra H P. unfold doParse, run_parser, BytesIO_of in *.
  destruct (doParse_loop (S (length data)) no_structure (mkBytesIO [] data))
    as [res s'] eqn:E.
  cbn [fst] in H. subst res.
  eapply client_loop_ignores_rest; [eassumption | assumption |].
  rewrite length_app. lia.
Qed.

(** The amended C2 on the four mandatory blocks followed by a message
    channel block. *)
Lemma client_doParse_stops_witness :
  doParse (example_mandatory_blocks ++ example_msgchannel_block)
  = doParse example_mandatory_blocks.
Proof.
  destruct (doParse example_mandatory_blocks) as [[pdu|]|e] eqn:E;
    try (vm_compute in E; discriminate).
  apply (client_doParse_stops_after_mandatory_blocks
           example_mandatory_blocks pdu example_msgchannel_block E).
  vm_compute in E. inversion E. repeat split; discriminate.
Defined.

End ClientLoop.

(** ** Optional-field cascades *)

Section Truncation.

Lemma trunc_safe_ret {S A} (R : S -> S -> Prop) (a : A) : trunc_safe R (ret a).
Proof. intros s t H. left. exists t. split; [reflexivity | assumption]. Qed.

Lemma trunc_safe_raise {S A} (R : S -> S -> Prop) (e : exn) :
  trunc_safe R (@raise S A e).
Proof.
  intros s t H. unfold raise. intros E. exists t.
  destruct e; try discriminate. reflexivity.
Qed.

Lemma trunc_safe_lift_result {S A} (R : S -> S -> Prop) (r : result A) :
  trunc_safe R (lift_result r).
Proof.
  destruct r; [apply trunc_safe_ret | apply trunc_safe_raise].
Qed.

Lemma trunc_safe_bind {S A B} (R : S -> S -> Prop) (m : M S A) (k : A -> M S B) :
  trunc_safe R m -> (forall a, trunc_safe R (k a)) -> trunc_safe R (bind m k).
Proof.
  intros Hm Hk s t H. specialize (Hm s t H). unfold bind.
  destruct (m s) as [[a|e] s1].
  - destruct Hm as [(t1 & -> & H1) | (t1 & ->)].
    + apply (Hk a s1 t1 H1).
    + destruct (k a s1) as [[b|e] s2]; [right | intros _]; now exists t1.
  - intros E. destruct (Hm E) as (t1 & ->). now exists t1.
Qed.

Lemma trunc_safe_StrictStream_read n : trunc_safe truncated (StrictStream_read n).
Proof.
  intros [c r] [c' r'] [k H]. cbn [remaining] in H. subst r'.
  unfold StrictStream_read, bind, BytesIO_read, ret, raise.
  cbn [remaining consumed].
  destruct (Z.ltb_spec n 0) as [N|N].
  - rewrite !firstn_all.
    destruct (Z.eqb_spec (len r) n) as [E|E];
      [pose proof (len_nonneg r); lia|].
    destruct (Z.eqb_spec (len (firstn k r)) n) as [E'|E'];
      [pose proof (len_nonneg (firstn k r)); lia|].
    intros _. eexists. reflexivity.
  - destruct (Z.eqb_spec (len (firstn (Z.to_nat n) r)) n) as [E|E].
    + unfold len in E. rewrite length_firstn in E.
      destruct (Nat.le_gt_cases (Z.to_nat n) k) as [K|K].
      * left. eexists. rewrite firstn_firstn, Nat.min_l by assumption.
        unfold len. rewrite length_firstn.
        destruct (Z.eqb_spec (Z.of_nat (Nat.min (Z.to_nat n) (length r))) n);
          [|lia].
        split; [reflexivity|]. exists (k - Z.to_nat n)%nat.
        cbn [remaining]. apply skipn_firstn_comm.
      * right. eexists. unfold len. rewrite !length_firstn.
        destruct (Z.eqb_spec
                    (Z.of_nat (Nat.min (Z.to_nat n) (Nat.min k (length r)))) n);
          [lia | reflexivity].
    + intros _. eexists. unfold len in *. rewrite !length_firstn in *.
      destruct (Z.eqb_spec
                  (Z.of_nat (Nat.min (Z.to_nat n) (Nat.min k (length r)))) n);
        [lia | reflexivity].
Qed.

Lemma trunc_safe_Uint_unpack w : trunc_safe truncated (Uint_unpack w StrictStream_read).
Proof.
  apply trunc_safe_bind; [apply trunc_safe_StrictStream_read|].
  intros d. destruct (len d =? Z.of_nat w);
    [apply trunc_safe_ret | apply trunc_safe_raise].
Qed.

Lemma trunc_safe_on_stream {L A} (m : M BytesIO A) :
  trunc_safe truncated m -> trunc_safe (@truncated_with L) (on_stream m).
Proof.
  intros Hm [s l] [t l'] [H E]. cbn [fst snd] in *. subst l'.
  specialize (Hm s t H). unfold on_stream.
  destruct (m s) as [[a|e] s1].
  - destruct Hm as [(t1 & -> & H1) | (t1 & ->)].
    + left. exists (t1, l). split; [reflexivity | split; auto].
    + right. now exists (t1, l).
  - intros X. destruct (Hm X) as (t1 & ->). now exists (t1, l).
Qed.

Lemma trunc_safe_assign {L} (f : L -> L) : trunc_safe truncated_with (assign f).
Proof.
  intros [s l] [t l'] [H E]. cbn [fst snd] in *. subst l'.
  left. exists (t, f l). split; [reflexivity | split; auto].
Qed.

Lemma trunc_total_bind {S A B} (R : S -> S -> Prop) (m : M S A) (k : A -> M S B) :
  trunc_safe R m -> (forall a, trunc_total R (k a)) -> trunc_total R (bind m k).
Proof.
  intros Hm Hk s t H b s' E. specialize (Hm s t H). unfold bind in *.
  destruct (m s) as [[a|e] s1]; [|discriminate].
  destruct Hm as [(t1 & -> & H1) | (t1 & ->)].
  - apply (Hk a s1 t1 H1 b s' E).
  - exists (Raise EOFError), t1. auto.
Qed.

(** The [try] block: whatever the truncation stops, the handler turns
    into a normal return. *)
Lemma trunc_total_try {L} (init : L) (body : M (BytesIO * L) unit) :
  trunc_safe truncated_with body ->
  trunc_total truncated (with_locals init (try_except is_EOFError body)).
Proof.
  intros Hb s t H l s' E.
  specialize (Hb (s, init) (t, init) (conj H eq_refl)).
  unfold with_locals, try_except in *.
  destruct (body (s, init)) as [[[]|e] [s1 l1]].
  - destruct Hb as [([t1 l2] & -> & _) | ([t1 l2] & ->)]; cbn.
    + exists (Ok l2), t1. split; [reflexivity | right; eauto].
    + exists (Ok l2), t1. split; [reflexivity | right; eauto].
  - destruct (is_EOFError e) eqn:X; [|discriminate].
    destruct (Hb eq_refl) as ([t1 l2] & ->). cbn.
    exists (Ok l2), t1. split; [reflexivity | right; eauto].
Qed.

End Truncation.

Ltac monad_unfold :=
  cbv beta iota zeta delta [bind on_stream assign with_locals try_except ret
                             raise lift_result is_EOFError fst snd].

(** One read or conversion of a parser run: either it raises, and the run is
    over, or it gives a value and the run goes on. *)
Ltac parse_step :=
  match goal with
  | |- context [Uint_unpack ?w ?rd ?s] =>
    destruct (Uint_unpack w rd s) as [[?|[]] ?]
  | |- context [StrictStream_read ?n ?s] =>
    destruct (StrictStream_read n s) as [[?|[]] ?]
  | |- context [enum_cast ?m ?v] =>
    destruct (enum_cast m v) as [?|[]]
  | |- context [ServerConnectionParser.parseServerCertificate ?d] =>
    destruct (ServerConnectionParser.parseServerCertificate d) as [?|[]]
  end; monad_unfold; try discriminate.

Ltac find_cascade n :=
  first [ exists n; split; [cbn; lia | reflexivity]
        | lazymatch n with
          | O => fail
          | S ?m => find_cascade m
          end ].

Ltac trunc_safe_steps :=
  repeat first
    [ apply trunc_safe_Uint_unpack
    | apply trunc_safe_StrictStream_read
    | apply trunc_safe_assign
    | apply trunc_safe_lift_result
    | apply trunc_safe_ret
    | apply trunc_safe_on_stream
    | apply trunc_safe_bind; [|intros ?] ].

Section Cascades.

Lemma client_core_cascade s core s' :
  ClientConnectionParser.parseClientCoreData s = (Ok core, s') ->
  cascade (client_core_presence core).
Proof.
  unfold ClientConnectionParser.parseClientCoreData,
    Uint8_unpack, Uint16LE_unpack, Uint32LE_unpack.
  monad_unfold. repeat parse_step.
  all: intros H; inversion H; subst; clear H.
  all: find_cascade 14%nat.
Qed.

Lemma server_core_cascade s core s' :
  ServerConnectionParser.parseServerCoreData s = (Ok core, s') ->
  cascade (server_core_presence core).
Proof.
  unfold ServerConnectionParser.parseServerCoreData, Uint32LE_unpack.
  monad_unfold. repeat parse_step.
  all: intros H; inversion H; subst; clear H.
  all: find_cascade 2%nat.
Qed.

Lemma server_security_cascade s security s' :
  ServerConnectionParser.parseServerSecurityData s = (Ok security, s') ->
  cascade (server_security_presence security).
Proof.
  unfold ServerConnectionParser.parseServerSecurityData, Uint32LE_unpack.
  monad_unfold. repeat parse_step.
  all: intros H; inversion H; subst; clear H.
  all: find_cascade 2%nat.
Qed.

Lemma client_core_trunc_total :
  trunc_total truncated ClientConnectionParser.parseClientCoreData.
Proof.
  unfold ClientConnectionParser.parseClientCoreData,
    Uint8_unpack, Uint16LE_unpack, Uint32LE_unpack. cbv zeta.
  do 14 (apply trunc_total_bind; [trunc_safe_steps | intros ?]).
  apply trunc_total_try. trunc_safe_steps.
Qed.

Lemma trunc_total_then_pure {S A B} (R : S -> S -> Prop) (m : M S A)
      (k : A -> M S B) :
  trunc_total R m -> (forall a s, exists b, k a s = (Ok b, s)) ->
  trunc_total R (bind m k).
Proof.
  intros Hm Hk s t H b s' E. unfold bind in *.
  destruct (m s) as [[a|e] s1] eqn:Es; [|discriminate].
  destruct (Hm s t H a s1 Es) as (r & t1 & -> & [-> | [a' ->]]).
  - exists (Raise EOFError), t1. auto.
  - destruct (Hk a' t1) as [b' ->]. exists (Ok b'), t1. eauto.
Qed.

Lemma server_core_trunc_total :
  trunc_total truncated ServerConnectionParser.parseServerCoreData.
Proof.
  unfold ServerConnectionParser.parseServerCoreData, Uint32LE_unpack. cbv zeta.
  apply trunc_total_bind; [trunc_safe_steps | intros ?].
  apply trunc_total_then_pure.
  - apply trunc_total_try. trunc_safe_steps.
  - intros [x y] s. eexists. reflexivity.
Qed.

Lemma server_security_trunc_total :
  trunc_total truncated ServerConnectionParser.parseServerSecurityData.
Proof.
  unfold ServerConnectionParser.parseServerSecurityData, Uint32LE_unpack. cbv zeta.
  do 4 (apply trunc_total_bind; [trunc_safe_steps | intros ?]).
  apply trunc_total_then_pure.
  - apply trunc_total_try. trunc_safe_steps.
  - intros [x y] s. eexists. reflexivity.
Qed.

Lemma truncation_outcome_of_total {A} (m : M BytesIO A) (presence : A -> list bool) :
  trunc_total truncated m ->
  (forall s a s', m s = (Ok a, s') -> cascade (presence a)) ->
  forall data k a,
    run_parser m data = Ok a ->
    truncation_outcome presence (run_parser m (firstn k data)).
Proof.
  intros Ht Hc data k a E. unfold run_parser in *.
  destruct (m (BytesIO_of data)) as [r s'] eqn:Es. cbn [fst] in E. subst r.
  assert (truncated (BytesIO_of data) (BytesIO_of (firstn k data))) as T
      by (exists k; reflexivity).
  destruct (Ht _ _ T a s' Es) as (r & t' & Et & [-> | [b ->]]);
    rewrite Et; cbn [fst].
  - now left.
  - right. exists b. split; [reflexivity|]. eapply Hc. eassumption.
Qed.

Lemma cascade_of_run_parser {A} (m : M BytesIO A) (presence : A -> list bool) :
  (forall s a s', m s = (Ok a, s') -> cascade (presence a)) ->
  forall data a, run_parser m data = Ok a -> cascade (presence a).
Proof.
  intros Hc data a E. unfold run_parser in E.
  destruct (m (BytesIO_of data)) as [r s'] eqn:Es. cbn [fst] in E. subst r.
  eapply Hc. eassumption.
Qed.

(** C6: a buffer is cut to its first [k] bytes and parsed as a client core,
    server core or server security block.  A block that comes out has its
    optional fields 1..j set and j+1..n absent for some j: never an earlier
    optional field absent and a later one present.  And when the whole
    buffer is a block that parses, the cut one either raises the
    end-of-input error of the strict stream or parses to such a block. *)
Theorem truncated_block_is_cascade_or_EOFError :
  forall data k,
    cascade_on_truncation ClientConnectionParser.parseClientCoreData
      client_core_presence data k
    /\ cascade_on_truncation ServerConnectionParser.parseServerCoreData
         server_core_presence data k
    /\ cascade_on_truncation ServerConnectionParser.parseServerSecurityData
         server_security_presence data k.
Proof.
  intros data k. unfold cascade_on_truncation. repeat split.
  - apply cascade_of_run_parser, client_core_cascade.
  - intros a E. eapply truncation_outcome_of_total;
      [apply client_core_trunc_total | apply client_core_cascade | exact E].
  - apply cascade_of_run_parser, server_core_cascade.
  - intros a E. eapply truncation_outcome_of_total;
      [apply server_core_trunc_total | apply server_core_cascade | exact E].
  - apply cascade_of_run_parser, server_security_cascade.
  - intros a E. eapply truncation_outcome_of_total;
      [apply server_security_trunc_total | apply server_security_cascade
      | exact E].
Qed.

(** C6 on three blocks: a client core block with two optional fields cut
    in the middle of the second one, a server core block with both
    optional fields cut in the middle of the second one, a server security
    block cut in the middle of its second mandatory field. *)
Lemma truncated_block_witness :
  truncation_outcome client_core_presence
    (run_parser ClientConnectionParser.parseClientCoreData
       (firstn 131 (example_core_payload ++ [1; 0; 2; 0])))
  /\ truncation_outcome server_core_presence
       (run_parser ServerConnectionParser.parseServerCoreData
          (firstn 9 [4; 0; 8; 0; 1; 0; 0; 0; 2; 0; 0; 0]))
  /\ truncation_outcome server_security_presence
       (run_parser ServerConnectionParser.parseServerSecurityData
          (firstn 5 [0; 0; 0; 0; 0; 0; 0; 0])).
Proof.
  split; [|split].
  - eapply (proj2 (proj1 (truncated_block_is_cascade_or_EOFError
                            (example_core_payload ++ [1; 0; 2; 0]) 131))).
    vm_compute. reflexivity.
  - eapply (proj2 (proj1 (proj2 (truncated_block_is_cascade_or_EOFError
                                   [4; 0; 8; 0; 1; 0; 0; 0; 2; 0; 0; 0] 9)))).
    vm_compute. reflexivity.
  - eapply (proj2 (proj2 (proj2 (truncated_block_is_cascade_or_EOFError
                                   [0; 0; 0; 0; 0; 0; 0; 0] 5)))).
    vm_compute. reflexivity.
Defined.

End Cascades.

(** ** Client core data: the example block *)

Section ClientCoreExample.
Import ClientConnectionParser.

(** C9, as stated, fails on the size: the mandatory fields take
    4+2+2+2+2+4+4+32+4+4+4+64 = 128 bytes, the payload that is parsed and
    written back is 128 bytes long, not 88, and an 88-byte cut of it does
    not parse. *)
Lemma example_core_payload_counterexample :
  run_parser parseClientCoreData example_core_payload = Ok example_core
  /\ run_writer (writeClientCoreData example_core) = Ok example_core_payload
  /\ length example_core_payload <> 88%nat
  /\ run_parser parseClientCoreData (firstn 88 example_core_payload)
     = Raise EOFError.
Proof. repeat split. vm_compute. discriminate. Qed.

(** C9, amended: the client core block made of the mandatory fields only
    (version 0x00080004, 1024 x 768, colour depth 0xCA01, SAS sequence
    0xAA03, keyboard layout 0x409, build 2600, name [host], keyboard
    4/0/12, 64 zero IME bytes) and no optional byte parses to a
    ClientCoreData with every optional field absent, and writing that
    value gives back the exact payload, which is 128 bytes long. *)
Theorem example_core_block_roundtrip :
  run_parser parseClientCoreData example_core_payload = Ok example_core
  /\ client_core_presence example_core = repeat false 14
  /\ run_writer (writeClientCoreData example_core) = Ok example_core_payload
  /\ length example_core_payload = 128%nat.
Proof. repeat split. Qed.

End ClientCoreExample.

(** ** Server security data: the public key of a proprietary certificate *)

Section PublicKey.
Import ServerPDU ServerConnectionParser.

Lemma bytes_to_long_app s b : bytes_to_long (s ++ [b]) = bytes_to_long s * 256 + b.
Proof. unfold bytes_to_long. now rewrite fold_left_app. Qed.

(** The big-endian value of the reversed bytes is their little-endian
    value: the reversal of [parsePublicKey] turns the wire order into the
    order [bytes_to_long] expects. *)
Lemma bytes_to_long_rev l : bytes_to_long (rev l) = le_value l.
Proof.
  induction l as [|b l IH]; [reflexivity|].
  cbn [rev le_value]. rewrite bytes_to_long_app, IH. lia.
Qed.

Lemma byte_length_bound n : 0 <= n -> n < 256 ^ Z.of_nat (byte_length n).
Proof.
  intros H. unfold byte_length.
  assert (0 <= Z.log2 n / 8) as D
      by (apply Z.div_pos; [apply Z.log2_nonneg | lia]).
  rewrite Z2Nat.id by lia.
  change 256 with (2 ^ 8). rewrite <- Z.pow_mul_r by lia.
  destruct (Z.eq_dec n 0) as [->|N]; [reflexivity|].
  pose proof (Z.log2_spec n ltac:(lia)) as [_ U].
  eapply Z.lt_le_trans; [exact U|].
  apply Z.pow_le_mono_r; [lia|].
  pose proof (Z.mod_pos_bound (Z.log2 n) 8 ltac:(lia)).
  pose proof (Z.div_mod (Z.log2 n) 8 ltac:(lia)). lia.
Qed.

Lemma write_result_pack w v :
  0 <= v < 256 ^ Z.of_nat w ->
  write_result (Uint_pack w v) = stream_write (le_bytes w v).
Proof. intros H. now rewrite Uint_pack_in_range. Qed.

Lemma RSA_construct_inv n e key :
  RSA.construct n e = Ok key -> 1 < e < n /\ key = RSA.mkRsaKey n e.
Proof.
  unfold RSA.construct. intros C.
  destruct (Z.leb_spec e 1); [discriminate|].
  destruct (Z.leb_spec n e); [discriminate|]. cbn [orb] in C.
  destruct (negb (Z.gcd n e =? 1)); [discriminate|].
  destruct (Z.even n); [discriminate|]. inversion C. split; [lia | reflexivity].
Qed.

Ltac u32 := change (256 ^ Z.of_nat 4) with (2 ^ 32); lia.

(** What [writePublicKey] writes for a key that fits the blob: the magic
    [RSA1], the key length, the two informational lengths, the exponent,
    the modulus least significant byte first, eight zero bytes. *)
Lemma writePublicKey_bytes n e :
  0 <= n -> 0 <= e < 2 ^ 32 -> Z.of_nat (byte_length n) + 8 < 2 ^ 32 ->
  writePublicKey (RSA.mkRsaKey n e)
  = Ok (RSA1 ++ le_bytes 4 (Z.of_nat (byte_length n) + 8) ++ le_bytes 4 2048
        ++ le_bytes 4 255 ++ le_bytes 4 e ++ le_bytes (byte_length n) n
        ++ repeat 0 8).
Proof.
  intros Hn He Hk. unfold writePublicKey. cbn [RSA.n RSA.e]. unfold long_to_bytes.
  destruct (Z.ltb_spec n 0) as [?|_]; [lia|].
  rewrite rev_involutive. unfold Uint32LE_pack.
  assert (len (le_bytes (byte_length n) n) = Z.of_nat (byte_length n)) as ->
      by (unfold len; now rewrite le_bytes_length).
  rewrite !write_result_pack by u32.
  unfold run_writer, bind, stream_write. cbn [app].
  now rewrite <- !app_assoc.
Qed.

Lemma parsePublicKey_bytes n e key :
  RSA.construct n e = Ok key ->
  0 <= e < 2 ^ 32 -> Z.of_nat (byte_length n) + 8 < 2 ^ 32 ->
  parsePublicKey
    (RSA1 ++ le_bytes 4 (Z.of_nat (byte_length n) + 8) ++ le_bytes 4 2048
     ++ le_bytes 4 255 ++ le_bytes 4 e ++ le_bytes (byte_length n) n
     ++ repeat 0 8)
  = Ok key.
Proof.
  intros C He Hk. destruct (RSA_construct_inv n e key C) as [R _].
  unfold parsePublicKey, run_parser, BytesIO_of, Uint32LE_unpack.
  rewrite <- (app_nil_r (repeat 0 8)).
  unfold bind at 1. rewrite (BytesIO_read_exact' 4 RSA1) by reflexivity.
  cbv beta iota.
  do 4 (unfold bind at 1; rewrite Uint_unpack_le_bytes by u32; cbv beta iota).
  unfold bind at 1.
  rewrite (BytesIO_read_exact' (Z.of_nat (byte_length n) + 8 - 8)
             (le_bytes (byte_length n) n))
    by (unfold len; rewrite le_bytes_length; lia).
  cbv beta iota. unfold bind at 1.
  rewrite (BytesIO_read_exact' 8 (repeat 0 8)) by reflexivity.
  cbv beta iota zeta.
  rewrite bytes_to_long_rev, le_value_le_bytes_id
    by (split; [lia | apply byte_length_bound; lia]).
  unfold lift_result. now rewrite C.
Qed.

(** C7: for the (modulus, exponent) pair of a validly constructed public
    key that fits the blob of a proprietary certificate (the exponent in
    its 32-bit field, the byte length of the modulus plus 8 in the 32-bit
    key length field), [writePublicKey] gives a blob from which
    [parsePublicKey] gives the identical pair back: the modulus is reversed
    on the way out and on the way in. *)
Theorem public_key_roundtrip :
  forall n e key,
    RSA.construct n e = Ok key ->
    e < 2 ^ 32 ->
    Z.of_nat (byte_length n) + 8 < 2 ^ 32 ->
    exists blob,
      writePublicKey key = Ok blob
      /\ parsePublicKey blob = Ok key
      /\ RSA.n key = n /\ RSA.e key = e.
Proof.
  intros n e key C He Hk.
  destruct (RSA_construct_inv n e key C) as [R K].
  eexists. split; [|split].
  - rewrite K. apply writePublicKey_bytes; lia.
  - apply parsePublicKey_bytes; [assumption | lia | assumption].
  - rewrite K. split; reflexivity.
Qed.

(** C7 on the modulus 0x010203 and the exponent 5. *)
Lemma public_key_roundtrip_witness :
  exists blob,
    writePublicKey (RSA.mkRsaKey 0x010203 5) = Ok blob
    /\ parsePublicKey blob = Ok (RSA.mkRsaKey 0x010203 5)
    /\ RSA.n (RSA.mkRsaKey 0x010203 5) = 0x010203
    /\ RSA.e (RSA.mkRsaKey 0x010203 5) = 5.
Proof.
  apply (public_key_roundtrip 0x010203 5 (RSA.mkRsaKey 0x010203 5)).
  - reflexivity.
  - reflexivity.
  - reflexivity.
Defined.

End PublicKey.

(** ** Client network data: channel names *)

Section ChannelNames.
Import ClientConnectionParser.

Lemma Uint_unpack_exact w d c r :
  length d = w ->
  Uint_unpack w BytesIO_read (mkBytesIO c (d ++ r))
  = (Ok (le_value d), mkBytesIO (c ++ d) r).
Proof.
  intros L. unfold Uint_unpack, bind.
  rewrite BytesIO_read_exact' by (unfold len; lia).
  unfold len. now rewrite L, Z.eqb_refl.
Qed.

Lemma write_channels_name_too_long channels :
  (forall channel, In channel channels ->
                   len (name channel) <= 8 -> channel_writable channel) ->
  (exists channel, In channel channels /\ 8 < len (name channel)) ->
  forall out,
    fst (forM channels (fun channel =>
           if len (name channel) >? 8 then raise ParsingError else
           d <- lift_result (encode (name channel)) ;;
           stream_write (ljust0_slice 8 d) ;;;
           write_result (Uint32LE_pack (options channel))) out)
    = Raise ParsingError.
Proof.
  induction channels as [|ch channels IH]; intros Hw [bad [Hin Hbad]] out.
  - destruct Hin.
  - cbn [forM]. unfold bind at 1.
    destruct (Z.gtb_spec (len (name ch)) 8) as [G|G]; [reflexivity|].
    destruct (Hw ch (or_introl eq_refl) G) as [Henc Hopt].
    unfold bind at 1, encode, lift_result.
    destruct (utf8_encode (name ch)) as [d|]; [|congruence].
    unfold ret, bind at 1, stream_write, bind at 1, Uint32LE_pack.
    rewrite Uint_pack_in_range by (change (256 ^ Z.of_nat 4) with (2 ^ 32); lia).
    cbn [write_result]. unfold stream_write.
    apply IH.
    + intros c Hc. apply Hw. now right.
    + destruct Hin as [<- | Hin]; [lia|]. now exists bad.
Qed.

(** C8, as stated, fails on the reading side: a one-channel network block
    whose entry has exactly 8 raw name bytes, the first of them 0xFF, is
    not read: the name is decoded as UTF-8 and the decoding raises. *)
Lemma channel_name_decode_counterexample :
  run_parser parseClientNetworkData
    ([1; 0; 0; 0] ++ [0xFF; 0; 0; 0; 0; 0; 0; 0] ++ [0; 0; 0; 0])
  = Raise UnicodeDecodeError.
Proof. reflexivity. Qed.

(** C8, amended: writing a client network block in which some channel name
    is longer than 8 characters raises ParsingError (the channels with a
    name of at most 8 characters being writable and the channel count
    fitting its field), nothing being truncated; reading a channel entry
    takes exactly 8 raw name bytes and 4 option bytes, and succeeds exactly
    when the name bytes, stripped of leading and trailing NUL bytes, are
    valid UTF-8: otherwise it raises UnicodeDecodeError. *)
Theorem channel_name_bound :
  (forall network,
      len (channelDefinitions network) < 2 ^ 32 ->
      (forall channel, In channel (channelDefinitions network) ->
                       len (name channel) <= 8 -> channel_writable channel) ->
      (exists channel, In channel (channelDefinitions network)
                       /\ 8 < len (name channel)) ->
      run_writer (writeClientNetworkData network) = Raise ParsingError)
  /\ (forall raw opts c rest,
         length raw = 8%nat -> length opts = 4%nat ->
         parseChannelDefinition (mkBytesIO c (raw ++ opts ++ rest))
         = match utf8_decode (strip0 raw) with
           | Some name =>
             (Ok (mkClientChannelDefinition name (le_value opts)),
              mkBytesIO (c ++ raw ++ opts) rest)
           | None => (Raise UnicodeDecodeError, mkBytesIO (c ++ raw) (opts ++ rest))
           end).
Proof.
  split.
  - intros network Hcount Hw Hbad.
    unfold run_writer, writeClientNetworkData, bind at 1, Uint32LE_pack.
    rewrite Uint_pack_in_range
      by (change (256 ^ Z.of_nat 4) with (2 ^ 32);
          pose proof (len_nonneg (channelDefinitions network)); lia).
    cbn [write_result]. unfold stream_write.
    pose proof (write_channels_name_too_long (channelDefinitions network) Hw Hbad
                  ([] ++ le_bytes 4 (len (channelDefinitions network)))) as E.
    destruct (forM (channelDefinitions network) _ _) as [[[]|e] out];
      cbn [fst] in E; [discriminate | now inversion E].
  - intros raw opts c rest Lr Lo. unfold parseChannelDefinition.
    unfold bind at 1. rewrite BytesIO_read_exact' by (unfold len; lia).
    unfold bind at 1, decode, lift_result.
    destruct (utf8_decode (strip0 raw)) as [nm|]; [|reflexivity].
    unfold ret at 1. unfold bind at 1, Uint32LE_unpack.
    rewrite Uint_unpack_exact by assumption.
    unfold ret. now rewrite <- app_assoc.
Qed.

(** The amended C8 on a block of two channels, the second one named
    [cliprdr_x] (9 characters), and on the entry of the channel [rdpdr]. *)
Lemma channel_name_bound_witness :
  run_writer
    (writeClientNetworkData
       (mkClientNetworkData
          [mkClientChannelDefinition [0x72; 0x64; 0x70; 0x64; 0x72] 0x80800000;
           mkClientChannelDefinition
             [0x63; 0x6C; 0x69; 0x70; 0x72; 0x64; 0x72; 0x5F; 0x78] 0xC0A00000]))
  = Raise ParsingError
  /\ parseChannelDefinition
       (mkBytesIO [] ([0x72; 0x64; 0x70; 0x64; 0x72; 0; 0; 0]
                      ++ [0; 0; 0x80; 0x80] ++ []))
     = (Ok (mkClientChannelDefinition [0x72; 0x64; 0x70; 0x64; 0x72] 0x80800000),
        mkBytesIO ([] ++ [0x72; 0x64; 0x70; 0x64; 0x72; 0; 0; 0]
                   ++ [0; 0; 0x80; 0x80]) []).
Proof.
  split.
  - apply (proj1 channel_name_bound).
    + reflexivity.
    + intros channel [<- | [<- | []]] L.
      * split; [discriminate | split; [discriminate | reflexivity]].
      * vm_compute in L. exfalso. now apply L.
    + eexists. split; [right; left; reflexivity | reflexivity].
  - apply (proj2 channel_name_bound
                 [0x72; 0x64; 0x70; 0x64; 0x72; 0; 0; 0] [0; 0; 0x80; 0x80] [] []);
      reflexivity.
Defined.

End ChannelNames.

(** ** Round trips *)

Lemma fits_spec w v : fits w v = true <-> 0 <= v < 256 ^ Z.of_nat w.
Proof. unfold fits. rewrite andb_true_iff, Z.leb_le, Z.ltb_lt. tauto. Qed.

Lemma write_result_fits w v :
  fits w v = true -> write_result (Uint_pack w v) = stream_write (le_bytes w v).
Proof. intros H. apply write_result_pack. now apply fits_spec. Qed.

Lemma Uint_unpack_fits w v c r :
  fits w v = true ->
  Uint_unpack w BytesIO_read (mkBytesIO c (le_bytes w v ++ r))
  = (Ok v, mkBytesIO (c ++ le_bytes w v) r).
Proof. intros H. apply Uint_unpack_le_bytes. now apply fits_spec. Qed.

Lemma Uint_unpack_strict_fits w v c r :
  fits w v = true ->
  Uint_unpack w StrictStream_read (mkBytesIO c (le_bytes w v ++ r))
  = (Ok v, mkBytesIO (c ++ le_bytes w v) r).
Proof. intros H. apply Uint_unpack_strict_le_bytes. now apply fits_spec. Qed.

Lemma in_range_spec lo hi v : in_range lo hi v = true <-> lo <= v <= hi.
Proof. unfold in_range. rewrite andb_true_iff, !Z.leb_le. tauto. Qed.

Ltac break_and :=
  repeat match goal with
         | H : (_ && _) = true |- _ => apply andb_prop in H; destruct H
         end.

(** Replaces a closed boolean test by its value. *)
Ltac decide_tests :=
  repeat match goal with
         | |- context [?a =? ?b] =>
           let v := eval vm_compute in (a =? b) in
           lazymatch v with
           | true => change (a =? b) with true
           | false => change (a =? b) with false
           end; cbv iota
         end.

Section DynamicRoundTrip.
Import DynamicChannel DynamicChannelParser.

(** Header bit-packing: for all [cbid], [sp] in 0..3 and [cmd] in 0..15,
    the packed header is a byte from which the three fields are extracted
    unchanged. *)
Lemma pack_header_fields cbid sp cmd :
  0 <= cbid <= 3 -> 0 <= sp <= 3 -> 0 <= cmd <= 15 ->
  fits 1 (pack_header cbid sp cmd) = true
  /\ header_cbid (pack_header cbid sp cmd) = cbid
  /\ header_sp (pack_header cbid sp cmd) = sp
  /\ header_cmd (pack_header cbid sp cmd) = cmd.
Proof.
  intros Hc Hs Hm.
  assert (cbid = 0 \/ cbid = 1 \/ cbid = 2 \/ cbid = 3) as C by lia.
  assert (sp = 0 \/ sp = 1 \/ sp = 2 \/ sp = 3) as S by lia.
  assert (cmd = 0 \/ cmd = 1 \/ cmd = 2 \/ cmd = 3 \/ cmd = 4 \/ cmd = 5
          \/ cmd = 6 \/ cmd = 7 \/ cmd = 8 \/ cmd = 9 \/ cmd = 10 \/ cmd = 11
          \/ cmd = 12 \/ cmd = 13 \/ cmd = 14 \/ cmd = 15) as D by lia.
  clear Hc Hs Hm.
  repeat match goal with H : _ \/ _ |- _ => destruct H as [H | H] end;
    subst; vm_compute; auto.
Qed.

Lemma init_valid pdu :
  in_range 0 2 (cbid pdu) = true ->
  is_member DynamicChannelCommand.members (cmd pdu) = true ->
  init pdu = Ok pdu.
Proof.
  intros Hc Hm. unfold init, enum_cast. rewrite Hm.
  apply in_range_spec in Hc.
  assert (cbid pdu = 0 \/ cbid pdu = 1 \/ cbid pdu = 2) as [-> | [-> | ->]] by lia;
    reflexivity.
Qed.

Lemma readChannelId_fits cbid channelId c r :
  in_range 0 2 cbid = true -> fits (selector_width cbid) channelId = true ->
  readChannelId cbid
    (mkBytesIO c (le_bytes (selector_width cbid) channelId ++ r))
  = (Ok channelId, mkBytesIO (c ++ le_bytes (selector_width cbid) channelId) r).
Proof.
  intros Hc Hf. apply in_range_spec in Hc.
  assert (cbid = 0 \/ cbid = 1 \/ cbid = 2) as [-> | [-> | ->]] by lia;
    now apply Uint_unpack_fits.
Qed.

Lemma readChannelId_fits_end cbid channelId c :
  in_range 0 2 cbid = true -> fits (selector_width cbid) channelId = true ->
  readChannelId cbid (mkBytesIO c (le_bytes (selector_width cbid) channelId))
  = (Ok channelId, mkBytesIO (c ++ le_bytes (selector_width cbid) channelId) []).
Proof.
  intros Hc Hf.
  rewrite <- (app_nil_r (le_bytes (selector_width cbid) channelId)) at 1.
  now apply readChannelId_fits.
Qed.

Lemma readLength_fits sp length c r :
  in_range 0 2 sp = true -> fits (selector_width sp) length = true ->
  readLength sp (mkBytesIO c (le_bytes (selector_width sp) length ++ r))
  = (Ok length, mkBytesIO (c ++ le_bytes (selector_width sp) length) r).
Proof. apply readChannelId_fits. Qed.

Lemma writeChannelId_fits cbid channelId :
  in_range 0 2 cbid = true -> fits (selector_width cbid) channelId = true ->
  writeChannelId cbid channelId
  = stream_write (le_bytes (selector_width cbid) channelId).
Proof.
  intros Hc Hf. apply in_range_spec in Hc.
  assert (cbid = 0 \/ cbid = 1 \/ cbid = 2) as [-> | [-> | ->]] by lia;
    now apply write_result_fits.
Qed.

Lemma writeLength_fits sp length :
  in_range 0 2 sp = true -> fits (selector_width sp) length = true ->
  writeLength sp length = stream_write (le_bytes (selector_width sp) length).
Proof. apply writeChannelId_fits. Qed.

Ltac dynamic_setup p c s :=
  let Hc3 := fresh "Hc3" in
  let Hs3 := fresh "Hs3" in
  assert (0 <= c <= 3) as Hc3
      by (match goal with H : in_range 0 _ c = true |- _ =>
                          apply in_range_spec in H; lia end);
  assert (0 <= s <= 3) as Hs3
      by (match goal with H : in_range 0 _ s = true |- _ =>
                          apply in_range_spec in H; lia end);
  destruct (pack_header_fields c s (cmd p) Hc3 Hs3
              ltac:(cbv; split; intros X; discriminate X))
    as (Hh & Hcb & Hsp & Hcm);
  pose proof (init_valid p ltac:(assumption) eq_refl) as Hinit;
  cbn [cmd] in Hh, Hcb, Hsp, Hcm.

Ltac dynamic_write :=
  unfold write, run_writer, write_stream; cbn [cbid sp cmd];
  match goal with
  | Hh : fits 1 (pack_header ?c ?s ?m) = true |- _ =>
    fold (pack_header c s m); unfold Uint8_pack;
    rewrite (write_result_fits 1 _ Hh)
  end;
  rewrite ?writeChannelId_fits, ?writeLength_fits by assumption;
  cbv beta iota delta [bind stream_write]; cbn [app le_bytes];
  reflexivity.

Ltac dynamic_parse :=
  unfold doParse, run_parser, doParse_stream, BytesIO_of;
  unfold bind at 1; rewrite Uint8_unpack_cons; cbv beta iota zeta;
  rewrite <- ?app_assoc;
  match goal with
  | Hh : fits 1 (pack_header ?c ?s ?m) = true |- _ =>
    apply fits_spec in Hh; change (256 ^ Z.of_nat 1) with 256 in Hh;
    rewrite (Z.mod_small (pack_header c s m)) by exact Hh;
    fold (header_cbid (pack_header c s m)) (header_sp (pack_header c s m))
         (header_cmd (pack_header c s m))
  end;
  match goal with
  | Hcb : header_cbid _ = _, Hsp : header_sp _ = _, Hcm : header_cmd _ = _ |- _ =>
    rewrite Hcb, Hsp, Hcm
  end;
  decide_tests;
  unfold bind at 1;
  first [ rewrite readChannelId_fits by assumption
        | rewrite readChannelId_fits_end by assumption ];
  cbv beta iota;
  try (unfold bind at 1; rewrite readLength_fits by assumption; cbv beta iota);
  try (unfold bind at 1; rewrite BytesIO_read_all_spec; cbv beta iota);
  unfold bind at 1;
  match goal with Hinit : init _ = Ok _ |- _ => rewrite Hinit end;
  reflexivity.

(** The dynamic channel part of the round trip: a data, compressed data,
    first data, first compressed data or close variant with valid fields is
    written, and the bytes written are parsed back to it. *)
Lemma dynamic_channel_roundtrip pdu :
  valid_DynamicChannelPDU pdu = true ->
  exists data, write pdu = Ok data
               /\ forall fuel, doParse fuel data = Ok (Some pdu).
Proof.
  intros V.
  destruct pdu as [| | | |c s ch l d|c s ch d|c s ch l d|c s ch d|c s ch];
    try discriminate; cbn [valid_DynamicChannelPDU] in V; break_and.
  - dynamic_setup (DynamicDataFirstPDU c s ch l d) c s.
    eexists. split; [dynamic_write | intros fuel; dynamic_parse].
  - dynamic_setup (DynamicDataPDU c s ch d) c s.
    eexists. split; [dynamic_write | intros fuel; dynamic_parse].
  - dynamic_setup (DynamicDataFirstCompressedPDU c s ch l d) c s.
    eexists. split; [dynamic_write | intros fuel; dynamic_parse].
  - dynamic_setup (DynamicDataCompressedPDU c s ch d) c s.
    eexists. split; [dynamic_write | intros fuel; dynamic_parse].
  - dynamic_setup (CloseDynamicChannelPDU c s ch) c s.
    eexists. split; [dynamic_write | intros fuel; dynamic_parse].
Qed.

Lemma init_Ok pdu pdu' : init pdu = Ok pdu' -> pdu' = pdu.
Proof.
  unfold init. destruct (enum_cast CbId.members (cbid pdu)); [|discriminate].
  destruct (enum_cast DynamicChannelCommand.members (cmd pdu)); [|discriminate].
  now intros [= <-].
Qed.

Ltac dyn_step :=
  match goal with
  | |- context [Uint8_unpack ?rd ?s] => destruct (Uint8_unpack rd s) as [[?|?] ?]
  | |- context [readChannelId ?c ?s] => destruct (readChannelId c s) as [[?|?] ?]
  | |- context [readLength ?c ?s] => destruct (readLength c s) as [[?|?] ?]
  | |- context [readChar ?s] => destruct (readChar s) as [[?|?] ?]
  | |- context [readChannelName ?f ?n ?c ?s] =>
    destruct (readChannelName f n c s) as [[[?|]|?] ?]
  | |- context [BytesIO_read_all ?s] => destruct (BytesIO_read_all s) as [[?|?] ?]
  | |- context [init ?p] => destruct (init p) as [?|?] eqn:?
  | |- context [if ?b then _ else _] => destruct b
  end; cbv beta iota; try discriminate.

(** [doParse] never builds a CreateResponse or a CapabilityResponse. *)
Lemma doParse_variants fuel data pdu :
  doParse fuel data = Ok (Some pdu) -> parsed_variant pdu = true.
Proof.
  unfold doParse, run_parser, doParse_stream.
  cbv beta iota zeta delta [bind ret raise lift_result fst].
  repeat dyn_step.
  all: intros [= <-];
    match goal with H : init _ = Ok _ |- _ => apply init_Ok in H; subst end;
    reflexivity.
Qed.

(** [write] never serializes a CreateRequest or the generic variant. *)
Lemma write_variants pdu data :
  write pdu = Ok data -> written_variant pdu = true.
Proof.
  unfold write, run_writer, write_stream.
  destruct pdu; try reflexivity; cbn [cbid sp cmd];
    unfold bind; match goal with
                 | |- context [write_result ?r ?s] =>
                   destruct (write_result r s) as [[?|?] ?]
                 end; discriminate.
Qed.

End DynamicRoundTrip.

Ltac write_eval :=
  unfold Uint32LE_pack, Uint16LE_pack, Uint8_pack;
  rewrite ?write_result_fits by assumption;
  cbv beta iota delta [bind stream_write ret].

(** Puts the bytes to parse in the form [a ++ b ++ ... ++ []]. *)
Ltac normalize_payload :=
  match goal with
  | |- context [BytesIO_of ?payload] =>
    rewrite <- (app_nil_r payload); cbn [app]; rewrite <- ?app_assoc
  end.

Ltac read_exact :=
  unfold bind at 1;
  first [ rewrite Uint_unpack_fits by assumption
        | rewrite Uint_unpack_strict_fits by assumption ];
  cbv beta iota.

Lemma StrictStream_read_at_end n c :
  0 < n -> StrictStream_read n (mkBytesIO c []) = (Raise EOFError, mkBytesIO (c ++ []) []).
Proof.
  intros H. unfold StrictStream_read, bind, BytesIO_read. cbn [remaining consumed].
  rewrite firstn_nil, skipn_nil. change (len (@nil Z)) with 0.
  destruct (Z.eqb_spec 0 n) as [E|E]; [lia | reflexivity].
Qed.

Lemma Uint_unpack_strict_at_end w c :
  (0 < w)%nat ->
  Uint_unpack w StrictStream_read (mkBytesIO c []) = (Raise EOFError, mkBytesIO (c ++ []) []).
Proof.
  intros H. unfold Uint_unpack, bind.
  now rewrite StrictStream_read_at_end by lia.
Qed.

Lemma enum_cast_member members v :
  is_member members v = true -> enum_cast members v = Ok v.
Proof. intros H. unfold enum_cast. now rewrite H. Qed.


(** One step of a parser run on a strict stream whose bytes are known: a
    read of the next field, a conversion to an enumeration, an assignment. *)
Ltac strict_read_rewrite :=
  first [ rewrite Uint_unpack_strict_fits by assumption
        | rewrite StrictStream_read_exact by (assumption || reflexivity)
        | rewrite Uint_unpack_strict_at_end by lia
        | rewrite StrictStream_read_at_end by lia ].

Ltac cast_rewrite :=
  rewrite enum_cast_member by assumption; unfold lift_result at 1, ret at 1.

Ltac strict_step :=
  lazymatch goal with
  | |- context [bind (on_stream _) _ (_, _)] =>
    unfold bind at 1; unfold on_stream at 1; strict_read_rewrite
  | |- context [bind (assign _) _ (_, _)] =>
    unfold bind at 1; unfold assign at 1
  | |- context [bind (lift_result _) _ (_, _)] =>
    unfold bind at 1; cast_rewrite
  | |- context [assign _ (_, _)] => unfold assign at 1
  | |- context [bind (lift_result _) _ (mkBytesIO _ _)] =>
    unfold bind at 1; cast_rewrite
  | |- context [bind (with_locals _ _) _ (mkBytesIO _ _)] => fail
  | |- context [bind _ _ (mkBytesIO _ _)] =>
    unfold bind at 1; strict_read_rewrite
  end; cbv beta iota.

Section ListLayouts.

Lemma forM_layout {A} (f : A -> M bytes unit) (layout : A -> bytes) xs :
  (forall x, In x xs -> forall out, f x out = (Ok tt, out ++ layout x)) ->
  forall out, forM xs f out = (Ok tt, out ++ flat_map layout xs).
Proof.
  induction xs as [|x xs IH]; intros H out.
  - cbn. now rewrite app_nil_r.
  - cbn [forM flat_map]. unfold bind. rewrite (H x (or_introl eq_refl)).
    rewrite IH by (intros y Hy; apply H; now right).
    now rewrite <- app_assoc.
Qed.

Lemma repeatM_layout {A} (p : M BytesIO A) (layout : A -> bytes) xs :
  (forall x, In x xs -> forall c r,
        p (mkBytesIO c (layout x ++ r)) = (Ok x, mkBytesIO (c ++ layout x) r)) ->
  forall c r,
    repeatM (length xs) p (mkBytesIO c (flat_map layout xs ++ r))
    = (Ok xs, mkBytesIO (c ++ flat_map layout xs) r).
Proof.
  induction xs as [|x xs IH]; intros H c r.
  - cbn. now rewrite app_nil_r.
  - cbn [length repeatM flat_map]. unfold bind at 1.
    rewrite <- app_assoc, (H x (or_introl eq_refl)).
    unfold bind at 1. rewrite IH by (intros y Hy; apply H; now right).
    unfold ret. now rewrite <- app_assoc.
Qed.

Lemma flat_map_length_const {A} (layout : A -> bytes) (k : nat) xs :
  (forall x, In x xs -> length (layout x) = k) ->
  length (flat_map layout xs) = (k * length xs)%nat.
Proof.
  induction xs as [|x xs IH]; intros H; [cbn; lia|].
  cbn [flat_map length]. rewrite length_app, (H x (or_introl eq_refl)).
  rewrite IH by (intros y Hy; apply H; now right). lia.
Qed.

End ListLayouts.

Section ClientRoundTrip.
Import ClientConnectionParser.

Lemma writeClientMonitorAttribute_layout a out :
  valid_ClientMonitorAttribute a = true ->
  writeClientMonitorAttribute a out = (Ok tt, out ++ ClientMonitorAttribute_layout a).
Proof.
  intros V. unfold valid_ClientMonitorAttribute in V. break_and.
  unfold writeClientMonitorAttribute, ClientMonitorAttribute_layout.
  write_eval. now rewrite <- !app_assoc.
Qed.

Lemma parseClientMonitorAttribute_layout a c r :
  valid_ClientMonitorAttribute a = true ->
  parseClientMonitorAttribute (mkBytesIO c (ClientMonitorAttribute_layout a ++ r))
  = (Ok a, mkBytesIO (c ++ ClientMonitorAttribute_layout a) r).
Proof.
  intros V. unfold valid_ClientMonitorAttribute in V. break_and.
  unfold parseClientMonitorAttribute, ClientMonitorAttribute_layout,
    Uint32LE_unpack.
  rewrite <- !app_assoc. do 5 read_exact.
  destruct a. unfold ret. cbn. now rewrite <- !app_assoc.
Qed.

Lemma client_monitor_roundtrip monitor :
  valid_ClientMonitorData monitor = true ->
  exists payload,
    run_writer (writeClientMonitorData monitor) = Ok payload
    /\ run_parser parseClientMonitorData payload = Ok monitor.
Proof.
  intros V. unfold valid_ClientMonitorData in V. break_and.
  match goal with H : (_ =? _) = true |- _ => apply Z.eqb_eq in H; rename H into Hc end.
  match goal with H : forallb _ _ = true |- _ =>
                  rewrite forallb_forall in H; rename H into Ha end.
  eexists. split.
  - unfold run_writer, writeClientMonitorData. write_eval.
    rewrite (forM_layout _ ClientMonitorAttribute_layout)
      by (intros; now apply writeClientMonitorAttribute_layout, Ha).
    reflexivity.
  - unfold run_parser, parseClientMonitorData, Uint32LE_unpack.
    normalize_payload. unfold BytesIO_of. do 3 read_exact.
    unfold bind at 1. rewrite Hc. unfold len. rewrite Nat2Z.id.
    rewrite (repeatM_layout _ ClientMonitorAttribute_layout)
      by (intros; now apply parseClientMonitorAttribute_layout, Ha).
    unfold ret. cbn [fst]. destruct monitor. cbn in *. now rewrite Hc.
Qed.

(** *** Channel names *)

Lemma utf8_encode_ascii s :
  forallb (in_range 1 0x7F) s = true -> utf8_encode s = Some s.
Proof.
  induction s as [|ch s IH]; intros H; [reflexivity|].
  cbn [forallb] in H. apply andb_prop in H. destruct H as [Hc Hs].
  cbn [utf8_encode]. rewrite (IH Hs). unfold utf8_encode_char.
  apply in_range_spec in Hc. destruct (Z.ltb_spec ch 0x80); [reflexivity | lia].
Qed.

Lemma utf8_decode_ascii s :
  forallb (in_range 1 0x7F) s = true -> utf8_decode s = Some s.
Proof.
  induction s as [|ch s IH]; intros H; [reflexivity|].
  cbn [forallb] in H. apply andb_prop in H. destruct H as [Hc Hs].
  cbn [utf8_decode]. rewrite (IH Hs).
  assert (in_range 0 0x7F ch = true) as ->
      by (apply in_range_spec; apply in_range_spec in Hc; lia).
  reflexivity.
Qed.

Lemma lstrip0_nonzero s r :
  forallb (in_range 1 0x7F) s = true -> s <> [] -> lstrip0 (s ++ r) = s ++ r.
Proof.
  destruct s as [|ch s]; intros H N; [congruence|].
  cbn [forallb] in H. apply andb_prop in H. destruct H as [Hc _].
  apply in_range_spec in Hc. cbn [app lstrip0].
  destruct (Z.eqb_spec ch 0); [lia | reflexivity].
Qed.

Lemma lstrip0_zeros k r : lstrip0 (repeat 0 k ++ r) = lstrip0 r.
Proof. induction k as [|k IH]; [reflexivity | exact IH]. Qed.

Lemma rev_repeat {A} (a : A) k : rev (repeat a k) = repeat a k.
Proof.
  induction k as [|k IH]; [reflexivity|].
  cbn [repeat rev]. rewrite IH. symmetry. apply repeat_cons.
Qed.

(** Stripping the NUL padding of a name without NUL bytes gives the name. *)
Lemma strip0_padded s k :
  forallb (in_range 1 0x7F) s = true -> strip0 (s ++ repeat 0 k) = s.
Proof.
  intros H. unfold strip0. destruct s as [|ch s].
  - cbn [app]. rewrite <- (app_nil_r (repeat 0 k)), lstrip0_zeros. reflexivity.
  - rewrite lstrip0_nonzero by (assumption || discriminate).
    rewrite rev_app_distr, rev_repeat, lstrip0_zeros.
    assert (forallb (in_range 1 0x7F) (rev (ch :: s)) = true) as Hr.
    { rewrite forallb_forall in *. intros x Hx. apply H. now apply in_rev. }
    rewrite <- (app_nil_r (rev (ch :: s))).
    rewrite lstrip0_nonzero; [| assumption |].
    + now rewrite app_nil_r, rev_involutive.
    + intros E. apply (f_equal (@length Z)) in E.
      rewrite length_rev in E. discriminate.
Qed.

Lemma ljust0_slice_short n d :
  (length d <= n)%nat -> ljust0_slice n d = d ++ repeat 0 (n - length d).
Proof.
  intros H. unfold ljust0_slice, ljust0. apply firstn_all2.
  rewrite length_app, repeat_length. lia.
Qed.

Lemma ljust0_slice_length n d : length (ljust0_slice n d) = n.
Proof.
  unfold ljust0_slice, ljust0. rewrite length_firstn, length_app, repeat_length. lia.
Qed.

Lemma writeChannel_layout channel out :
  valid_ClientChannelDefinition channel = true ->
  (if len (name channel) >? 8 then raise ParsingError else
   d <- lift_result (encode (name channel)) ;;
   stream_write (ljust0_slice 8 d) ;;;
   write_result (Uint32LE_pack (options channel))) out
  = (Ok tt, out ++ ClientChannelDefinition_layout channel).
Proof.
  intros V. unfold valid_ClientChannelDefinition in V. break_and.
  match goal with H : (_ <=? _)%nat = true |- _ => apply Nat.leb_le in H end.
  destruct (Z.gtb_spec (len (name channel)) 8) as [G|G]; [unfold len in G; lia|].
  unfold encode. rewrite utf8_encode_ascii by assumption.
  unfold lift_result, ClientChannelDefinition_layout. write_eval.
  now rewrite <- app_assoc.
Qed.

Lemma parseChannelDefinition_layout channel c r :
  valid_ClientChannelDefinition channel = true ->
  parseChannelDefinition (mkBytesIO c (ClientChannelDefinition_layout channel ++ r))
  = (Ok channel, mkBytesIO (c ++ ClientChannelDefinition_layout channel) r).
Proof.
  intros V. unfold valid_ClientChannelDefinition in V. break_and.
  match goal with H : (_ <=? _)%nat = true |- _ => apply Nat.leb_le in H end.
  unfold parseChannelDefinition, ClientChannelDefinition_layout, Uint32LE_unpack.
  rewrite <- app_assoc. unfold bind at 1.
  rewrite BytesIO_read_exact'
    by (unfold len; now rewrite ljust0_slice_length).
  unfold bind at 1. rewrite ljust0_slice_short by assumption.
  rewrite strip0_padded by assumption.
  unfold decode. rewrite utf8_decode_ascii by assumption.
  unfold lift_result, ret at 1. read_exact.
  destruct channel. unfold ret. cbn. now rewrite <- app_assoc.
Qed.

Lemma ClientChannelDefinition_layout_length channel :
  length (ClientChannelDefinition_layout channel) = 12%nat.
Proof.
  unfold ClientChannelDefinition_layout.
  now rewrite length_app, ljust0_slice_length, le_bytes_length.
Qed.

Lemma client_network_roundtrip network :
  valid_ClientNetworkData network = true ->
  exists payload,
    run_writer (writeClientNetworkData network) = Ok payload
    /\ run_parser parseClientNetworkData payload = Ok network.
Proof.
  intros V. unfold valid_ClientNetworkData in V. break_and.
  match goal with H : forallb _ _ = true |- _ =>
                  rewrite forallb_forall in H; rename H into Hc end.
  assert (run_writer (writeClientNetworkData network)
          = Ok (le_bytes 4 (len (channelDefinitions network))
                ++ flat_map ClientChannelDefinition_layout
                     (channelDefinitions network))) as W.
  { unfold run_writer, writeClientNetworkData. write_eval.
    rewrite (forM_layout _ ClientChannelDefinition_layout)
      by (intros; now apply writeChannel_layout, Hc).
    reflexivity. }
  rewrite W in *. eexists. split; [reflexivity|].
  match goal with H : negb _ = true |- _ =>
                  apply negb_true_iff in H; rename H into Hscan end.
  unfold run_parser, parseClientNetworkData, BytesIO_of.
  unfold bind at 1, get_stream at 1. unfold getvalue at 1.
  cbn [consumed remaining app]. rewrite Hscan.
  unfold Uint32LE_unpack.
  rewrite <- (app_nil_r (flat_map _ _)) at 1. read_exact.
  unfold bind at 1, get_stream, getvalue. cbn [consumed remaining app].
  rewrite app_nil_r.
  replace (skipn 4 (le_bytes 4 (len (channelDefinitions network))
                    ++ flat_map ClientChannelDefinition_layout
                         (channelDefinitions network)))
    with (flat_map ClientChannelDefinition_layout (channelDefinitions network))
    by (rewrite skipn_app, skipn_all2, le_bytes_length, Nat.sub_diag;
        [reflexivity | rewrite le_bytes_length; lia]).
  assert ((len (flat_map ClientChannelDefinition_layout (channelDefinitions network))
           =? len (channelDefinitions network) * 12) = true) as ->.
  { apply Z.eqb_eq. unfold len.
    rewrite (flat_map_length_const _ 12)
      by (intros; apply ClientChannelDefinition_layout_length).
    lia. }
  cbn [negb]. unfold bind at 1, len. rewrite Nat2Z.id.
  rewrite <- (app_nil_r (flat_map _ _)).
  rewrite (repeatM_layout _ ClientChannelDefinition_layout)
    by (intros; now apply parseChannelDefinition_layout, Hc).
  unfold ret. cbn [fst]. now destruct network.
Qed.

(** *** Client core data *)

Lemma encodeUTF16LE_length s : length (encodeUTF16LE s) = (2 * length s)%nat.
Proof.
  unfold encodeUTF16LE. rewrite (flat_map_length_const _ 2); [lia|].
  intros; apply le_bytes_length.
Qed.

Lemma decode_encodeUTF16LE s :
  forallb (fits 2) s = true -> decodeUTF16LE (encodeUTF16LE s) = s.
Proof.
  induction s as [|ch s IH]; intros H; [reflexivity|].
  cbn [forallb] in H. apply andb_prop in H. destruct H as [Hc Hs].
  change (encodeUTF16LE (ch :: s))
    with (ch mod 256 :: ch / 256 mod 256 :: encodeUTF16LE s).
  cbn [decodeUTF16LE]. rewrite (IH Hs). f_equal.
  apply fits_spec in Hc. change (256 ^ Z.of_nat 2) with 65536 in Hc.
  pose proof (Z.div_mod ch 256 ltac:(lia)).
  rewrite (Z.mod_small (ch / 256)); [lia|].
  split; [apply Z.div_pos; lia | apply Z.div_lt_upper_bound; lia].
Qed.

Lemma text_field n s :
  text_of_length n s = true ->
  ljust0_slice (2 * n) (encodeUTF16LE s) = encodeUTF16LE s
  /\ len (encodeUTF16LE s) = Z.of_nat (2 * n)
  /\ decodeUTF16LE (encodeUTF16LE s) = s.
Proof.
  unfold text_of_length. intros H. apply andb_prop in H. destruct H as [L F].
  apply Nat.eqb_eq in L. pose proof (encodeUTF16LE_length s) as E.
  repeat split.
  - rewrite ljust0_slice_short by lia. replace (2 * n - _)%nat with 0%nat by lia.
    apply app_nil_r.
  - unfold len. lia.
  - now apply decode_encodeUTF16LE.
Qed.

Ltac none_rest :=
  repeat match goal with
         | o : option _ |- _ =>
           destruct o; [cbn in *; discriminate|]
         end.

Ltac core_projections_in H :=
  cbn [version desktopWidth desktopHeight colorDepth sasSequence keyboardLayout
       clientBuild clientName keyboardType keyboardSubType keyboardFunctionKey
       imeFileName postBeta2ColorDepth clientProductId serialNumber highColorDepth
       supportedColorDepths earlyCapabilityFlags clientDigProductId connectionType
       serverSelectedProtocol desktopPhysicalWidth desktopPhysicalHeight
       desktopOrientation desktopScaleFactor deviceScaleFactor] in H.

Ltac core_projections :=
  cbn [version desktopWidth desktopHeight colorDepth sasSequence keyboardLayout
       clientBuild clientName keyboardType keyboardSubType keyboardFunctionKey
       imeFileName postBeta2ColorDepth clientProductId serialNumber highColorDepth
       supportedColorDepths earlyCapabilityFlags clientDigProductId connectionType
       serverSelectedProtocol desktopPhysicalWidth desktopPhysicalHeight
       desktopOrientation desktopScaleFactor deviceScaleFactor].

Ltac core_case :=
  eexists; split;
  [ unfold run_writer, writeClientCoreData; core_projections;
    cbn [Uint_pack_opt encodeUTF16LE_opt];
    unfold Uint32LE_pack, Uint16LE_pack;
    rewrite ?write_result_fits by assumption;
    repeat match goal with H : ljust0_slice _ _ = _ |- _ => rewrite H end;
    cbv beta iota delta [bind stream_write ret raise try_except write_result
                              lift_result is_StructError];
    reflexivity
  | unfold run_parser, parseClientCoreData, Uint8_unpack, Uint16LE_unpack,
      Uint32LE_unpack;
    cbv zeta; normalize_payload; unfold BytesIO_of;
    repeat match goal with H : ljust0_slice _ _ = _ |- _ => rewrite H end;
    repeat strict_step;
    unfold with_locals, try_except;
    repeat strict_step;
    cbv beta iota delta [is_EOFError fst];
    repeat match goal with H : decodeUTF16LE _ = _ |- _ => rewrite H end;
    reflexivity ].

(** The client core block: every cascade of optional fields but the one
    that stops between [earlyCapabilityFlags] and [clientDigProductId]. *)
Lemma client_core_roundtrip core :
  valid_ClientCoreData core = true ->
  exists payload,
    run_writer (writeClientCoreData core) = Ok payload
    /\ run_parser parseClientCoreData payload = Ok core.
Proof.
  intros V.
  destruct core as [ver w h cd sas kl cb nm kt kst kfk ime
                    o1 o2 o3 o4 o5 o6 o7 o8 o9 o10 o11 o12 o13 o14].
  unfold valid_ClientCoreData, client_core_presence in V.
  core_projections_in V.
  break_and.
  match goal with H : text_of_length 16 nm = true |- _ =>
    destruct (text_field 16 nm H) as (Tn1 & Tn2 & Tn3);
      change (2 * 16)%nat with 32%nat in Tn1, Tn2; change (Z.of_nat 32) with 32 in Tn2
  end.
  match goal with H : (length ime =? 64)%nat = true |- _ =>
    apply Nat.eqb_eq in H;
      assert (len ime = 64) as Lime by (unfold len; rewrite H; reflexivity)
  end.
  destruct o1 as [v1|]. 2: none_rest.
  1: destruct o2 as [v2|]. 2: none_rest.
  1: destruct o3 as [v3|]. 2: none_rest.
  1: destruct o4 as [v4|]. 2: none_rest.
  1: destruct o5 as [v5|]. 2: none_rest.
  1: destruct o6 as [v6|]. 2: none_rest.
  1: destruct o7 as [v7|]. 2: (cbn in *; discriminate).
  1: destruct o8 as [v8|]. 2: none_rest.
  1: destruct o9 as [v9|]. 2: none_rest.
  1: destruct o10 as [v10|]. 2: none_rest.
  1: destruct o11 as [v11|]. 2: none_rest.
  1: destruct o12 as [v12|]. 2: none_rest.
  1: destruct o13 as [v13|]. 2: none_rest.
  1: destruct o14 as [v14|].
  all: cbn [opt_fits opt_member opt_text_of_length] in *.
  all: try match goal with H : text_of_length 32 ?s = true |- _ =>
    destruct (text_field 32 s H) as (Td1 & Td2 & Td3);
      change (2 * 32)%nat with 64%nat in Td1, Td2; change (Z.of_nat 64) with 64 in Td2
  end.
  all: core_case.
Qed.

End ClientRoundTrip.

Section ClientStructures.
Import ClientConnectionParser.

Lemma run_parser_fmap {A B} (f : A -> B) (p : M BytesIO A) payload a :
  run_parser p payload = Ok a -> run_parser (fmap f p) payload = Ok (f a).
Proof.
  unfold run_parser, fmap, bind. destruct (p (BytesIO_of payload)) as [[x|e] s];
    cbn; intros H; inversion H; reflexivity.
Qed.

Ltac simple_block :=
  eexists; split;
  [ unfold run_writer; write_eval; reflexivity
  | unfold run_parser, Uint16LE_unpack, Uint32LE_unpack;
    normalize_payload; unfold BytesIO_of; repeat read_exact;
    rewrite ?Uint_unpack_fits by assumption; reflexivity ].

(** Every client connection data block that is valid is written, and the
    bytes written are parsed, by the parser registered for its type tag,
    back to the block. *)
Lemma client_structure_roundtrip x :
  valid_ClientStructure x = true ->
  exists payload parser,
    run_writer (writers x) = Ok payload
    /\ parsers (client_header x) = Some parser
    /\ run_parser parser payload = Ok x.
Proof.
  intros V. destruct x as [core|security|network|cluster|monitor|flags|monitorEx
                           |flags|pad]; cbn [valid_ClientStructure] in V.
  - destruct (client_core_roundtrip core V) as (payload & W & P).
    exists payload. eexists. split; [exact W|]. split; [reflexivity|].
    now apply run_parser_fmap.
  - assert (exists payload,
               run_writer (writeClientSecurityData security) = Ok payload
               /\ run_parser parseClientSecurityData payload = Ok security)
      as (payload & W & P).
    { destruct security. cbn [encryptionMethods extEncryptionMethods] in V.
      break_and. unfold writeClientSecurityData, parseClientSecurityData.
      cbn [encryptionMethods extEncryptionMethods]. simple_block. }
    exists payload. eexists. split; [exact W|]. split; [reflexivity|].
    now apply run_parser_fmap.
  - destruct (client_network_roundtrip network V) as (payload & W & P).
    exists payload. eexists. split; [exact W|]. split; [reflexivity|].
    now apply run_parser_fmap.
  - assert (exists payload,
               run_writer (writeClientClusterData cluster) = Ok payload
               /\ run_parser parseClientClusterData payload = Ok cluster)
      as (payload & W & P).
    { destruct cluster. cbn [cluster_flags redirectedSessionID] in V.
      break_and. unfold writeClientClusterData, parseClientClusterData.
      cbn [cluster_flags redirectedSessionID]. simple_block. }
    exists payload. eexists. split; [exact W|]. split; [reflexivity|].
    now apply run_parser_fmap.
  - destruct (client_monitor_roundtrip monitor V) as (payload & W & P).
    exists payload. eexists. split; [exact W|]. split; [reflexivity|].
    now apply run_parser_fmap.
  - assert (exists payload,
               run_writer (writeClientMessageChannelData flags) = Ok payload
               /\ run_parser parseClientMessageChannelData payload = Ok flags)
      as (payload & W & P).
    { unfold writeClientMessageChannelData, parseClientMessageChannelData.
      simple_block. }
    exists payload. eexists. split; [exact W|]. split; [reflexivity|].
    now apply run_parser_fmap.
  - destruct (client_monitor_roundtrip monitorEx V) as (payload & W & P).
    exists payload. eexists. split; [exact W|]. split; [reflexivity|].
    now apply run_parser_fmap.
  - assert (exists payload,
               run_writer (writeClientMultitransportData flags) = Ok payload
               /\ run_parser parseClientMultitransportData payload = Ok flags)
      as (payload & W & P).
    { unfold writeClientMultitransportData, parseClientMultitransportData.
      simple_block. }
    exists payload. eexists. split; [exact W|]. split; [reflexivity|].
    now apply run_parser_fmap.
  - assert (exists payload,
               run_writer (writeClientUnused1Data pad) = Ok payload
               /\ run_parser parseClientUnused1Data payload = Ok pad)
      as (payload & W & P).
    { unfold writeClientUnused1Data, parseClientUnused1Data. simple_block. }
    exists payload. eexists. split; [exact W|]. split; [reflexivity|].
    now apply run_parser_fmap.
Qed.

End ClientStructures.

(** ** Server connection data blocks *)

Section ServerRoundTrip.
Import ServerPDU ServerConnectionParser.

Lemma RsaKey_layout_length key :
  len (RsaKey_layout key) = Z.of_nat (byte_length (RSA.n key)) + 28.
Proof.
  unfold RsaKey_layout, len. rewrite !length_app, !le_bytes_length, repeat_length.
  cbn [length RSA1]. lia.
Qed.

Lemma valid_RsaKey_roundtrip key :
  valid_RsaKey key = true ->
  writePublicKey key = Ok (RsaKey_layout key)
  /\ parsePublicKey (RsaKey_layout key) = Ok key.
Proof.
  unfold valid_RsaKey. intros V. break_and.
  destruct (RSA.construct (RSA.n key) (RSA.e key)) as [k|] eqn:C; [|discriminate].
  destruct (RSA_construct_inv _ _ _ C) as [R K].
  assert (k = key) as -> by (destruct key; exact K).
  match goal with H : fits 4 _ = true |- _ => apply fits_spec in H;
    change (256 ^ Z.of_nat 4) with (2 ^ 32) in H end.
  match goal with H : fits 2 _ = true |- _ => apply fits_spec in H;
    change (256 ^ Z.of_nat 2) with 65536 in H end.
  split.
  - destruct key as [n e]. cbn [RSA.n RSA.e] in *.
    apply writePublicKey_bytes; lia.
  - apply parsePublicKey_bytes; [assumption | lia | lia].
Qed.

Lemma writeProprietaryCertificate_layout cert :
  valid_ProprietaryCertificate cert = true ->
  writeServerCertificate (Some cert) = Ok (ProprietaryCertificate_layout cert).
Proof.
  unfold valid_ProprietaryCertificate. intros V. break_and.
  match goal with H : valid_RsaKey _ = true |- _ =>
    pose proof H as Hk; apply valid_RsaKey_roundtrip in H; destruct H as [W _] end.
  assert (fits 2 (len (RsaKey_layout (publicKey cert))) = true) as Fk.
  { rewrite RsaKey_layout_length. unfold valid_RsaKey in Hk. now break_and. }
  unfold writeServerCertificate, writeProprietaryCertificate, run_writer.
  rewrite W.
  assert (fits 4 ServerCertificateType.PROPRIETARY = true) by reflexivity.
  cbv beta iota delta [bind ret lift_result].
  write_eval. unfold ProprietaryCertificate_layout. cbn [app].
  now rewrite <- !app_assoc.
Qed.

Lemma list_eqb_eq a b : list_eqb a b = true -> a = b.
Proof. unfold list_eqb. now destruct (list_eq_dec Z.eq_dec a b). Qed.

Lemma parseServerCertificate_layout cert :
  valid_ProprietaryCertificate cert = true ->
  parseServerCertificate (ProprietaryCertificate_layout cert) = Ok cert.
Proof.
  unfold valid_ProprietaryCertificate. intros V. break_and.
  match goal with H : valid_RsaKey _ = true |- _ =>
    pose proof H as Hk; apply valid_RsaKey_roundtrip in H; destruct H as [_ P] end.
  assert (fits 2 (len (RsaKey_layout (publicKey cert))) = true) as Fk.
  { rewrite RsaKey_layout_length. unfold valid_RsaKey in Hk. now break_and. }
  assert (fits 4 ServerCertificateType.PROPRIETARY = true) by reflexivity.
  match goal with H : list_eqb _ _ = true |- _ => apply list_eqb_eq in H; rename H into Hp end.
  unfold parseServerCertificate, ProprietaryCertificate_layout, run_parser, BytesIO_of,
    Uint16LE_unpack, Uint32LE_unpack.
  read_exact. rewrite Z.eqb_refl. unfold parseProprietaryCertificate, Uint16LE_unpack, Uint32LE_unpack.
  do 4 read_exact.
  unfold bind at 1. rewrite BytesIO_read_exact' by reflexivity. cbv beta iota.
  do 2 read_exact.
  unfold bind at 1. rewrite BytesIO_read_exact' by lia. cbv beta iota.
  unfold bind at 1. rewrite BytesIO_read_all_spec. cbv beta iota.
  unfold bind at 1. rewrite P. unfold lift_result at 1, ret. cbn [fst].
  destruct cert. cbn in *. now rewrite Hp.
Qed.

Lemma ProprietaryCertificate_layout_fits cert :
  valid_ProprietaryCertificate cert = true ->
  fits 4 (len (ProprietaryCertificate_layout cert)) = true.
Proof.
  unfold valid_ProprietaryCertificate. intros V. break_and.
  match goal with H : valid_RsaKey _ = true |- _ => unfold valid_RsaKey in H end.
  break_and.
  repeat match goal with H : fits 2 _ = true |- _ => apply fits_spec in H;
    change (256 ^ Z.of_nat 2) with 65536 in H end.
  apply fits_spec. change (256 ^ Z.of_nat 4) with 4294967296.
  unfold ProprietaryCertificate_layout.
  pose proof (RsaKey_layout_length (publicKey cert)) as L. unfold len in *.
  rewrite !length_app, !le_bytes_length, repeat_length. lia.
Qed.

Lemma server_core_roundtrip core :
  valid_ServerCoreData core = true ->
  exists payload,
    run_writer (writeServerCoreData core) = Ok payload
    /\ run_parser parseServerCoreData payload = Ok core.
Proof.
  intros V. destruct core as [ver [p|] f]; unfold valid_ServerCoreData in V;
    cbn [version clientRequestedProtocols earlyCapabilityFlags] in V;
    break_and; try discriminate.
  destruct f as [f|]; cbn [opt_fits] in *.
  all: eexists; split;
    [ unfold run_writer, writeServerCoreData;
      cbn [version clientRequestedProtocols earlyCapabilityFlags];
      write_eval; reflexivity
    | unfold run_parser, parseServerCoreData, Uint32LE_unpack; cbv zeta;
      normalize_payload; unfold BytesIO_of;
      strict_step; unfold bind at 1, with_locals, try_except;
      repeat strict_step; reflexivity ].
Qed.

Lemma server_network_roundtrip network :
  valid_ServerNetworkData network = true ->
  exists payload,
    run_writer (writeServerNetworkData network) = Ok payload
    /\ run_parser parseServerNetworkData payload = Ok network.
Proof.
  intros V. destruct network as [mcs chans]. unfold valid_ServerNetworkData in V.
  cbn [mcsChannelID channels] in V. break_and.
  match goal with H : forallb _ _ = true |- _ =>
                  rewrite forallb_forall in H; rename H into Hc end.
  assert (fits 2 0 = true) as F0 by reflexivity.
  assert (exists pad,
             run_writer (writeServerNetworkData (mkServerNetworkData mcs chans))
             = Ok (le_bytes 2 mcs ++ le_bytes 2 (len chans)
                   ++ flat_map (le_bytes 2) chans ++ pad)) as [pad W].
  { unfold run_writer, writeServerNetworkData. cbn [mcsChannelID channels].
    unfold Uint16LE_pack. rewrite !write_result_fits by assumption.
    unfold bind at 1, stream_write at 1. unfold bind at 1, stream_write at 1.
    unfold bind at 1.
    rewrite (forM_layout _ (le_bytes 2))
      by (intros x Hx out; cbv beta;
          rewrite write_result_fits by (now apply Hc); reflexivity).
    destruct (negb (len chans mod 2 =? 0)).
    - exists (le_bytes 2 0). unfold stream_write. cbn [app]. now rewrite <- !app_assoc.
    - exists []. unfold ret. cbn [app]. now rewrite app_nil_r, <- !app_assoc. }
  rewrite W. eexists. split; [reflexivity|].
  unfold run_parser, parseServerNetworkData, BytesIO_of, Uint16LE_unpack.
  do 2 read_exact. unfold bind at 1, len. rewrite Nat2Z.id.
  rewrite (repeatM_layout _ (le_bytes 2))
    by (intros x Hx c r; apply Uint_unpack_fits; now apply Hc).
  reflexivity.
Qed.

Lemma server_security_roundtrip security :
  valid_ServerSecurityData security = true ->
  exists payload,
    run_writer (writeServerSecurityData security) = Ok payload
    /\ run_parser parseServerSecurityData payload = Ok security.
Proof.
  intros V. destruct security as [method level random cert].
  unfold valid_ServerSecurityData in V.
  cbn [encryptionMethod encryptionLevel serverRandom serverCertificate] in V.
  break_and.
  destruct random as [random|], cert as [cert|]; try discriminate.
  - break_and.
    match goal with H : valid_ProprietaryCertificate _ = true |- _ =>
      pose proof (writeProprietaryCertificate_layout cert H) as W;
      pose proof (parseServerCertificate_layout cert H) as P;
      pose proof (ProprietaryCertificate_layout_fits cert H) as F
    end.
    eexists; split.
    + unfold run_writer, writeServerSecurityData.
      cbn [encryptionMethod encryptionLevel serverRandom serverCertificate].
      rewrite W. cbv beta iota delta [bind ret lift_result].
      write_eval. reflexivity.
    + unfold run_parser, parseServerSecurityData, Uint32LE_unpack; cbv zeta.
      normalize_payload. unfold BytesIO_of.
      do 4 strict_step. unfold bind at 1, with_locals, try_except.
      do 5 strict_step.
      unfold bind at 1. rewrite P. unfold lift_result at 1, ret at 1. cbv beta iota.
      strict_step. reflexivity.
  - eexists; split.
    + unfold run_writer, writeServerSecurityData.
      cbn [encryptionMethod encryptionLevel serverRandom serverCertificate].
      write_eval. reflexivity.
    + unfold run_parser, parseServerSecurityData, Uint32LE_unpack; cbv zeta.
      normalize_payload. unfold BytesIO_of.
      do 4 strict_step. unfold bind at 1, with_locals, try_except.
      repeat strict_step. reflexivity.
Qed.

(** Every server connection data block that is valid is written, and the
    bytes written are parsed, by the parser registered for its type tag,
    back to the block. *)
Lemma server_structure_roundtrip x :
  valid_ServerStructure x = true ->
  exists payload parser,
    run_writer (writers x) = Ok payload
    /\ parsers (header x) = Some parser
    /\ run_parser parser payload = Ok x.
Proof.
  intros V. destruct x as [core|security|network|channelId|flags];
    cbn [valid_ServerStructure] in V.
  - destruct (server_core_roundtrip core V) as (payload & W & P).
    exists payload. eexists. split; [exact W|]. split; [reflexivity|].
    now apply run_parser_fmap.
  - destruct (server_security_roundtrip security V) as (payload & W & P).
    exists payload. eexists. split; [exact W|]. split; [reflexivity|].
    now apply run_parser_fmap.
  - destruct (server_network_roundtrip network V) as (payload & W & P).
    exists payload. eexists. split; [exact W|]. split; [reflexivity|].
    now apply run_parser_fmap.
  - assert (exists payload,
               run_writer (writeServerMessageChannelData channelId) = Ok payload
               /\ run_parser parseServerMessageChannelData payload = Ok channelId)
      as (payload & W & P).
    { unfold writeServerMessageChannelData, parseServerMessageChannelData.
      eexists; split; [unfold run_writer; write_eval; reflexivity|].
      unfold run_parser, Uint16LE_unpack. normalize_payload. unfold BytesIO_of.
      now rewrite Uint_unpack_strict_fits by assumption. }
    exists payload. eexists. split; [exact W|]. split; [reflexivity|].
    now apply run_parser_fmap.
  - assert (exists payload,
               run_writer (writeServerMultitransportData flags) = Ok payload
               /\ run_parser parseServerMultitransportData payload = Ok flags)
      as (payload & W & P).
    { unfold writeServerMultitransportData, parseServerMultitransportData.
      eexists; split; [unfold run_writer; write_eval; reflexivity|].
      unfold run_parser, Uint32LE_unpack. normalize_payload. unfold BytesIO_of.
      now rewrite Uint_unpack_strict_fits by assumption. }
    exists payload. eexists. split; [exact W|]. split; [reflexivity|].
    now apply run_parser_fmap.
Qed.

End ServerRoundTrip.

(** ** The round trip of the codecs *)

Section RoundTrip.

(** C1, as stated, fails.  A server core block without requested protocols
    is written with the protocols field 0 and read back with the field set;
    a CreateRequest is not written at all; a CreateResponse is written but
    read back as a CreateRequest; a client core block named [host] is read
    back with its name padded with NUL characters to the 16 of the field. *)
Lemma roundtrip_counterexample :
  (run_writer (ServerConnectionParser.writeServerCoreData
                 (ServerPDU.mkServerCoreData 0x00080004 None None))
   = Ok [4; 0; 8; 0; 0; 0; 0; 0]
   /\ run_parser ServerConnectionParser.parseServerCoreData [4; 0; 8; 0; 0; 0; 0; 0]
      = Ok (ServerPDU.mkServerCoreData 0x00080004 (Some 0) None))
  /\ DynamicChannelParser.write (DynamicChannel.CreateRequestPDU 0 0 1 [0x41])
     = Raise NotImplementedError
  /\ (DynamicChannelParser.write (DynamicChannel.CreateResponsePDU 0 0 1 0)
      = Ok [0x10; 1; 0; 0; 0; 0]
      /\ DynamicChannelParser.doParse 1 [0x10; 1; 0; 0; 0; 0]
         = Ok (Some (DynamicChannel.CreateRequestPDU 0 0 1 [])))
  /\ (run_writer
        (ClientConnectionParser.writeClientCoreData
           (new_ClientCoreData 0x00080004 1024 768 0xCA01 0xAA03 0x409 2600
              [0x68; 0x6F; 0x73; 0x74] 4 0 12 (repeat 0 64)))
      = Ok example_core_payload
      /\ run_parser ClientConnectionParser.parseClientCoreData example_core_payload
         = Ok example_core
      /\ clientName example_core <> [0x68; 0x6F; 0x73; 0x74]).
Proof.
  repeat split. discriminate.
Qed.

(** C1, amended: parsing the bytes produced by writing [x] yields [x]
    - for every client block type and every server block type, when [x] is
      valid: its integers within their wire widths, its enumeration fields
      members, its texts and IME file name filling their fields, channel
      names ASCII without NUL and the written channel array free of the
      reserved name, a monitor count equal to the number of records, the
      requested protocols of a server core block present, the server random
      and certificate both present or both absent, the certificate padding
      eight zero bytes, and the optional fields of a client core block
      forming a cascade that does not stop between [earlyCapabilityFlags]
      and [clientDigProductId];
    - for the dynamic channel variants DataFirst, Data, DataFirstCompressed,
      DataCompressed and Close, with valid width selectors and the channel
      id and length within the selected widths; and for no other dynamic
      channel variant: CreateRequest and the generic variant are not
      written, CreateResponse and CapabilityResponse are never parsed. *)
Theorem roundtrip_of_valid_values :
  (forall x,
      valid_ClientStructure x = true ->
      exists payload parser,
        run_writer (ClientConnectionParser.writers x) = Ok payload
        /\ ClientConnectionParser.parsers (client_header x) = Some parser
        /\ run_parser parser payload = Ok x)
  /\ (forall x,
         valid_ServerStructure x = true ->
         exists payload parser,
           run_writer (ServerConnectionParser.writers x) = Ok payload
           /\ ServerConnectionParser.parsers (ServerPDU.header x) = Some parser
           /\ run_parser parser payload = Ok x)
  /\ (forall pdu,
         valid_DynamicChannelPDU pdu = true ->
         exists data,
           DynamicChannelParser.write pdu = Ok data
           /\ forall fuel, DynamicChannelParser.doParse fuel data = Ok (Some pdu))
  /\ (forall pdu data fuel,
         DynamicChannelParser.write pdu = Ok data ->
         DynamicChannelParser.doParse fuel data = Ok (Some pdu) ->
         written_variant pdu = true /\ parsed_variant pdu = true).
Proof.
  split; [|split; [|split]].
  - exact client_structure_roundtrip.
  - exact server_structure_roundtrip.
  - exact dynamic_channel_roundtrip.
  - intros pdu data fuel W P. split.
    + eapply write_variants. eassumption.
    + eapply doParse_variants. eassumption.
Qed.

(** The amended C1 on the example client core block, on a server core block
    with both optional fields, and on a data PDU. *)
Lemma roundtrip_witness :
  (exists payload parser,
      run_writer (ClientConnectionParser.writers (ClientCore example_core))
      = Ok payload
      /\ ClientConnectionParser.parsers (client_header (ClientCore example_core))
         = Some parser
      /\ run_parser parser payload = Ok (ClientCore example_core))
  /\ (exists payload parser,
         run_writer
           (ServerConnectionParser.writers
              (ServerPDU.ServerCore
                 (ServerPDU.mkServerCoreData 0x00080004 (Some 1) (Some 2))))
         = Ok payload
         /\ ServerConnectionParser.parsers
              (ServerPDU.header
                 (ServerPDU.ServerCore
                    (ServerPDU.mkServerCoreData 0x00080004 (Some 1) (Some 2))))
            = Some parser
         /\ run_parser parser payload
            = Ok (ServerPDU.ServerCore
                    (ServerPDU.mkServerCoreData 0x00080004 (Some 1) (Some 2))))
  /\ (exists data,
         DynamicChannelParser.write (DynamicChannel.DynamicDataPDU 0 0 7 [1; 2; 3])
         = Ok data
         /\ forall fuel,
           DynamicChannelParser.doParse fuel data
           = Ok (Some (DynamicChannel.DynamicDataPDU 0 0 7 [1; 2; 3]))).
Proof.
  split; [|split].
  - apply (proj1 roundtrip_of_valid_values). reflexivity.
  - apply (proj1 (proj2 roundtrip_of_valid_values)). reflexivity.
  - apply (proj1 (proj2 (proj2 roundtrip_of_valid_values))). reflexivity.
Defined.

End RoundTrip.

(** * Further properties of the code *)

(** ** Reads that fall short *)

Lemma BytesIO_read_short n c r :
  len r < n -> BytesIO_read n (mkBytesIO c r) = (Ok r, mkBytesIO (c ++ r) []).
Proof.
  intros H. unfold BytesIO_read. cbn [remaining consumed].
  pose proof (len_nonneg r).
  destruct (Z.ltb_spec n 0) as [|_]; [lia|].
  rewrite firstn_all2, skipn_all2 by (unfold len in H; lia). reflexivity.
Qed.

Lemma BytesIO_read_negative n c r :
  n < 0 -> BytesIO_read n (mkBytesIO c r) = (Ok r, mkBytesIO (c ++ r) []).
Proof.
  intros H. unfold BytesIO_read. cbn [remaining consumed].
  destruct (Z.ltb_spec n 0) as [_|]; [|lia].
  now rewrite firstn_all, skipn_all.
Qed.

Lemma Uint_unpack_outcome w s :
  (exists v s', Uint_unpack w BytesIO_read s = (Ok v, s'))
  \/ (exists s', Uint_unpack w BytesIO_read s = (Raise StructError, s')).
Proof.
  cbv beta iota zeta delta [Uint_unpack bind BytesIO_read ret raise].
  match goal with
  | |- context [if ?b then _ else _] => destruct b
  end; eauto.
Qed.

Lemma Uint_unpack_raises w s e s' :
  Uint_unpack w BytesIO_read s = (Raise e, s') -> e = StructError.
Proof.
  cbv beta iota zeta delta [Uint_unpack bind BytesIO_read ret raise].
  match goal with
  | |- context [if ?b then _ else _] => destruct b
  end; [discriminate|now intros [= <-]].
Qed.

Lemma Uint_unpack_short w c r :
  (length r < w)%nat ->
  Uint_unpack w BytesIO_read (mkBytesIO c r) = (Raise StructError, mkBytesIO (c ++ r) []).
Proof.
  intros H. unfold Uint_unpack, bind.
  rewrite BytesIO_read_short by (unfold len; lia).
  destruct (Z.eqb_spec (len r) (Z.of_nat w)) as [E|_]; [unfold len in E; lia|].
  reflexivity.
Qed.

(** ** The dynamic channel parser *)

Section DynamicHeader.
Import DynamicChannel DynamicChannelParser.

(** X1: header bit-packing.  For [cbid], [sp] in 0..3 and [cmd] in 0..15 the
    byte [write] packs is a byte value from which [doParse] extracts the
    three fields unchanged; and every byte is the packing of the fields
    extracted from it. *)
Theorem dynamic_header_pack_unpack :
  (forall cbid sp cmd,
      0 <= cbid <= 3 -> 0 <= sp <= 3 -> 0 <= cmd <= 15 ->
      0 <= pack_header cbid sp cmd < 256
      /\ header_cbid (pack_header cbid sp cmd) = cbid
      /\ header_sp (pack_header cbid sp cmd) = sp
      /\ header_cmd (pack_header cbid sp cmd) = cmd)
  /\ (forall header,
         0 <= header < 256 ->
         pack_header (header_cbid header) (header_sp header) (header_cmd header)
         = header).
Proof.
  split.
  - intros cbid sp cmd Hc Hs Hm.
    destruct (pack_header_fields cbid sp cmd Hc Hs Hm) as (F & A & B & C).
    apply fits_spec in F. change (256 ^ Z.of_nat 1) with 256 in F. auto.
  - intros header H. now destruct (header_fields header H) as (_ & _ & _ & E).
Qed.

Lemma dynamic_header_pack_unpack_witness :
  (0 <= pack_header 2 1 6 < 256
   /\ header_cbid (pack_header 2 1 6) = 2
   /\ header_sp (pack_header 2 1 6) = 1
   /\ header_cmd (pack_header 2 1 6) = 6)
  /\ pack_header (header_cbid 0x66) (header_sp 0x66) (header_cmd 0x66) = 0x66.
Proof.
  split.
  - apply (proj1 dynamic_header_pack_unpack 2 1 6); lia.
  - apply (proj2 dynamic_header_pack_unpack 0x66). lia.
Defined.

Lemma doParse_header fuel header rest :
  doParse fuel (header :: rest)
  = fst ((let cbid := header_cbid header in
          let sp := header_sp header in
          let cmd := header_cmd header in
          if cmd =? DynamicChannelCommand.CREATE then
            channelId <- readChannelId cbid ;;
            char <- readChar ;;
            name <- readChannelName fuel [] char ;;
            match name with
            | None => ret None
            | Some channelName =>
              pdu <- lift_result (init (CreateRequestPDU cbid sp channelId channelName)) ;;
              ret (Some pdu)
            end
          else if cmd =? DynamicChannelCommand.DATA_FIRST then
            channelId <- readChannelId cbid ;;
            length <- readLength sp ;;
            data <- BytesIO_read_all ;;
            pdu <- lift_result (init (DynamicDataFirstPDU cbid sp channelId length data)) ;;
            ret (Some pdu)
          else if cmd =? DynamicChannelCommand.DATA then
            channelId <- readChannelId cbid ;;
            data <- BytesIO_read_all ;;
            pdu <- lift_result (init (DynamicDataPDU cbid sp channelId data)) ;;
            ret (Some pdu)
          else if cmd =? DynamicChannelCommand.DATA_FIRST_COMPRESSED then
            channelId <- readChannelId cbid ;;
            length <- readLength sp ;;
            data <- BytesIO_read_all ;;
            pdu <- lift_result
                     (init (DynamicDataFirstCompressedPDU cbid sp channelId length data)) ;;
            ret (Some pdu)
          else if cmd =? DynamicChannelCommand.DATA_COMPRESSED then
            channelId <- readChannelId cbid ;;
            data <- BytesIO_read_all ;;
            pdu <- lift_result (init (DynamicDataCompressedPDU cbid sp channelId data)) ;;
            ret (Some pdu)
          else if cmd =? DynamicChannelCommand.CLOSE then
            channelId <- readChannelId cbid ;;
            pdu <- lift_result (init (CloseDynamicChannelPDU cbid sp channelId)) ;;
            ret (Some pdu)
          else
            payload <- BytesIO_read_all ;;
            pdu <- lift_result (init (DynamicChannelPDU cbid sp cmd payload)) ;;
            ret (Some pdu)) (mkBytesIO [header] rest)).
Proof.
  unfold doParse, run_parser, doParse_stream, BytesIO_of.
  unfold bind at 1. rewrite Uint8_unpack_cons. reflexivity.
Qed.

(** X2: a header whose [cbid] is 3 never parses: whatever the command and
    whatever follows, [doParse] raises ValueError, from [readChannelId] in
    the six commands that read a channel id and from the constructor of the
    generic variant otherwise. *)
Theorem cbid_3_raises_ValueError :
  forall fuel header rest,
    0 <= header < 256 -> header_cbid header = 3 ->
    doParse fuel (header :: rest) = Raise ValueError.
Proof.
  intros fuel header rest Hh Hc. rewrite doParse_header. cbv zeta. rewrite Hc.
  repeat match goal with
         | |- context [if ?b then _ else _] => destruct b
         end; reflexivity.
Qed.

Lemma cbid_3_raises_ValueError_witness :
  doParse 0 [0x33; 1; 2; 3; 4; 5] = Raise ValueError.
Proof.
  apply (cbid_3_raises_ValueError 0 0x33 [1; 2; 3; 4; 5]); [lia | reflexivity].
Defined.

Lemma readChannelId_outcome cbid s :
  (exists v s', readChannelId cbid s = (Ok v, s'))
  \/ (exists s', readChannelId cbid s = (Raise ValueError, s'))
  \/ (exists s', readChannelId cbid s = (Raise StructError, s')).
Proof.
  unfold readChannelId, Uint8_unpack, Uint16LE_unpack, Uint32LE_unpack.
  pose proof (Uint_unpack_outcome 1 s) as H1.
  pose proof (Uint_unpack_outcome 2 s) as H2.
  pose proof (Uint_unpack_outcome 4 s) as H4.
  destruct (cbid =? CbId.ONE_BYTE);
    [|destruct (cbid =? CbId.TWO_BYTE); [|destruct (cbid =? CbId.FOUR_BYTES)]].
  - destruct H1 as [(v & s' & ->) | (s' & ->)]; eauto 6.
  - destruct H2 as [(v & s' & ->) | (s' & ->)]; eauto 6.
  - destruct H4 as [(v & s' & ->) | (s' & ->)]; eauto 6.
  - right. left. eexists. reflexivity.
Qed.

(** X3: a DATA_FIRST or DATA_FIRST_COMPRESSED header whose [sp] is 3 never
    parses: [doParse] raises ValueError (invalid length selector, or invalid
    [cbid]) or the error of a short read of the channel id. *)
Theorem length_selector_3_raises :
  forall fuel header rest,
    0 <= header < 256 -> header_sp header = 3 ->
    header_cmd header = DynamicChannelCommand.DATA_FIRST
    \/ header_cmd header = DynamicChannelCommand.DATA_FIRST_COMPRESSED ->
    doParse fuel (header :: rest) = Raise ValueError
    \/ doParse fuel (header :: rest) = Raise StructError.
Proof.
  intros fuel header rest Hh Hs Hm. rewrite doParse_header. cbv zeta. rewrite Hs.
  destruct Hm as [-> | ->]; decide_tests;
    unfold bind;
    destruct (readChannelId_outcome (header_cbid header) (mkBytesIO [header] rest))
      as [(v & s' & ->) | [(s' & ->) | (s' & ->)]];
    try (left; reflexivity); try (right; reflexivity).
Qed.

Lemma length_selector_3_witness :
  doParse 0 [0x2C; 7; 1; 2; 3] = Raise ValueError
  \/ doParse 0 [0x2C; 7; 1; 2; 3] = Raise StructError.
Proof.
  apply (length_selector_3_raises 0 0x2C [7; 1; 2; 3]);
    [lia | reflexivity | left; reflexivity].
Defined.

End DynamicHeader.

Section CreateRequest.
Import DynamicChannel DynamicChannelParser.

Lemma readChar_ascii b c r :
  in_range 0 0x7F b = true ->
  readChar (mkBytesIO c (b :: r)) = (Ok [b], mkBytesIO (c ++ [b]) r).
Proof.
  intros Hb. unfold readChar, bind.
  change (b :: r) with ([b] ++ r).
  rewrite (BytesIO_read_exact' 1 [b]) by reflexivity.
  unfold decode. cbn [utf8_decode]. rewrite Hb. reflexivity.
Qed.

Lemma readChar_not_ascii b c r :
  in_range 0 0x7F b = false ->
  readChar (mkBytesIO c (b :: r)) = (Raise UnicodeDecodeError, mkBytesIO (c ++ [b]) r).
Proof.
  intros Hb. unfold readChar, bind.
  change (b :: r) with ([b] ++ r).
  rewrite (BytesIO_read_exact' 1 [b]) by reflexivity.
  unfold decode. cbn [utf8_decode]. rewrite Hb.
  repeat match goal with |- context [if ?t then _ else _] => destruct t end;
    reflexivity.
Qed.

Lemma printable_not_NUL ch : in_range 1 0x7F ch = true -> list_eqb [ch] [0] = false.
Proof.
  intros H. apply in_range_spec in H. unfold list_eqb.
  destruct (list_eq_dec Z.eq_dec [ch] [0]) as [E|]; [|reflexivity].
  injection E as ->. lia.
Qed.

Lemma printable_ascii ch : in_range 1 0x7F ch = true -> in_range 0 0x7F ch = true.
Proof. rewrite !in_range_spec. lia. Qed.

(** The name loop on a stream holding [chars], a NUL and [rest], entered with
    the character [ch] already read. *)
Lemma readChannelName_terminated chars :
  forall acc ch c rest fuel,
    in_range 1 0x7F ch = true ->
    forallb (in_range 1 0x7F) chars = true ->
    (length chars + 1 < fuel)%nat ->
    readChannelName fuel acc [ch] (mkBytesIO c (chars ++ 0 :: rest))
    = (Ok (Some (acc ++ ch :: chars)), mkBytesIO (c ++ chars ++ [0]) rest).
Proof.
  induction chars as [|x chars IH]; intros acc ch c rest fuel Hch Hall Hfuel.
  - destruct fuel as [|[|fuel]]; cbn [length] in Hfuel; try lia.
    cbn [readChannelName app]. rewrite (printable_not_NUL ch Hch).
    unfold bind. rewrite readChar_ascii by reflexivity. reflexivity.
  - cbn [forallb] in Hall. apply andb_prop in Hall as [Hx Hall].
    destruct fuel as [|fuel]; cbn [length] in Hfuel; try lia.
    cbn [readChannelName app]. rewrite (printable_not_NUL ch Hch).
    unfold bind at 1. rewrite readChar_ascii by now apply printable_ascii.
    rewrite IH by (auto; lia).
    rewrite <- !app_assoc. reflexivity.
Qed.

(** The same loop on a stream that ends without a NUL. *)
Lemma readChannelName_unterminated chars :
  forall acc ch c fuel,
    in_range 1 0x7F ch = true ->
    forallb (in_range 1 0x7F) chars = true ->
    fst (readChannelName fuel acc [ch] (mkBytesIO c chars)) = Ok None.
Proof.
  induction chars as [|x chars IH]; intros acc ch c fuel Hch Hall.
  - apply readChannelName_last_char. now apply printable_not_NUL.
  - cbn [forallb] in Hall. apply andb_prop in Hall as [Hx Hall].
    destruct fuel as [|fuel]; [reflexivity|].
    cbn [readChannelName]. rewrite (printable_not_NUL ch Hch).
    unfold bind at 1. rewrite readChar_ascii by now apply printable_ascii.
    now apply IH.
Qed.

(** The same loop on a stream in which a byte that is not ASCII comes before
    any NUL. *)
Lemma readChannelName_not_ascii chars :
  forall acc ch c b rest fuel,
    in_range 1 0x7F ch = true ->
    forallb (in_range 1 0x7F) chars = true ->
    in_range 0 0x7F b = false ->
    (length chars < fuel)%nat ->
    fst (readChannelName fuel acc [ch] (mkBytesIO c (chars ++ b :: rest)))
    = Raise UnicodeDecodeError.
Proof.
  induction chars as [|x chars IH]; intros acc ch c b rest fuel Hch Hall Hb Hfuel.
  - destruct fuel as [|fuel]; cbn [length] in Hfuel; try lia.
    cbn [readChannelName app]. rewrite (printable_not_NUL ch Hch).
    unfold bind. rewrite readChar_not_ascii by assumption. reflexivity.
  - cbn [forallb] in Hall. apply andb_prop in Hall as [Hx Hall].
    destruct fuel as [|fuel]; cbn [length] in Hfuel; try lia.
    cbn [readChannelName app]. rewrite (printable_not_NUL ch Hch).
    unfold bind at 1. rewrite readChar_ascii by now apply printable_ascii.
    apply IH; auto; lia.
Qed.

(** What [doParse] does on a CREATE header whose channel id is there: the
    rest of the function runs on the stream left after the id. *)
Lemma doParse_create fuel header channelId rest :
  0 <= header < 256 ->
  header_cmd header = DynamicChannelCommand.CREATE ->
  in_range 0 2 (header_cbid header) = true ->
  fits (selector_width (header_cbid header)) channelId = true ->
  doParse fuel
    (header :: le_bytes (selector_width (header_cbid header)) channelId ++ rest)
  = fst ((char <- readChar ;;
          name <- readChannelName fuel [] char ;;
          match name with
          | None => ret None
          | Some channelName =>
            pdu <- lift_result
                     (init (CreateRequestPDU (header_cbid header) (header_sp header)
                              channelId channelName)) ;;
            ret (Some pdu)
          end)
           (mkBytesIO
              ([header] ++ le_bytes (selector_width (header_cbid header)) channelId)
              rest)).
Proof.
  intros Hh Hm Hc Hf. rewrite doParse_header. cbv zeta. rewrite Hm.
  decide_tests. unfold bind at 1.
  rewrite readChannelId_fits by assumption. reflexivity.
Qed.

(** X4: a CREATE packet whose channel name is a run of non-NUL ASCII bytes
    followed by a NUL parses to a CreateRequest with that name, and whatever
    follows the NUL is ignored. *)
Theorem create_request_name_until_NUL :
  forall fuel header channelId name rest,
    0 <= header < 256 ->
    header_cmd header = DynamicChannelCommand.CREATE ->
    in_range 0 2 (header_cbid header) = true ->
    fits (selector_width (header_cbid header)) channelId = true ->
    forallb (in_range 1 0x7F) name = true ->
    (length name < fuel)%nat ->
    doParse fuel
      (header :: le_bytes (selector_width (header_cbid header)) channelId
              ++ name ++ 0 :: rest)
    = Ok (Some (CreateRequestPDU (header_cbid header) (header_sp header)
                  channelId name)).
Proof.
  intros fuel header channelId name rest Hh Hm Hc Hf Hn Hfuel.
  rewrite doParse_create by assumption.
  pose proof (init_valid (CreateRequestPDU (header_cbid header) (header_sp header)
                            channelId name) Hc eq_refl) as Hinit.
  destruct name as [|ch chars].
  - cbn [app]. unfold bind at 1. rewrite readChar_ascii by reflexivity.
    destruct fuel as [|fuel]; [cbn [length] in Hfuel; lia|].
    cbn [readChannelName]. change (list_eqb [0] [0]) with true. cbv iota.
    unfold bind, ret. unfold lift_result. rewrite Hinit. reflexivity.
  - cbn [forallb] in Hn. apply andb_prop in Hn as [Hch Hn].
    cbn [app]. unfold bind at 1. rewrite readChar_ascii by now apply printable_ascii.
    unfold bind at 1.
    rewrite readChannelName_terminated by (auto; cbn [length] in Hfuel; lia).
    cbn [app]. unfold bind, ret, lift_result. rewrite Hinit. reflexivity.
Qed.

Lemma create_request_name_until_NUL_witness :
  doParse 4 (0x11 :: le_bytes (selector_width (header_cbid 0x11)) 300
                  ++ [0x65; 0x63; 0x68] ++ 0 :: [9; 9])
  = Ok (Some (CreateRequestPDU (header_cbid 0x11) (header_sp 0x11) 300
                [0x65; 0x63; 0x68])).
Proof.
  apply (create_request_name_until_NUL 4 0x11 300 [0x65; 0x63; 0x68] [9; 9]);
    first [lia | reflexivity | (cbn; lia)].
Defined.

(** X5: a CREATE packet that ends before any NUL, its name bytes being
    non-NUL ASCII, keeps [doParse] in its loop whatever the number of
    iterations allowed. *)
Theorem create_request_without_NUL_never_returns :
  forall fuel header channelId name,
    0 <= header < 256 ->
    header_cmd header = DynamicChannelCommand.CREATE ->
    in_range 0 2 (header_cbid header) = true ->
    fits (selector_width (header_cbid header)) channelId = true ->
    forallb (in_range 1 0x7F) name = true ->
    doParse fuel
      (header :: le_bytes (selector_width (header_cbid header)) channelId ++ name)
    = Ok None.
Proof.
  intros fuel header channelId name Hh Hm Hc Hf Hn.
  rewrite doParse_create by assumption.
  destruct name as [|ch chars].
  - unfold bind at 1. rewrite readChar_at_eof.
    cbv beta iota.
    pose proof (readChannelName_at_eof fuel []
                  (([header] ++ le_bytes (selector_width (header_cbid header)) channelId)
                     ++ [])) as E.
    unfold bind.
    destruct (readChannelName fuel [] []
                (mkBytesIO (([header] ++ le_bytes (selector_width (header_cbid header))
                                    channelId) ++ []) [])) as [r s'].
    cbn [fst] in E. subst r. reflexivity.
  - cbn [forallb] in Hn. apply andb_prop in Hn as [Hch Hn].
    unfold bind at 1. rewrite readChar_ascii by now apply printable_ascii.
    pose proof (readChannelName_unterminated chars [] ch
                  (([header] ++ le_bytes (selector_width (header_cbid header)) channelId)
                     ++ [ch]) fuel Hch Hn) as E.
    unfold bind.
    destruct (readChannelName fuel [] [ch] _) as [r s'].
    cbn [fst] in E. subst r. reflexivity.
Qed.

Lemma create_request_without_NUL_witness :
  doParse 1000 (0x10 :: le_bytes (selector_width (header_cbid 0x10)) 1
                     ++ [0x65; 0x63; 0x68; 0x6F])
  = Ok None.
Proof.
  apply (create_request_without_NUL_never_returns 1000 0x10 1 [0x65; 0x63; 0x68; 0x6F]);
    first [lia | reflexivity].
Defined.

(** X6: a byte outside ASCII in the channel name of a CREATE packet, before
    any NUL, makes [doParse] raise UnicodeDecodeError: each byte is decoded
    on its own. *)
Theorem create_request_non_ascii_name_raises :
  forall fuel header channelId name b rest,
    0 <= header < 256 ->
    header_cmd header = DynamicChannelCommand.CREATE ->
    in_range 0 2 (header_cbid header) = true ->
    fits (selector_width (header_cbid header)) channelId = true ->
    forallb (in_range 1 0x7F) name = true ->
    in_range 0 0x7F b = false ->
    (length name <= fuel)%nat ->
    doParse fuel
      (header :: le_bytes (selector_width (header_cbid header)) channelId
              ++ name ++ b :: rest)
    = Raise UnicodeDecodeError.
Proof.
  intros fuel header channelId name b rest Hh Hm Hc Hf Hn Hb Hfuel.
  rewrite doParse_create by assumption.
  destruct name as [|ch chars].
  - cbn [app]. unfold bind. rewrite readChar_not_ascii by assumption. reflexivity.
  - cbn [forallb] in Hn. apply andb_prop in Hn as [Hch Hn].
    cbn [app]. unfold bind at 1. rewrite readChar_ascii by now apply printable_ascii.
    pose proof (readChannelName_not_ascii chars [] ch
                  (([header] ++ le_bytes (selector_width (header_cbid header)) channelId)
                     ++ [ch]) b rest fuel Hch Hn Hb
                  ltac:(cbn [length] in Hfuel; lia)) as E.
    unfold bind.
    destruct (readChannelName fuel [] [ch] _) as [r s'].
    cbn [fst] in E. subst r. reflexivity.
Qed.

Lemma create_request_non_ascii_name_witness :
  doParse 2 (0x10 :: le_bytes (selector_width (header_cbid 0x10)) 1
                  ++ [0x65; 0x63] ++ 0xE9 :: [0])
  = Raise UnicodeDecodeError.
Proof.
  apply (create_request_non_ascii_name_raises 2 0x10 1 [0x65; 0x63] 0xE9 [0]);
    first [lia | reflexivity | (cbn; lia)].
Defined.

End CreateRequest.

Section DynamicWriteAfterParse.
Import DynamicChannel DynamicChannelParser.

Lemma is_bytes_app a b : is_bytes (a ++ b) = is_bytes a && is_bytes b.
Proof. apply forallb_app. Qed.

Lemma le_value_bound d :
  is_bytes d = true -> 0 <= le_value d < 256 ^ Z.of_nat (length d).
Proof.
  induction d as [|b r IH]; intros H; [cbn; lia|].
  cbn [is_bytes forallb] in H. apply andb_prop in H as [Hb Hr].
  apply in_range_spec in Hb. specialize (IH Hr).
  cbn [le_value length]. rewrite Nat2Z.inj_succ, Z.pow_succ_r by lia. lia.
Qed.

Lemma le_bytes_le_value d :
  is_bytes d = true -> le_bytes (length d) (le_value d) = d.
Proof.
  induction d as [|b r IH]; intros H; [reflexivity|].
  cbn [is_bytes forallb] in H. apply andb_prop in H as [Hb Hr].
  apply in_range_spec in Hb.
  cbn [le_value length le_bytes].
  rewrite (Z.mul_comm 256), Z.mod_add, Z.div_add by lia.
  rewrite Z.mod_small, Z.div_small, Z.add_0_l by lia.
  now rewrite (IH Hr).
Qed.

Lemma readChannelId_inv cbid s v s' :
  readChannelId cbid s = (Ok v, s') ->
  in_range 0 2 cbid = true
  /\ exists d r', length d = selector_width cbid /\ remaining s = d ++ r'
                  /\ s' = mkBytesIO (consumed s ++ d) r' /\ v = le_value d.
Proof.
  unfold readChannelId, selector_width.
  destruct (Z.eqb_spec cbid CbId.ONE_BYTE) as [->|N1].
  { intros H. split; [reflexivity|]. now apply (Uint_unpack_inv 1). }
  destruct (Z.eqb_spec cbid CbId.TWO_BYTE) as [->|N2].
  { intros H. split; [reflexivity|]. now apply (Uint_unpack_inv 2). }
  destruct (Z.eqb_spec cbid CbId.FOUR_BYTES) as [->|N4].
  { intros H. split; [reflexivity|]. now apply (Uint_unpack_inv 4). }
  discriminate.
Qed.

Lemma write_DynamicChannel_layout pdu :
  valid_DynamicChannelPDU pdu = true -> write pdu = Ok (DynamicChannel_layout pdu).
Proof.
  intros V.
  assert (fits 1 (pack_header (cbid pdu) (sp pdu) (cmd pdu)) = true) as Hh.
  { destruct pdu; try discriminate; cbn [valid_DynamicChannelPDU] in V; break_and;
      cbn [cbid sp cmd];
      repeat match goal with
             | H : in_range _ _ _ = true |- _ => apply in_range_spec in H
             end;
      apply pack_header_fields; solve [lia | cbv; split; intros X; discriminate X]. }
  unfold write, run_writer, write_stream, DynamicChannel_layout.
  fold (pack_header (cbid pdu) (sp pdu) (cmd pdu)).
  unfold Uint8_pack. rewrite (write_result_fits 1 _ Hh).
  destruct pdu; try discriminate; cbn [valid_DynamicChannelPDU] in V; break_and;
    rewrite ?writeChannelId_fits, ?writeLength_fits by assumption;
    cbv beta iota delta [bind stream_write]; cbn [app le_bytes cbid sp cmd];
    cbn [cbid sp cmd] in Hh;
    rewrite (Z.mod_small _ 256) by (apply fits_spec in Hh; exact Hh);
    rewrite <- ?app_assoc; reflexivity.
Qed.

Ltac read_id E :=
  unfold bind at 1;
  match goal with
  | |- context [readChannelId ?c ?s] =>
    destruct (readChannelId c s) as [[?v|?e] ?s1] eqn:E; [|discriminate]
  | |- context [readLength ?c ?s] =>
    destruct (readLength c s) as [[?v|?e] ?s1] eqn:E; [|discriminate]
  end;
  apply readChannelId_inv in E; cbn [remaining consumed] in E; cbv beta iota.

Ltac built_pdu :=
  unfold bind at 1;
  match goal with
  | |- context [init ?p] =>
    let Ei := fresh "Ei" in
    destruct (init p) as [?|?] eqn:Ei;
    cbv beta iota delta [lift_result ret raise bind fst]; [|discriminate];
    apply init_Ok in Ei; subst; intros [= <-]
  end.

(** X7: what [write] gives back for the PDU that [doParse] built from a byte
    string: the very same bytes for the four data variants; a prefix of them
    for the close variant, whose trailing bytes are not read; and
    NotImplementedError for a CreateRequest and for the generic variant. *)
Theorem write_after_doParse :
  forall fuel data pdu,
    is_bytes data = true ->
    doParse fuel data = Ok (Some pdu) ->
    write_after_parse data pdu.
Proof.
  intros fuel data pdu B. destruct data as [|header rest]; [discriminate|].
  cbn [is_bytes forallb] in B. apply andb_prop in B as [Hb B].
  fold (is_bytes rest) in B.
  apply in_range_spec in Hb.
  destruct (header_fields header ltac:(lia)) as (Hc3 & Hs3 & Hm15 & Hpack).
  rewrite doParse_header. cbv zeta.
  destruct (Z.eqb_spec (header_cmd header) DynamicChannelCommand.CREATE) as [Hm|_].
  { (* CREATE *)
    unfold bind at 1.
    destruct (readChannelId _ _) as [[v|e] s1]; [|discriminate]. cbv beta iota.
    unfold bind at 1.
    destruct (readChar s1) as [[ch|e] s2]; [|discriminate]. cbv beta iota.
    unfold bind at 1.
    destruct (readChannelName fuel [] ch s2) as [[[name|]|e] s3]; try discriminate.
    cbv beta iota. built_pdu.
    unfold write_after_parse, write, run_writer, write_stream. cbn [cbid sp cmd].
    fold (pack_header (header_cbid header) (header_sp header)
            DynamicChannelCommand.CREATE).
    rewrite <- Hm, Hpack. unfold Uint8_pack.
    rewrite write_result_fits by (apply fits_spec; change (256 ^ Z.of_nat 1) with 256; lia).
    reflexivity. }
  destruct (Z.eqb_spec (header_cmd header) DynamicChannelCommand.DATA_FIRST) as [Hm|_].
  { read_id E1. destruct E1 as (Hc & d1 & r1 & L1 & -> & -> & ->).
    read_id E2. destruct E2 as (Hs & d2 & r2 & L2 & -> & -> & ->).
    unfold bind at 1. rewrite BytesIO_read_all_spec. cbv beta iota.
    built_pdu. rewrite !is_bytes_app in B. break_and.
    unfold write_after_parse. rewrite write_DynamicChannel_layout.
    - unfold DynamicChannel_layout. cbn [cbid sp cmd]. rewrite <- Hm, Hpack.
      rewrite <- L1, <- L2, !le_bytes_le_value by assumption. reflexivity.
    - cbn [valid_DynamicChannelPDU]. rewrite Hc, Hs, <- L1, <- L2.
      rewrite !(proj2 (fits_spec _ _)) by now apply le_value_bound. reflexivity. }
  destruct (Z.eqb_spec (header_cmd header) DynamicChannelCommand.DATA) as [Hm|_].
  { read_id E1. destruct E1 as (Hc & d1 & r1 & L1 & -> & -> & ->).
    unfold bind at 1. rewrite BytesIO_read_all_spec. cbv beta iota.
    built_pdu. rewrite !is_bytes_app in B. break_and.
    unfold write_after_parse. rewrite write_DynamicChannel_layout.
    - unfold DynamicChannel_layout. cbn [cbid sp cmd]. rewrite <- Hm, Hpack.
      rewrite <- L1, !le_bytes_le_value by assumption. reflexivity.
    - cbn [valid_DynamicChannelPDU]. rewrite Hc, <- L1.
      rewrite (proj2 (in_range_spec 0 3 _)) by lia.
      rewrite !(proj2 (fits_spec _ _)) by now apply le_value_bound. reflexivity. }
  destruct (Z.eqb_spec (header_cmd header) DynamicChannelCommand.DATA_FIRST_COMPRESSED)
    as [Hm|_].
  { read_id E1. destruct E1 as (Hc & d1 & r1 & L1 & -> & -> & ->).
    read_id E2. destruct E2 as (Hs & d2 & r2 & L2 & -> & -> & ->).
    unfold bind at 1. rewrite BytesIO_read_all_spec. cbv beta iota.
    built_pdu. rewrite !is_bytes_app in B. break_and.
    unfold write_after_parse. rewrite write_DynamicChannel_layout.
    - unfold DynamicChannel_layout. cbn [cbid sp cmd]. rewrite <- Hm, Hpack.
      rewrite <- L1, <- L2, !le_bytes_le_value by assumption. reflexivity.
    - cbn [valid_DynamicChannelPDU]. rewrite Hc, Hs, <- L1, <- L2.
      rewrite !(proj2 (fits_spec _ _)) by now apply le_value_bound. reflexivity. }
  destruct (Z.eqb_spec (header_cmd header) DynamicChannelCommand.DATA_COMPRESSED)
    as [Hm|_].
  { read_id E1. destruct E1 as (Hc & d1 & r1 & L1 & -> & -> & ->).
    unfold bind at 1. rewrite BytesIO_read_all_spec. cbv beta iota.
    built_pdu. rewrite !is_bytes_app in B. break_and.
    unfold write_after_parse. rewrite write_DynamicChannel_layout.
    - unfold DynamicChannel_layout. cbn [cbid sp cmd]. rewrite <- Hm, Hpack.
      rewrite <- L1, !le_bytes_le_value by assumption. reflexivity.
    - cbn [valid_DynamicChannelPDU]. rewrite Hc, <- L1.
      rewrite (proj2 (in_range_spec 0 3 _)) by lia.
      rewrite !(proj2 (fits_spec _ _)) by now apply le_value_bound. reflexivity. }
  destruct (Z.eqb_spec (header_cmd header) DynamicChannelCommand.CLOSE) as [Hm|_].
  { read_id E1. destruct E1 as (Hc & d1 & r1 & L1 & -> & -> & ->).
    built_pdu. rewrite !is_bytes_app in B. break_and.
    unfold write_after_parse. rewrite write_DynamicChannel_layout.
    - unfold DynamicChannel_layout. cbn [cbid sp cmd]. rewrite <- Hm, Hpack.
      rewrite <- L1, !le_bytes_le_value by assumption.
      exists (header :: d1), r1. split; reflexivity.
    - cbn [valid_DynamicChannelPDU]. rewrite Hc, <- L1.
      rewrite (proj2 (in_range_spec 0 3 _)) by lia.
      rewrite !(proj2 (fits_spec _ _)) by now apply le_value_bound. reflexivity. }
  unfold bind at 1. rewrite BytesIO_read_all_spec. cbv beta iota.
  built_pdu.
  unfold write_after_parse, write, run_writer, write_stream. cbn [cbid sp cmd].
  fold (pack_header (header_cbid header) (header_sp header) (header_cmd header)).
  rewrite Hpack. unfold Uint8_pack.
  rewrite write_result_fits by (apply fits_spec; change (256 ^ Z.of_nat 1) with 256; lia).
  reflexivity.
Qed.

Lemma write_after_doParse_witness :
  write_after_parse [0x21; 44; 1; 5; 1; 2; 3]
    (DynamicDataFirstPDU 1 0 300 5 [1; 2; 3]).
Proof.
  apply (write_after_doParse 0 [0x21; 44; 1; 5; 1; 2; 3]
           (DynamicDataFirstPDU 1 0 300 5 [1; 2; 3])); reflexivity.
Defined.

End DynamicWriteAfterParse.

Section DynamicShortAndResponses.
Import DynamicChannel DynamicChannelParser.

Lemma readChannelId_short cbid c r :
  in_range 0 2 cbid = true -> (length r < selector_width cbid)%nat ->
  readChannelId cbid (mkBytesIO c r) = (Raise StructError, mkBytesIO (c ++ r) []).
Proof.
  intros Hc. apply in_range_spec in Hc.
  assert (cbid = 0 \/ cbid = 1 \/ cbid = 2) as [-> | [-> | ->]] by lia;
    intros H; now apply Uint_unpack_short.
Qed.

(** X8: a packet of one of the six commands that carry a channel id, cut
    before the end of the id, raises StructError: the short read is found
    by the integer decoder, whatever the command. *)
Theorem truncated_channel_id_raises_StructError :
  forall fuel header rest,
    0 <= header < 256 ->
    In (header_cmd header)
       [DynamicChannelCommand.CREATE; DynamicChannelCommand.DATA_FIRST;
        DynamicChannelCommand.DATA; DynamicChannelCommand.CLOSE;
        DynamicChannelCommand.DATA_FIRST_COMPRESSED;
        DynamicChannelCommand.DATA_COMPRESSED] ->
    in_range 0 2 (header_cbid header) = true ->
    (length rest < selector_width (header_cbid header))%nat ->
    doParse fuel (header :: rest) = Raise StructError.
Proof.
  intros fuel header rest Hh Hm Hc Hl. rewrite doParse_header. cbv zeta.
  cbn [In] in Hm.
  destruct Hm as [Hm|[Hm|[Hm|[Hm|[Hm|[Hm|[]]]]]]]; rewrite <- Hm; decide_tests;
    unfold bind at 1; rewrite readChannelId_short by assumption; reflexivity.
Qed.

Lemma truncated_channel_id_witness :
  doParse 0 (0x32 :: [7; 0; 0]) = Raise StructError.
Proof.
  apply (truncated_channel_id_raises_StructError 0 0x32 [7; 0; 0]);
    [lia | (cbn; tauto) | reflexivity | (cbn; lia)].
Defined.

(** X9: the two response variants are written but not read back as
    themselves.  The bytes written for a CapabilityResponse parse to the
    generic variant, whose payload is the padding byte and the capability;
    the bytes written for a CreateResponse whose creation status has a zero
    low byte parse to a CreateRequest with an empty name. *)
Theorem responses_parse_as_other_variants :
  forall fuel cbid sp capability channelId creationStatus,
    in_range 0 2 cbid = true -> in_range 0 3 sp = true ->
    fits 2 capability = true ->
    fits (selector_width cbid) channelId = true ->
    fits 4 creationStatus = true -> creationStatus mod 256 = 0 ->
    (exists data,
        write (CapabilityResponsePDU cbid sp capability) = Ok data
        /\ doParse fuel data
           = Ok (Some (DynamicChannelPDU cbid sp
                         DynamicChannelCommand.CAPABILITY_REQUEST
                         (0 :: le_bytes 2 capability))))
    /\ (exists data,
           write (CreateResponsePDU cbid sp channelId creationStatus) = Ok data
           /\ doParse (S fuel) data
              = Ok (Some (CreateRequestPDU cbid sp channelId []))).
Proof.
  intros fuel cbid sp capability channelId creationStatus Hc Hs Fcap Fid Fst Hlow.
  assert (0 <= cbid <= 3) as Hc3 by (apply in_range_spec in Hc; lia).
  assert (0 <= sp <= 3) as Hs3 by (apply in_range_spec in Hs; lia).
  split.
  - destruct (pack_header_fields cbid sp DynamicChannelCommand.CAPABILITY_REQUEST
                Hc3 Hs3 ltac:(cbv; split; intros X; discriminate X))
      as (Hh & Hcb & Hsp & Hcm).
    exists (pack_header cbid sp DynamicChannelCommand.CAPABILITY_REQUEST
            :: 0 :: le_bytes 2 capability).
    split.
    + unfold write, run_writer, write_stream. cbn [DynamicChannel.cbid DynamicChannel.sp DynamicChannel.cmd].
      fold (pack_header cbid sp DynamicChannelCommand.CAPABILITY_REQUEST).
      unfold Uint8_pack, Uint16LE_pack.
      rewrite (write_result_fits 1 _ Hh), (write_result_fits 1 0 eq_refl),
        (write_result_fits 2 _ Fcap).
      cbv beta iota delta [bind stream_write]. cbn [app le_bytes].
      apply fits_spec in Hh. change (256 ^ Z.of_nat 1) with 256 in Hh.
      now rewrite (Z.mod_small _ 256) by exact Hh.
    + rewrite doParse_header. cbv zeta. rewrite Hcb, Hsp, Hcm. decide_tests.
      unfold bind at 1. rewrite BytesIO_read_all_spec. cbv beta iota.
      unfold bind.
      rewrite (init_valid (DynamicChannelPDU cbid sp
                             DynamicChannelCommand.CAPABILITY_REQUEST
                             (0 :: le_bytes 2 capability)) Hc eq_refl).
      reflexivity.
  - destruct (pack_header_fields cbid sp DynamicChannelCommand.CREATE
                Hc3 Hs3 ltac:(cbv; split; intros X; discriminate X))
      as (Hh & Hcb & Hsp & Hcm).
    exists (pack_header cbid sp DynamicChannelCommand.CREATE
            :: le_bytes (selector_width cbid) channelId
               ++ 0 :: le_bytes 3 (creationStatus / 256)).
    split.
    + unfold write, run_writer, write_stream. cbn [DynamicChannel.cbid DynamicChannel.sp DynamicChannel.cmd].
      fold (pack_header cbid sp DynamicChannelCommand.CREATE).
      unfold Uint8_pack, Uint32LE_pack.
      rewrite (write_result_fits 1 _ Hh), (writeChannelId_fits _ _ Hc Fid),
        (write_result_fits 4 _ Fst).
      cbv beta iota delta [bind stream_write]. cbn [app le_bytes].
      apply fits_spec in Hh. change (256 ^ Z.of_nat 1) with 256 in Hh.
      rewrite (Z.mod_small _ 256) by exact Hh. rewrite Hlow.
      reflexivity.
    + rewrite doParse_header. cbv zeta. rewrite Hcb, Hsp, Hcm. decide_tests.
      unfold bind at 1. rewrite readChannelId_fits by assumption. cbv beta iota.
      unfold bind at 1. rewrite readChar_ascii by reflexivity. cbv beta iota.
      cbn [readChannelName]. change (list_eqb [0] [0]) with true. cbv iota.
      unfold bind, ret, lift_result.
      rewrite (init_valid (CreateRequestPDU cbid sp channelId []) Hc eq_refl).
      reflexivity.
Qed.

Lemma responses_parse_as_other_variants_witness :
  (exists data,
      write (CapabilityResponsePDU 0 0 3) = Ok data
      /\ doParse 0 data
         = Ok (Some (DynamicChannelPDU 0 0 DynamicChannelCommand.CAPABILITY_REQUEST
                       (0 :: le_bytes 2 3))))
  /\ (exists data,
         write (CreateResponsePDU 0 0 7 0) = Ok data
         /\ doParse 1 data = Ok (Some (CreateRequestPDU 0 0 7 []))).
Proof.
  apply (responses_parse_as_other_variants 0 0 0 3 7 0); reflexivity.
Defined.

End DynamicShortAndResponses.

(** ** The client connection parser *)

Section ClientNetworkErrors.
Import ClientConnectionParser.

Lemma starts_with_inv needle : forall hay,
  starts_with needle hay = true -> exists rest, hay = needle ++ rest.
Proof.
  induction needle as [|n needle IH]; intros hay H.
  - now exists hay.
  - destruct hay as [|h hay]; [discriminate|].
    cbn [starts_with] in H. apply andb_prop in H as [E H].
    apply Z.eqb_eq in E. subst h.
    destruct (IH hay H) as (rest & ->). now exists rest.
Qed.

Lemma contains_inv needle : forall hay,
  contains needle hay = true -> exists before rest, hay = before ++ needle ++ rest.
Proof.
  induction hay as [|h hay IH]; intros H.
  - cbn [contains] in H. rewrite orb_false_r in H.
    apply starts_with_inv in H as (rest & ->). now exists [], rest.
  - cbn [contains] in H. apply orb_prop in H as [H | H].
    + apply starts_with_inv in H as (rest & ->). now exists [], rest.
    + destruct (IH H) as (before & rest & ->). now exists (h :: before), rest.
Qed.

(** The detection holds exactly of the byte strings with a substring equal
    to MS_T120 up to letter case. *)
Lemma detectBlueKeepScan_iff data :
  detectBlueKeepScan data = true
  <-> exists before s rest, data = before ++ s ++ rest /\ upper s = MS_T120.
Proof.
  split.
  - unfold detectBlueKeepScan. intros H.
    apply contains_inv in H as (before' & rest' & E).
    unfold upper in E.
    apply map_eq_app in E as (before & tail & -> & Eb & E).
    apply map_eq_app in E as (s & rest & -> & Es & Er).
    now exists before, s, rest.
  - intros (before & s & rest & -> & E). now apply detectBlueKeepScan_any_case.
Qed.

Lemma parseChannelDefinition_raises s e s' :
  parseChannelDefinition s = (Raise e, s') ->
  e = UnicodeDecodeError \/ e = StructError.
Proof.
  unfold parseChannelDefinition. unfold bind at 1.
  destruct (BytesIO_read 8 s) as [[raw|e0] s1] eqn:E0; [|discriminate E0].
  unfold bind at 1. unfold decode.
  destruct (utf8_decode (strip0 raw)) as [name|]; cbn [lift_result];
    [|intros [= <-]; now left].
  unfold ret at 1. unfold bind at 1.
  destruct (Uint32LE_unpack BytesIO_read s1) as [[options|e1] s2] eqn:E1.
  - discriminate.
  - intros [= <-]. right. now apply Uint_unpack_raises in E1.
Qed.

Lemma repeatM_parseChannelDefinition_raises n : forall s e s',
  repeatM n parseChannelDefinition s = (Raise e, s') ->
  e = UnicodeDecodeError \/ e = StructError.
Proof.
  induction n as [|n IH]; intros s e s'; [discriminate|].
  cbn [repeatM]. unfold bind at 1.
  destruct (parseChannelDefinition s) as [[a|e0] s1] eqn:E0.
  - unfold bind at 1.
    destruct (repeatM n parseChannelDefinition s1) as [[r|e1] s2] eqn:E1.
    + discriminate.
    + intros [= <-]. now apply IH in E1.
  - intros [= <-]. now apply parseChannelDefinition_raises in E0.
Qed.

(** X10: [parseClientNetworkData] raises ExploitError on exactly the payloads
    that hold MS_T120 in some letter case: no other payload, however
    malformed, is reported as a BlueKeep attempt. *)
Theorem ExploitError_iff_MS_T120 :
  forall data,
    run_parser parseClientNetworkData data = Raise ExploitError
    <-> exists before s rest, data = before ++ s ++ rest /\ upper s = MS_T120.
Proof.
  intros data. rewrite <- detectBlueKeepScan_iff.
  unfold run_parser, parseClientNetworkData, BytesIO_of.
  unfold bind at 1. unfold get_stream at 1. cbv beta iota.
  unfold getvalue at 1. cbn [consumed remaining app].
  destruct (detectBlueKeepScan data); [split; reflexivity|].
  split; [|discriminate]. intros H. exfalso. revert H.
  unfold bind at 1.
  destruct (Uint32LE_unpack BytesIO_read _) as [[count|e] s1] eqn:E.
  - unfold bind at 1. unfold get_stream at 1. cbv beta iota zeta.
    destruct (negb _); [discriminate|].
    unfold bind at 1.
    destruct (repeatM _ parseChannelDefinition s1) as [[r|e] s2] eqn:E1;
      [discriminate|].
    apply repeatM_parseChannelDefinition_raises in E1.
    cbn [fst]. intros [= ->]. destruct E1; discriminate.
  - apply Uint_unpack_raises in E. subst e. discriminate.
Qed.

(** X11: a channel array whose size is not twelve bytes per announced channel
    is refused with ParsingError before any channel is read. *)
Theorem network_data_size_mismatch_raises_ParsingError :
  forall channelCount body,
    fits 4 channelCount = true ->
    detectBlueKeepScan (le_bytes 4 channelCount ++ body) = false ->
    len body <> channelCount * 12 ->
    run_parser parseClientNetworkData (le_bytes 4 channelCount ++ body)
    = Raise ParsingError.
Proof.
  intros channelCount body Hf Hd Hl.
  unfold run_parser, parseClientNetworkData, BytesIO_of.
  unfold bind at 1. unfold get_stream at 1. cbv beta iota.
  unfold getvalue at 1. cbn [consumed remaining app]. rewrite Hd.
  unfold bind at 1. unfold Uint32LE_unpack. rewrite Uint_unpack_fits by assumption.
  cbv beta iota. unfold bind at 1. unfold get_stream at 1. cbv beta iota zeta.
  unfold getvalue. cbn [consumed remaining].
  change ([] ++ le_bytes 4 channelCount) with (le_bytes 4 channelCount).
  replace (skipn 4 (le_bytes 4 channelCount ++ body)) with body
    by (cbn [le_bytes app skipn]; reflexivity).
  destruct (Z.eqb_spec (len body) (channelCount * 12)) as [E|_]; [contradiction|].
  reflexivity.
Qed.

Lemma network_data_size_mismatch_witness :
  run_parser parseClientNetworkData (le_bytes 4 2 ++ [1; 2; 3; 4; 5; 6; 7; 8; 0; 0; 0; 0])
  = Raise ParsingError.
Proof.
  apply (network_data_size_mismatch_raises_ParsingError 2
           [1; 2; 3; 4; 5; 6; 7; 8; 0; 0; 0; 0]);
    [reflexivity | reflexivity | (cbv; discriminate)].
Defined.

End ClientNetworkErrors.

Section ClientBlockErrors.
Import ClientConnectionParser.

(** X12: a client block whose length field is below 4, or announces more
    bytes than the stream holds, raises ParsingError, whatever its type tag
    is (a tag without a parser included): the length is checked first, and
    a negative count makes [read] return everything that is left. *)
Theorem client_block_length_mismatch_raises_ParsingError :
  forall h l rest,
    length h = 2%nat -> length l = 2%nat ->
    le_value l < 4 \/ len rest < le_value l - 4 ->
    run_parser parseStructure (h ++ l ++ rest) = Raise ParsingError.
Proof.
  intros h l rest Lh Ll H.
  unfold run_parser, parseStructure, BytesIO_of, Uint16LE_unpack.
  unfold bind at 1. rewrite Uint_unpack_exact by assumption. cbv beta iota.
  unfold bind at 1. rewrite Uint_unpack_exact by assumption. cbv beta iota zeta.
  unfold bind at 1. pose proof (len_nonneg rest).
  destruct (Z.ltb_spec (le_value l) 4) as [Hneg|Hpos].
  - rewrite BytesIO_read_negative by lia. cbv beta iota.
    destruct (Z.eqb_spec (len rest) (le_value l - 4)) as [E|_]; [lia|].
    reflexivity.
  - rewrite BytesIO_read_short by lia. cbv beta iota.
    destruct (Z.eqb_spec (len rest) (le_value l - 4)) as [E|_]; [lia|].
    reflexivity.
Qed.

Lemma client_block_length_mismatch_witness :
  run_parser parseStructure ([0x02; 0xC0] ++ [3; 0] ++ [1; 0; 0; 0; 0; 0; 0; 0])
  = Raise ParsingError.
Proof.
  apply (client_block_length_mismatch_raises_ParsingError
           [0x02; 0xC0] [3; 0] [1; 0; 0; 0; 0; 0; 0; 0]);
    [reflexivity | reflexivity | left; cbv; reflexivity].
Defined.

(** X13: a client block whose length field matches its payload but whose
    type tag has no parser raises UnknownPDUTypeError carrying that tag,
    whatever the payload and whatever follows the block. *)
Theorem client_block_unknown_tag_raises :
  forall h l payload rest,
    length h = 2%nat -> length l = 2%nat ->
    len payload = le_value l - 4 ->
    parsers (le_value h) = None ->
    run_parser parseStructure (h ++ l ++ payload ++ rest)
    = Raise (UnknownPDUTypeError (le_value h)).
Proof.
  intros h l payload rest Lh Ll Hp Hn.
  unfold run_parser, parseStructure, BytesIO_of, Uint16LE_unpack.
  unfold bind at 1. rewrite Uint_unpack_exact by assumption. cbv beta iota.
  unfold bind at 1. rewrite Uint_unpack_exact by assumption. cbv beta iota zeta.
  unfold bind at 1. rewrite BytesIO_read_exact' by assumption. cbv beta iota.
  rewrite Hp, Z.eqb_refl, Hn. reflexivity.
Qed.

Lemma client_block_unknown_tag_witness :
  run_parser parseStructure ([0x01; 0x0C] ++ [8; 0] ++ [4; 0; 8; 0] ++ [9; 9])
  = Raise (UnknownPDUTypeError (le_value [0x01; 0x0C])).
Proof.
  apply (client_block_unknown_tag_raises [0x01; 0x0C] [8; 0] [4; 0; 8; 0] [9; 9]);
    reflexivity.
Defined.

End ClientBlockErrors.

Section ClientBlocks.
Import ClientConnectionParser.

Lemma client_header_fits x :
  fits 2 (client_header x) = true.
Proof. destruct x; reflexivity. Qed.

Lemma writable_ClientStructure_inv x :
  writable_ClientStructure x = true ->
  exists payload parser,
    run_writer (writers x) = Ok payload
    /\ fits 2 (len payload + 4) = true
    /\ ClientStructure_block x
       = le_bytes 2 (client_header x) ++ le_bytes 2 (len payload + 4) ++ payload
    /\ parsers (client_header x) = Some parser
    /\ run_parser parser payload = Ok x.
Proof.
  unfold writable_ClientStructure, ClientStructure_block. intros H.
  apply andb_prop in H as [V F].
  destruct (client_structure_roundtrip x V) as (payload & parser & W & P & R).
  rewrite W in F |- *. now exists payload, parser.
Qed.

Lemma writeStructure_block x out :
  writable_ClientStructure x = true ->
  writeStructure x out = (Ok tt, out ++ ClientStructure_block x).
Proof.
  intros H.
  destruct (writable_ClientStructure_inv x H) as (payload & parser & W & F & B & _).
  unfold writeStructure. unfold bind at 1. rewrite W. cbn [lift_result].
  unfold ret at 1. unfold Uint16LE_pack.
  rewrite (write_result_fits 2 _ (client_header_fits x)), (write_result_fits 2 _ F).
  rewrite B. cbv beta iota delta [bind stream_write].
  now rewrite <- !app_assoc.
Qed.

Lemma parseStructure_block x c r :
  writable_ClientStructure x = true ->
  parseStructure (mkBytesIO c (ClientStructure_block x ++ r))
  = (Ok x, mkBytesIO (c ++ ClientStructure_block x) r).
Proof.
  intros H.
  destruct (writable_ClientStructure_inv x H) as (payload & parser & W & F & B & P & R).
  rewrite B, <- !app_assoc.
  apply (client_parseStructure_built c _ _ payload r parser x).
  - apply le_bytes_length.
  - apply le_bytes_length.
  - rewrite le_value_le_bytes_id by now apply fits_spec. lia.
  - rewrite le_value_le_bytes_id by (apply fits_spec, client_header_fits). exact P.
  - exact R.
Qed.

Lemma ClientStructure_block_length x :
  writable_ClientStructure x = true -> (4 <= length (ClientStructure_block x))%nat.
Proof.
  intros H.
  destruct (writable_ClientStructure_inv x H) as (payload & parser & W & F & B & _).
  rewrite B, !length_app, !le_bytes_length. lia.
Qed.

Lemma blocks_length xs :
  forallb writable_ClientStructure xs = true ->
  (length xs <= length (flat_map ClientStructure_block xs))%nat.
Proof.
  induction xs as [|x r IH]; intros H; [cbn; lia|].
  cbn [forallb] in H. apply andb_prop in H as [Hx Hr].
  cbn [flat_map length]. rewrite length_app.
  pose proof (ClientStructure_block_length x Hx). specialize (IH Hr). lia.
Qed.

(** The loop of [doParse] on a stream that holds written blocks. *)
Lemma client_loop_blocks xs :
  forall vars c fuel,
    forallb writable_ClientStructure xs = true ->
    (length xs < fuel)%nat ->
    fst (doParse_loop fuel vars (mkBytesIO c (flat_map ClientStructure_block xs)))
    = Ok (Some (record_blocks vars xs)).
Proof.
  induction xs as [|x r IH]; intros vars c fuel H Hfuel;
    (destruct fuel as [|fuel]; [cbn [length] in Hfuel; lia|]).
  - cbn [doParse_loop flat_map record_blocks]. unfold bind, get_stream.
    rewrite (proj2 (at_end_iff c [])) by reflexivity. reflexivity.
  - cbn [forallb] in H. apply andb_prop in H as [Hx Hr].
    cbn [doParse_loop flat_map record_blocks].
    unfold bind at 1. unfold get_stream at 1. cbv beta iota.
    pose proof (ClientStructure_block_length x Hx) as L.
    destruct (tell _ =? len _) eqn:E.
    { apply at_end_iff in E. apply (f_equal (@length Z)) in E.
      rewrite length_app in E. cbn [length] in E. lia. }
    cbn [negb andb]. fold (client_missing vars).
    destruct (client_missing vars); [|reflexivity].
    unfold bind at 1. rewrite parseStructure_block by assumption.
    cbv beta iota zeta. unfold bind at 1. unfold get_stream at 1. cbv beta iota.
    destruct (len _ =? 0) eqn:E0.
    { apply Z.eqb_eq in E0. unfold len, getvalue in E0. cbn [consumed remaining] in E0.
      rewrite !length_app in E0. lia. }
    apply IH; [assumption | cbn [length] in Hfuel; lia].
Qed.

(** X14: a writable structure is written as a block made of its type tag,
    the length of the whole block and its payload, and [parseStructure]
    reads that block back to the structure, leaving what follows it. *)
Theorem client_block_roundtrip :
  forall x rest,
    writable_ClientStructure x = true ->
    exists payload,
      run_writer (writers x) = Ok payload
      /\ run_writer (writeStructure x)
         = Ok (le_bytes 2 (client_header x) ++ le_bytes 2 (len payload + 4)
               ++ payload)
      /\ parseStructure
           (BytesIO_of ((le_bytes 2 (client_header x)
                         ++ le_bytes 2 (len payload + 4) ++ payload) ++ rest))
         = (Ok x,
            mkBytesIO (le_bytes 2 (client_header x) ++ le_bytes 2 (len payload + 4)
                       ++ payload) rest).
Proof.
  intros x rest H.
  destruct (writable_ClientStructure_inv x H) as (payload & parser & W & F & B & _).
  exists payload. split; [exact W|]. rewrite <- B. split.
  - unfold run_writer. now rewrite writeStructure_block.
  - unfold BytesIO_of. now rewrite parseStructure_block.
Qed.

Lemma client_block_roundtrip_witness :
  exists payload,
    run_writer (writers (ClientMessageChannel 7)) = Ok payload
    /\ run_writer (writeStructure (ClientMessageChannel 7))
       = Ok (le_bytes 2 (client_header (ClientMessageChannel 7))
             ++ le_bytes 2 (len payload + 4) ++ payload)
    /\ parseStructure
         (BytesIO_of ((le_bytes 2 (client_header (ClientMessageChannel 7))
                       ++ le_bytes 2 (len payload + 4) ++ payload) ++ [1; 2]))
       = (Ok (ClientMessageChannel 7),
          mkBytesIO (le_bytes 2 (client_header (ClientMessageChannel 7))
                     ++ le_bytes 2 (len payload + 4) ++ payload) [1; 2]).
Proof.
  apply (client_block_roundtrip (ClientMessageChannel 7) [1; 2]). reflexivity.
Defined.

(** X15: [doParse] on a sequence of written blocks, in any order and with
    repetitions: each block is recorded under its type, a later block of a
    type replacing an earlier one, and the blocks that follow the point
    where core, security, network and cluster have all been seen are not
    read. *)
Theorem client_doParse_block_sequence :
  forall xs,
    forallb writable_ClientStructure xs = true ->
    doParse (flat_map ClientStructure_block xs)
    = Ok (Some (record_blocks no_structure xs)).
Proof.
  intros xs H. unfold doParse, run_parser, BytesIO_of.
  apply client_loop_blocks; [assumption|].
  pose proof (blocks_length xs H). lia.
Qed.

Lemma client_doParse_block_sequence_witness :
  doParse (flat_map ClientStructure_block
             [ClientMessageChannel 7; ClientCluster (mkClientClusterData 1 0);
              ClientMessageChannel 9])
  = Ok (Some (record_blocks no_structure
                [ClientMessageChannel 7; ClientCluster (mkClientClusterData 1 0);
                 ClientMessageChannel 9])).
Proof.
  apply (client_doParse_block_sequence
           [ClientMessageChannel 7; ClientCluster (mkClientClusterData 1 0);
            ClientMessageChannel 9]).
  reflexivity.
Defined.

Lemma write_if_present_blocks o out tag :
  client_field_ok tag o = true ->
  write_if_present o out = (Ok tt, out ++ flat_map ClientStructure_block (option_list o)).
Proof.
  destruct o as [x|]; cbn [client_field_ok write_if_present option_list flat_map].
  - intros H. apply andb_prop in H as [_ H].
    rewrite writeStructure_block by assumption. now rewrite app_nil_r.
  - intros _. unfold ret. now rewrite app_nil_r.
Qed.

Lemma client_field_ok_writable tag o :
  client_field_ok tag o = true ->
  forallb writable_ClientStructure (option_list o) = true.
Proof.
  destruct o as [x|]; cbn; [|reflexivity].
  intros H. apply andb_prop in H as [_ H]. now rewrite H.
Qed.

Lemma client_field_ok_inv tag o :
  client_field_ok tag o = true ->
  o = None \/ exists x, o = Some x /\ client_header x = tag.
Proof.
  destruct o as [x|]; [|now left]. cbn [client_field_ok]. intros H.
  apply andb_prop in H as [H _]. apply Z.eqb_eq in H. right. now exists x.
Qed.

Lemma write_client_blocks pdu :
  wellformed_ClientDataPDU pdu = true ->
  write pdu = Ok (flat_map ClientStructure_block (client_blocks pdu)).
Proof.
  unfold wellformed_ClientDataPDU. intros H. break_and.
  unfold write, run_writer, client_blocks.
  cbv beta iota delta [bind].
  repeat match goal with
         | H : client_field_ok ?tag ?o = true |- context [write_if_present ?o ?out] =>
           rewrite (write_if_present_blocks o out tag H)
         end.
  rewrite !flat_map_app, <- !app_assoc. reflexivity.
Qed.

Lemma wellformed_client_blocks pdu :
  wellformed_ClientDataPDU pdu = true ->
  forallb writable_ClientStructure (client_blocks pdu) = true.
Proof.
  unfold wellformed_ClientDataPDU, client_blocks. intros H. break_and.
  rewrite !forallb_app.
  repeat match goal with
         | H : client_field_ok ?tag ?o = true |- _ =>
           apply client_field_ok_writable in H; rewrite H
         end.
  reflexivity.
Qed.

Ltac field_cases H :=
  apply client_field_ok_inv in H;
  destruct H as [->|(x & -> & H)];
  [|destruct x; try (cbv in H; discriminate H); clear H].

Lemma record_client_blocks pdu :
  wellformed_ClientDataPDU pdu = true ->
  record_blocks no_structure (client_blocks pdu)
  = if client_missing pdu then pdu else without_optional pdu.
Proof.
  destruct pdu as [f1 f2 f3 f4 f5 f6 f7 f8 f9].
  unfold wellformed_ClientDataPDU.
  cbn [coreData securityData networkData clusterData monitorData
       messageChannelData monitorExData multitransportData unused1Data].
  intros H. apply andb_prop in H as [H H9]. apply andb_prop in H as [H H8].
  apply andb_prop in H as [H H7]. apply andb_prop in H as [H H6].
  apply andb_prop in H as [H H5]. apply andb_prop in H as [H H4].
  apply andb_prop in H as [H H3]. apply andb_prop in H as [H1 H2].
  field_cases H1; field_cases H2; field_cases H3; field_cases H4;
    field_cases H5; field_cases H6; field_cases H7; field_cases H8;
    field_cases H9; reflexivity.
Qed.

(** X16: writing a well-formed Client Data PDU and parsing the bytes gives
    the PDU back when one of core, security, network, cluster is unset;
    when the four are set, the loop of [doParse] stops after the cluster
    block and the five other attributes come back unset. *)
Theorem client_pdu_roundtrip :
  forall pdu,
    wellformed_ClientDataPDU pdu = true ->
    exists data,
      write pdu = Ok data
      /\ doParse data
         = Ok (Some (if client_missing pdu then pdu else without_optional pdu)).
Proof.
  intros pdu H. exists (flat_map ClientStructure_block (client_blocks pdu)).
  split; [now apply write_client_blocks|].
  unfold doParse, run_parser, BytesIO_of.
  rewrite client_loop_blocks.
  - now rewrite record_client_blocks.
  - now apply wellformed_client_blocks.
  - pose proof (blocks_length _ (wellformed_client_blocks pdu H)). lia.
Qed.

Lemma client_pdu_roundtrip_witness :
  exists data,
    write example_client_pdu = Ok data
    /\ doParse data
       = Ok (Some (if client_missing example_client_pdu
                   then example_client_pdu
                   else without_optional example_client_pdu)).
Proof.
  apply (client_pdu_roundtrip example_client_pdu). vm_compute. reflexivity.
Defined.

End ClientBlocks.

Section ClientCoreOptionalFields.
Import ClientConnectionParser.

Lemma bind_ext {S A B} (m : M S A) (k1 k2 : A -> M S B) :
  (forall a s, k1 a s = k2 a s) -> forall s, bind m k1 s = bind m k2 s.
Proof.
  intros H s. unfold bind. destruct (m s) as [[a|e] s']; [apply H | reflexivity].
Qed.

(** X17: the optional part of a client core block is written up to the
    first field that is unset, the error of packing the unset field being
    silenced: when [postBeta2ColorDepth] is unset, [writeClientCoreData]
    writes what it writes for the mandatory fields alone, and the thirteen
    optional fields after it, set or not, leave no trace. *)
Theorem client_core_optional_fields_after_unset_are_dropped :
  forall core,
    postBeta2ColorDepth core = None ->
    run_writer (writeClientCoreData core)
    = run_writer (writeClientCoreData (mandatory_only core)).
Proof.
  intros core H. unfold run_writer.
  assert (forall out, writeClientCoreData core out
                      = writeClientCoreData (mandatory_only core) out) as E.
  { intros out. unfold writeClientCoreData, mandatory_only, new_ClientCoreData.
    cbn [version desktopWidth desktopHeight colorDepth sasSequence keyboardLayout
         clientBuild clientName keyboardType keyboardSubType keyboardFunctionKey
         imeFileName postBeta2ColorDepth].
    rewrite H.
    do 12 (apply bind_ext; intros _; clear out; intros out).
    unfold try_except. unfold bind at 1. unfold bind at 13. reflexivity. }
  now rewrite E.
Qed.

Lemma client_core_optional_fields_witness :
  run_writer (writeClientCoreData example_core_with_gap)
  = run_writer (writeClientCoreData (mandatory_only example_core_with_gap)).
Proof.
  apply (client_core_optional_fields_after_unset_are_dropped example_core_with_gap).
  reflexivity.
Defined.

End ClientCoreOptionalFields.

(** ** The server connection parser *)

Section ServerBlocks.
Import ServerPDU ServerConnectionParser.

Lemma server_parseStructure_built c h l d r parser :
  length h = 2%nat -> length l = 2%nat -> len d = le_value l - 4 ->
  parsers (le_value h) = Some parser ->
  parseStructure (mkBytesIO c (h ++ l ++ d ++ r))
  = (run_parser parser d, mkBytesIO (c ++ h ++ l ++ d) r).
Proof.
  intros Lh Ll Ld P. unfold parseStructure, Uint16LE_unpack.
  unfold bind at 1. rewrite Uint_unpack_exact by assumption. cbv beta iota.
  unfold bind at 1. rewrite Uint_unpack_exact by assumption. cbv beta iota zeta.
  unfold bind at 1. rewrite BytesIO_read_exact' by assumption. cbv beta iota.
  rewrite Ld, Z.ltb_irrefl, P. unfold on_substream.
  rewrite <- !app_assoc. now destruct (run_parser parser d).
Qed.

Lemma server_header_fits x : fits 2 (header x) = true.
Proof. destruct x; reflexivity. Qed.

Lemma writable_ServerStructure_inv x :
  writable_ServerStructure x = true ->
  exists payload parser,
    run_writer (writers x) = Ok payload
    /\ fits 2 (len payload + 4) = true
    /\ ServerStructure_block x
       = le_bytes 2 (header x) ++ le_bytes 2 (len payload + 4) ++ payload
    /\ parsers (header x) = Some parser
    /\ run_parser parser payload = Ok x.
Proof.
  unfold writable_ServerStructure, ServerStructure_block. intros H.
  apply andb_prop in H as [V F].
  destruct (server_structure_roundtrip x V) as (payload & parser & W & P & R).
  rewrite W in F |- *. now exists payload, parser.
Qed.

Lemma server_writeStructure_block x out :
  writable_ServerStructure x = true ->
  writeStructure x out = (Ok tt, out ++ ServerStructure_block x).
Proof.
  intros H.
  destruct (writable_ServerStructure_inv x H) as (payload & parser & W & F & B & _).
  unfold writeStructure. unfold bind at 1. rewrite W. cbn [lift_result].
  unfold ret at 1. unfold Uint16LE_pack.
  rewrite (write_result_fits 2 _ (server_header_fits x)), (write_result_fits 2 _ F).
  rewrite B. cbv beta iota delta [bind stream_write].
  now rewrite <- !app_assoc.
Qed.

Lemma server_parseStructure_block x c r :
  writable_ServerStructure x = true ->
  parseStructure (mkBytesIO c (ServerStructure_block x ++ r))
  = (Ok x, mkBytesIO (c ++ ServerStructure_block x) r).
Proof.
  intros H.
  destruct (writable_ServerStructure_inv x H) as (payload & parser & W & F & B & P & R).
  rewrite B, <- !app_assoc.
  rewrite (server_parseStructure_built c _ _ payload r parser).
  - now rewrite R.
  - apply le_bytes_length.
  - apply le_bytes_length.
  - rewrite le_value_le_bytes_id by now apply fits_spec. lia.
  - rewrite le_value_le_bytes_id by (apply fits_spec, server_header_fits). exact P.
Qed.

Lemma ServerStructure_block_length x :
  writable_ServerStructure x = true -> (4 <= length (ServerStructure_block x))%nat.
Proof.
  intros H.
  destruct (writable_ServerStructure_inv x H) as (payload & parser & W & F & B & _).
  rewrite B, !length_app, !le_bytes_length. lia.
Qed.

Lemma server_blocks_length xs :
  forallb writable_ServerStructure xs = true ->
  (length xs <= length (flat_map ServerStructure_block xs))%nat.
Proof.
  induction xs as [|x r IH]; intros H; [cbn; lia|].
  cbn [forallb] in H. apply andb_prop in H as [Hx Hr].
  cbn [flat_map length]. rewrite length_app.
  pose proof (ServerStructure_block_length x Hx). specialize (IH Hr). lia.
Qed.

(** The loop of [doParse] on a stream that holds written blocks. *)
Lemma server_loop_blocks xs :
  forall vars c fuel,
    forallb writable_ServerStructure xs = true ->
    (length xs < fuel)%nat ->
    fst (doParse_loop fuel vars (mkBytesIO c (flat_map ServerStructure_block xs)))
    = match server_record_blocks vars xs with
      | Ok vars' => Ok (Some vars')
      | Raise e => Raise e
      end.
Proof.
  induction xs as [|x r IH]; intros vars c fuel H Hfuel;
    (destruct fuel as [|fuel]; [cbn [length] in Hfuel; lia|]).
  - cbn [doParse_loop flat_map server_record_blocks]. fold (server_missing vars).
    destruct (server_missing vars); reflexivity.
  - cbn [forallb] in H. apply andb_prop in H as [Hx Hr].
    cbn [doParse_loop flat_map server_record_blocks]. fold (server_missing vars).
    destruct (server_missing vars); [|reflexivity].
    pose proof (ServerStructure_block_length x Hx) as L.
    unfold bind at 1. rewrite server_parseStructure_block by assumption.
    cbv beta iota. unfold bind at 1.
    destruct (record_structure x vars) as [vars'|e]; [|reflexivity].
    cbn [lift_result]. unfold ret at 1.
    unfold bind at 1. unfold get_stream at 1. cbv beta iota.
    destruct (len _ =? 0) eqn:E0.
    { apply Z.eqb_eq in E0. unfold len, getvalue in E0. cbn [consumed remaining] in E0.
      rewrite !length_app in E0. lia. }
    apply IH; [assumption | cbn [length] in Hfuel; lia].
Qed.

(** X18: where the client parser refuses a block whose length field is
    below 4, the server parser does not: the count given to [read] is
    negative, so the rest of the stream, whatever its size, becomes the
    payload handed to the parser of the block's type, and the stream is
    left at its end. *)
Theorem server_block_length_below_4_reads_to_end :
  forall h l rest parser,
    length h = 2%nat -> length l = 2%nat ->
    le_value l < 4 ->
    parsers (le_value h) = Some parser ->
    parseStructure (BytesIO_of (h ++ l ++ rest))
    = (run_parser parser rest, mkBytesIO (h ++ l ++ rest) []).
Proof.
  intros h l rest parser Lh Ll Hl P.
  unfold parseStructure, BytesIO_of, Uint16LE_unpack.
  unfold bind at 1. rewrite Uint_unpack_exact by assumption. cbv beta iota.
  unfold bind at 1. rewrite Uint_unpack_exact by assumption. cbv beta iota zeta.
  unfold bind at 1. rewrite BytesIO_read_negative by lia. cbv beta iota.
  pose proof (len_nonneg rest).
  destruct (Z.ltb_spec (len rest) (le_value l - 4)) as [|_]; [lia|].
  rewrite P. unfold on_substream. cbn [app]. rewrite <- !app_assoc.
  now destruct (run_parser parser rest).
Qed.

Lemma server_block_length_below_4_witness :
  parseStructure (BytesIO_of ([0x01; 0x0C] ++ [0; 0] ++ [4; 0; 8; 0; 1; 0; 0; 0]))
  = (run_parser (fmap ServerCore parseServerCoreData) [4; 0; 8; 0; 1; 0; 0; 0],
     mkBytesIO ([0x01; 0x0C] ++ [0; 0] ++ [4; 0; 8; 0; 1; 0; 0; 0]) []).
Proof.
  apply (server_block_length_below_4_reads_to_end
           [0x01; 0x0C] [0; 0] [4; 0; 8; 0; 1; 0; 0; 0]
           (fmap ServerCore parseServerCoreData));
    first [reflexivity | (cbv; reflexivity)].
Defined.

(** X19: a writable server structure is written as a block made of its type
    tag, the length of the whole block and its payload, and [parseStructure]
    reads that block back to the structure, leaving what follows it. *)
Theorem server_block_roundtrip :
  forall x rest,
    writable_ServerStructure x = true ->
    exists payload,
      run_writer (writers x) = Ok payload
      /\ run_writer (writeStructure x)
         = Ok (le_bytes 2 (header x) ++ le_bytes 2 (len payload + 4) ++ payload)
      /\ parseStructure
           (BytesIO_of ((le_bytes 2 (header x) ++ le_bytes 2 (len payload + 4)
                         ++ payload) ++ rest))
         = (Ok x,
            mkBytesIO (le_bytes 2 (header x) ++ le_bytes 2 (len payload + 4)
                       ++ payload) rest).
Proof.
  intros x rest H.
  destruct (writable_ServerStructure_inv x H) as (payload & parser & W & F & B & _).
  exists payload. split; [exact W|]. rewrite <- B. split.
  - unfold run_writer. now rewrite server_writeStructure_block.
  - unfold BytesIO_of. now rewrite server_parseStructure_block.
Qed.

Lemma server_block_roundtrip_witness :
  exists payload,
    run_writer (writers (ServerNetwork (mkServerNetworkData 1003 [1004]))) = Ok payload
    /\ run_writer (writeStructure (ServerNetwork (mkServerNetworkData 1003 [1004])))
       = Ok (le_bytes 2 (header (ServerNetwork (mkServerNetworkData 1003 [1004])))
             ++ le_bytes 2 (len payload + 4) ++ payload)
    /\ parseStructure
         (BytesIO_of ((le_bytes 2 (header (ServerNetwork (mkServerNetworkData 1003 [1004])))
                       ++ le_bytes 2 (len payload + 4) ++ payload) ++ [7]))
       = (Ok (ServerNetwork (mkServerNetworkData 1003 [1004])),
          mkBytesIO (le_bytes 2 (header (ServerNetwork (mkServerNetworkData 1003 [1004])))
                     ++ le_bytes 2 (len payload + 4) ++ payload) [7]).
Proof.
  apply (server_block_roundtrip (ServerNetwork (mkServerNetworkData 1003 [1004])) [7]).
  reflexivity.
Defined.

Lemma server_write_if_present_blocks o out tag :
  server_field_ok tag o = true ->
  write_if_present o out
  = (Ok tt, out ++ flat_map ServerStructure_block (option_list o)).
Proof.
  destruct o as [x|]; cbn [server_field_ok write_if_present option_list flat_map].
  - intros H. apply andb_prop in H as [_ H].
    rewrite server_writeStructure_block by assumption. now rewrite app_nil_r.
  - intros _. unfold ret. now rewrite app_nil_r.
Qed.

Lemma server_field_ok_writable tag o :
  server_field_ok tag o = true ->
  forallb writable_ServerStructure (option_list o) = true.
Proof.
  destruct o as [x|]; cbn; [|reflexivity].
  intros H. apply andb_prop in H as [_ H]. now rewrite H.
Qed.

Lemma server_field_ok_inv tag o :
  server_field_ok tag o = true ->
  o = None \/ exists x, o = Some x /\ header x = tag.
Proof.
  destruct o as [x|]; [|now left]. cbn [server_field_ok]. intros H.
  apply andb_prop in H as [H _]. apply Z.eqb_eq in H. right. now exists x.
Qed.

Lemma write_server_blocks pdu :
  wellformed_ServerDataPDU pdu = true ->
  write pdu = Ok (flat_map ServerStructure_block (server_blocks pdu)).
Proof.
  unfold wellformed_ServerDataPDU. intros H. break_and.
  unfold write, run_writer, server_blocks.
  cbv beta iota delta [bind].
  repeat match goal with
         | H : server_field_ok ?tag ?o = true |- context [write_if_present ?o ?out] =>
           rewrite (server_write_if_present_blocks o out tag H)
         end.
  rewrite !flat_map_app, <- !app_assoc. reflexivity.
Qed.

Lemma wellformed_server_blocks pdu :
  wellformed_ServerDataPDU pdu = true ->
  forallb writable_ServerStructure (server_blocks pdu) = true.
Proof.
  unfold wellformed_ServerDataPDU, server_blocks. intros H. break_and.
  rewrite !forallb_app.
  repeat match goal with
         | H : server_field_ok ?tag ?o = true |- _ =>
           apply server_field_ok_writable in H; rewrite H
         end.
  reflexivity.
Qed.

Ltac server_field_cases H :=
  apply server_field_ok_inv in H;
  destruct H as [->|(x & -> & H)];
  [|destruct x; try (cbv in H; discriminate H); clear H].

Lemma record_server_blocks pdu :
  wellformed_ServerDataPDU pdu = true ->
  match server_record_blocks no_structure (server_blocks pdu) with
  | Ok vars => Ok (Some vars)
  | Raise e => Raise e
  end = server_parsed_back pdu.
Proof.
  destruct pdu as [f1 f2 f3 f4 f5].
  unfold wellformed_ServerDataPDU.
  cbn [coreData securityData networkData messageChannelData multitransportData].
  intros H. apply andb_prop in H as [H H5]. apply andb_prop in H as [H H4].
  apply andb_prop in H as [H H3]. apply andb_prop in H as [H1 H2].
  server_field_cases H1; server_field_cases H2; server_field_cases H3;
    server_field_cases H4; server_field_cases H5; reflexivity.
Qed.

(** X20: writing a well-formed Server Data PDU and parsing the bytes gives
    back the core, security and network blocks when the three are set, the
    message channel and multitransport blocks being left unread; when one
    of the three is unset, the loop of [doParse] runs off the end of the
    bytes and the read of a block header raises StructError. *)
Theorem server_pdu_roundtrip :
  forall pdu,
    wellformed_ServerDataPDU pdu = true ->
    exists data,
      write pdu = Ok data /\ doParse data = server_parsed_back pdu.
Proof.
  intros pdu H. exists (flat_map ServerStructure_block (server_blocks pdu)).
  split; [now apply write_server_blocks|].
  unfold doParse, run_parser, BytesIO_of.
  rewrite server_loop_blocks.
  - now apply record_server_blocks.
  - now apply wellformed_server_blocks.
  - pose proof (server_blocks_length _ (wellformed_server_blocks pdu H)). lia.
Qed.

Lemma server_pdu_roundtrip_witness :
  exists data,
    write example_server_pdu = Ok data
    /\ doParse data = server_parsed_back example_server_pdu.
Proof.
  apply (server_pdu_roundtrip example_server_pdu). vm_compute. reflexivity.
Defined.

End ServerBlocks.

Section ServerPayloads.
Import ServerPDU ServerConnectionParser.

Lemma write_result_Uint_pack_length w v out out' :
  write_result (Uint_pack w v) out = (Ok tt, out') ->
  length out' = (length out + w)%nat.
Proof.
  unfold Uint_pack. destruct (_ && _); cbn [write_result]; [|discriminate].
  unfold stream_write. intros [= <-]. now rewrite length_app, le_bytes_length.
Qed.

Lemma forM_Uint_pack_length w xs : forall out out',
  forM xs (fun x => write_result (Uint_pack w x)) out = (Ok tt, out') ->
  length out' = (length out + w * length xs)%nat.
Proof.
  induction xs as [|x r IH]; intros out out'; cbn [forM].
  - unfold ret. intros [= <-]. cbn [length]. lia.
  - unfold bind at 1.
    destruct (write_result (Uint_pack w x) out) as [[[]|e] out1] eqn:E; [|discriminate].
    intros H. apply IH in H. apply write_result_Uint_pack_length in E.
    cbn [length]. lia.
Qed.

(** X21: whenever [writeServerNetworkData] succeeds, the payload it wrote is
    the two 16-bit fields, two bytes per channel and two bytes of padding
    for an odd number of channels: its size is a multiple of 4, as the
    comment in the source promises. *)
Theorem server_network_payload_multiple_of_4 :
  forall network payload,
    run_writer (writeServerNetworkData network) = Ok payload ->
    len payload = 4 + 2 * len (channels network) + 2 * (len (channels network) mod 2)
    /\ len payload mod 4 = 0.
Proof.
  intros network payload. unfold run_writer, writeServerNetworkData.
  unfold Uint16LE_pack.
  unfold bind at 1.
  destruct (write_result (Uint_pack 2 (mcsChannelID network)) [])
    as [[[]|e] o1] eqn:E1; [|discriminate].
  unfold bind at 1.
  destruct (write_result (Uint_pack 2 (len (channels network))) o1)
    as [[[]|e] o2] eqn:E2; [|discriminate].
  unfold bind at 1.
  destruct (forM (channels network) _ o2) as [[[]|e] o3] eqn:E3; [|discriminate].
  apply write_result_Uint_pack_length in E1, E2.
  apply forM_Uint_pack_length in E3. cbn [length] in E1.
  assert (len (channels network) mod 2 = 0 \/ len (channels network) mod 2 = 1)
    as [Hm|Hm] by (pose proof (Z.mod_pos_bound (len (channels network)) 2); lia).
  - rewrite Hm. cbn [Z.eqb negb]. unfold ret. intros [= <-].
    unfold len in *. split; [lia|].
    replace (Z.of_nat (length o3))
      with (4 + 2 * Z.of_nat (length (channels network))) by lia.
    rewrite (Z.div_mod (Z.of_nat (length (channels network))) 2) at 1 by lia.
    rewrite Hm.
    replace (4 + 2 * (2 * (Z.of_nat (length (channels network)) / 2) + 0))
      with ((1 + Z.of_nat (length (channels network)) / 2) * 4) by lia.
    apply Z.mod_mul. lia.
  - rewrite Hm. cbn [Z.eqb negb].
    destruct (write_result (Uint_pack 2 0) o3) as [[[]|e] o4] eqn:E4; [|discriminate].
    apply write_result_Uint_pack_length in E4. intros [= <-].
    unfold len in *. split; [lia|].
    replace (Z.of_nat (length o4))
      with (6 + 2 * Z.of_nat (length (channels network))) by lia.
    rewrite (Z.div_mod (Z.of_nat (length (channels network))) 2) at 1 by lia.
    rewrite Hm.
    replace (6 + 2 * (2 * (Z.of_nat (length (channels network)) / 2) + 1))
      with ((2 + Z.of_nat (length (channels network)) / 2) * 4) by lia.
    apply Z.mod_mul. lia.
Qed.

Lemma server_network_payload_witness :
  len [0xEB; 3; 1; 0; 0xEC; 3; 0; 0]
  = 4 + 2 * len (channels (mkServerNetworkData 1003 [1004]))
    + 2 * (len (channels (mkServerNetworkData 1003 [1004])) mod 2)
  /\ len [0xEB; 3; 1; 0; 0xEC; 3; 0; 0] mod 4 = 0.
Proof.
  apply (server_network_payload_multiple_of_4 (mkServerNetworkData 1003 [1004])
           [0xEB; 3; 1; 0; 0xEC; 3; 0; 0]).
  reflexivity.
Defined.

Lemma parseServerCertificate_unhandled version body :
  fits 4 version = true -> version <> ServerCertificateType.PROPRIETARY ->
  parseServerCertificate (le_bytes 4 version ++ body) = Raise NotImplementedError.
Proof.
  intros F N. unfold parseServerCertificate, run_parser, BytesIO_of, Uint32LE_unpack.
  unfold bind at 1. rewrite Uint_unpack_fits by assumption. cbv beta iota.
  destruct (Z.eqb_spec version ServerCertificateType.PROPRIETARY); [contradiction|].
  reflexivity.
Qed.

Lemma member_fits_4 members v :
  forallb (fits 4) members = true -> is_member members v = true -> fits 4 v = true.
Proof.
  unfold is_member. rewrite forallb_forall, existsb_exists.
  intros H (x & Hin & E). apply Z.eqb_eq in E. subst x. now apply H.
Qed.

(** X22: server security data whose certificate is not of the proprietary
    type (an X.509 chain, for one) cannot be parsed: NotImplementedError
    leaves [parseServerSecurityData], the handler around the optional
    fields catching the end-of-input error only. *)
Theorem unhandled_certificate_type_raises_NotImplementedError :
  forall method level random version body,
    is_member EncryptionMethod.members method = true ->
    is_member EncryptionLevel.members level = true ->
    fits 4 (len random) = true ->
    fits 4 (len (le_bytes 4 version ++ body)) = true ->
    fits 4 version = true ->
    version <> ServerCertificateType.PROPRIETARY ->
    run_parser parseServerSecurityData
      (le_bytes 4 method ++ le_bytes 4 level ++ le_bytes 4 (len random)
       ++ le_bytes 4 (len (le_bytes 4 version ++ body))
       ++ random ++ le_bytes 4 version ++ body)
    = Raise NotImplementedError.
Proof.
  intros method level random version body Hm Hl Fr Fc Fv Nv.
  assert (fits 4 method = true) as Fm
    by (apply (member_fits_4 EncryptionMethod.members); [reflexivity | exact Hm]).
  assert (fits 4 level = true) as Fl
    by (apply (member_fits_4 EncryptionLevel.members); [reflexivity | exact Hl]).
  pose proof (parseServerCertificate_unhandled version body Fv Nv) as P.
  unfold run_parser, parseServerSecurityData, Uint32LE_unpack; cbv zeta.
  match goal with
  | |- context [BytesIO_of ?payload] =>
    replace payload
      with (le_bytes 4 method ++ le_bytes 4 level ++ le_bytes 4 (len random)
            ++ le_bytes 4 (len (le_bytes 4 version ++ body))
            ++ random ++ (le_bytes 4 version ++ body) ++ [])
      by now rewrite app_nil_r
  end.
  unfold BytesIO_of.
  do 4 strict_step. unfold bind at 1, with_locals, try_except.
  do 5 strict_step.
  unfold bind at 1. rewrite P. reflexivity.
Qed.

Lemma unhandled_certificate_type_witness :
  run_parser parseServerSecurityData
    (le_bytes 4 2 ++ le_bytes 4 2 ++ le_bytes 4 (len [1; 2; 3])
     ++ le_bytes 4 (len (le_bytes 4 2 ++ [0x30; 0x82]))
     ++ [1; 2; 3] ++ le_bytes 4 2 ++ [0x30; 0x82])
  = Raise NotImplementedError.
Proof.
  apply (unhandled_certificate_type_raises_NotImplementedError 2 2 [1; 2; 3] 2
           [0x30; 0x82]);
    first [reflexivity | (cbv; discriminate)].
Defined.

(** X23: [parsePublicKey] checks neither the magic nor the bit length nor
    the data length of a key blob, and needs no padding after the modulus:
    the key is built from the exponent and from the modulus, read least
    significant byte first, whatever the other fields hold. *)
Theorem parsePublicKey_reads_exponent_and_modulus_only :
  forall magic bitLength dataLength publicExponent modulus trailing,
    length magic = 4%nat -> length bitLength = 4%nat ->
    length dataLength = 4%nat ->
    fits 4 publicExponent = true -> fits 4 (len modulus + 8) = true ->
    parsePublicKey
      (magic ++ le_bytes 4 (len modulus + 8) ++ bitLength ++ dataLength
       ++ le_bytes 4 publicExponent ++ modulus ++ trailing)
    = RSA.construct (le_value modulus) publicExponent.
Proof.
  intros magic bitLength dataLength e modulus trailing Lm Lb Ld Fe Fk.
  unfold parsePublicKey, run_parser, BytesIO_of, Uint32LE_unpack.
  unfold bind at 1. rewrite BytesIO_read_exact' by (unfold len; lia). cbv beta iota.
  unfold bind at 1. rewrite Uint_unpack_fits by assumption. cbv beta iota.
  unfold bind at 1. rewrite Uint_unpack_exact by assumption. cbv beta iota.
  unfold bind at 1. rewrite Uint_unpack_exact by assumption. cbv beta iota.
  unfold bind at 1. rewrite Uint_unpack_fits by assumption. cbv beta iota.
  unfold bind at 1. rewrite BytesIO_read_exact' by lia. cbv beta iota.
  unfold bind at 1. unfold BytesIO_read at 1. cbv beta iota zeta.
  rewrite bytes_to_long_rev.
  now destruct (RSA.construct (le_value modulus) e).
Qed.

Lemma parsePublicKey_reads_exponent_and_modulus_only_witness :
  parsePublicKey
    ([0; 0; 0; 0] ++ le_bytes 4 (len [3; 2; 1] + 8) ++ [9; 9; 9; 9] ++ [7; 7; 7; 7]
     ++ le_bytes 4 5 ++ [3; 2; 1] ++ [])
  = RSA.construct (le_value [3; 2; 1]) 5.
Proof.
  apply (parsePublicKey_reads_exponent_and_modulus_only
           [0; 0; 0; 0] [9; 9; 9; 9] [7; 7; 7; 7] 5 [3; 2; 1] []);
    reflexivity.
Defined.

(** X24: what comes back from a written server core block: the version and
    the capability flags as they were, and the requested protocols as a
    number, 0 standing for an unset field. *)
Theorem server_core_write_then_parse :
  forall version protocols flags,
    fits 4 version = true -> opt_fits 4 protocols = true ->
    opt_fits 4 flags = true ->
    exists payload,
      run_writer (writeServerCoreData (mkServerCoreData version protocols flags))
      = Ok payload
      /\ run_parser parseServerCoreData payload
         = Ok (mkServerCoreData version
                 (Some match protocols with Some p => p | None => 0 end) flags).
Proof.
  intros version protocols flags Fv Fp Ff.
  assert (valid_ServerCoreData
            (mkServerCoreData version
               (Some match protocols with Some p => p | None => 0 end) flags)
          = true) as V.
  { unfold valid_ServerCoreData.
    cbn [ServerPDU.version clientRequestedProtocols earlyCapabilityFlags].
    rewrite Fv, Ff. now destruct protocols as [p|]; cbn [opt_fits] in Fp; rewrite ?Fp. }
  destruct (server_core_roundtrip _ V) as (payload & W & P).
  exists payload. split; [|exact P].
  rewrite <- W. now destruct protocols.
Qed.

Lemma server_core_write_then_parse_witness :
  exists payload,
    run_writer (writeServerCoreData (mkServerCoreData 0x00080004 None (Some 3)))
    = Ok payload
    /\ run_parser parseServerCoreData payload
       = Ok (mkServerCoreData 0x00080004
               (Some match @None Z with Some p => p | None => 0 end) (Some 3)).
Proof.
  apply (server_core_write_then_parse 0x00080004 None (Some 3)); reflexivity.
Defined.

End ServerPayloads.

(** ** Termination of the connection parsers *)

Section LoopsTerminate.

(** X25: the loops of the two connection parsers end on every input: the
    number of iterations given to them, one more than the number of bytes,
    is never used up, since an iteration that does not raise consumes the
    four bytes of a block header at least. *)
Theorem connection_parsers_terminate :
  forall data,
    ClientConnectionParser.doParse data <> Ok None
    /\ ServerConnectionParser.doParse data <> Ok None.
Proof.
  intros data. split.
  - apply client_doParse_returns.
  - apply server_doParse_returns.
Qed.

End LoopsTerminate.
